(** * ClawLens history store and collector (history.py)

    A shallow embedding of [HistoryDB] and [HistoryCollector].

    Conventions of the embedding:
    - a Python [float] (and an SQLite REAL) is an exact rational of [Q], or
      the NaN; [float()] of an int beyond the range of a double raises
      [OverflowError], and a NaN is bound to a statement as NULL.  Rounding
      and the infinities of IEEE doubles are outside the model;
    - a Python object is a value of JSON shape ([Py.value]), on which
      [json.dumps] succeeds; a Python [dict] is an association list in
      insertion order;
    - a table is the list of its rows in rowid order; an INSERT appends, and
      a row written before an exception stays visible to the connection;
    - an exception is a value of [exn], carried by the [result] monad; the
      exceptions of an exhausted interpreter or of a closed connection are
      outside the model;
    - [time.time()] is an explicit argument [now];
    - the functions of the Python runtime that the module calls but does not
      define ([json.dumps], [json.loads], [str], [float] on a string) are the
      fields of the class [PyLib].

    The file gives the model first ([Py], [HistoryDB], [HistoryCollector],
    [Lifecycle]), then the vocabulary of the specifications ([Spec],
    [MoreSpec]) and the sample data ([Samples]), then the lemmas and
    theorems. *)

From Stdlib Require Import List String Ascii ZArith QArith Qround Qabs Bool Lia Lqa.
From Stdlib Require Import Permutation Sorted Morphisms.
From Stdlib Require OrderedTypeEx.
Import ListNotations.

Local Open Scope string_scope.
Local Open Scope list_scope.
Local Open Scope Z_scope.
Local Open Scope Q_scope.

Set Implicit Arguments.

(* ------------------------------------------------------------------ *)
(** ** Python values *)
(* ------------------------------------------------------------------ *)

Module Py.

#[warnings="-register-all"]
Inductive value : Type :=
| VNone
| VBool (b : bool)
| VInt (z : Z)
| VFloat (q : Q)         (* a finite float *)
| VNaN                   (* the float NaN *)
| VStr (s : string)
| VList (l : list value)
| VDict (d : list (string * value)).

Inductive exn : Type :=
| TypeError
| ValueError
| AttributeError
| OverflowError
| IntegrityError         (* [sqlite3.IntegrityError] *)
| OtherError (msg : string).

Inductive result (A : Type) : Type :=
| Ok (a : A)
| Raise (e : exn).
Arguments Ok {A} a.
Arguments Raise {A} e.

Definition bind {A B} (m : result A) (k : A -> result B) : result B :=
  match m with
  | Ok a => k a
  | Raise e => Raise e
  end.

(** [try: m except (TypeError, ValueError): h] *)
Definition try_except_type_value {A} (m : result A) (h : result A) : result A :=
  match m with
  | Raise TypeError => h
  | Raise ValueError => h
  | other => other
  end.

(** Code that updates a state of type [S] and may raise: the state reached
    when the exception is raised is kept. *)
Definition M (S A : Type) : Type := S -> result A * S.

Definition ret {S A} (a : A) : M S A := fun s => (Ok a, s).

Definition bindM {S A B} (m : M S A) (k : A -> M S B) : M S B :=
  fun s =>
    match m s with
    | (Ok a, s') => k a s'
    | (Raise e, s') => (Raise e, s')
    end.

Definition lift {S A} (r : result A) : M S A := fun s => (r, s).

Definition modify {S} (f : S -> S) : M S unit := fun s => (Ok tt, f s).

(** [try: m except Exception: pass] *)
Definition try_pass {S} (m : M S unit) : M S unit :=
  fun s =>
    match m s with
    | (Ok _, s') => (Ok tt, s')
    | (Raise _, s') => (Ok tt, s')
    end.

(** [for x in l: body(x)] *)
Fixpoint for_each {S A} (l : list A) (body : A -> M S unit) : M S unit :=
  match l with
  | [] => ret tt
  | x :: xs => bindM (body x) (fun _ => for_each xs body)
  end.

Fixpoint mapM {A B} (f : A -> result B) (l : list A) : result (list B) :=
  match l with
  | [] => Ok []
  | x :: xs => bind (f x) (fun y => bind (mapM f xs) (fun ys => Ok (y :: ys)))
  end.

(** Truth value of an object, as tested by [if x:] and by [or]. *)
Definition truthy (v : value) : bool :=
  match v with
  | VNone => false
  | VBool b => b
  | VInt z => negb (z =? 0)%Z
  | VFloat q => negb (Qeq_bool q 0)
  | VNaN => true
  | VStr s => negb (s =? "")%string
  | VList l => match l with [] => false | _ => true end
  | VDict d => match d with [] => false | _ => true end
  end.

(** [a or b] *)
Definition or_ (a b : value) : value := if truthy a then a else b.

(** [isinstance(v, dict)], [isinstance(v, list)], [isinstance(v, (int, float))];
    [bool] is a subclass of [int]. *)
Definition is_dict (v : value) : bool :=
  match v with VDict _ => true | _ => false end.

Definition is_number (v : value) : bool :=
  match v with VBool _ | VInt _ | VFloat _ | VNaN => true | _ => false end.

(** Lookup, [d.get(k, default)] and [d[k] = v] on the association list. *)
Fixpoint lookup (k : string) (d : list (string * value)) : option value :=
  match d with
  | [] => None
  | (k', v) :: rest => if (k' =? k)%string then Some v else lookup k rest
  end.

Definition get (d : list (string * value)) (k : string) (default : value) : value :=
  match lookup k d with
  | Some v => v
  | None => default
  end.

Fixpoint set (k : string) (v : value) (d : list (string * value))
  : list (string * value) :=
  match d with
  | [] => [(k, v)]
  | (k', v') :: rest =>
      if (k' =? k)%string then (k, v) :: rest else (k', v') :: set k v rest
  end.

(** [obj[k] = v] on an arbitrary object: only a dict accepts a string key. *)
Definition setitem (obj : value) (k : string) (v : value) : result value :=
  match obj with
  | VDict d => Ok (VDict (set k v d))
  | _ => Raise TypeError
  end.

(** A float as [float()] returns it and as a query parameter: finite, or
    NaN. *)
Inductive pyfloat : Type :=
| Finite (q : Q)
| NaN.

Coercion Finite : Q >-> pyfloat.

(** The float as an object. *)
Definition of_float (x : pyfloat) : value :=
  match x with
  | Finite q => VFloat q
  | NaN => VNaN
  end.

(** [float()] converts the ints that round to a finite double, those of
    absolute value below [2**1024 - 2**970], and raises [OverflowError] on
    the others. *)
Definition float_limit : Z := (2 ^ 1024 - 2 ^ 970)%Z.

Definition fits_float (z : Z) : bool := (Z.abs z <? float_limit)%Z.

(** The part of the Python runtime the module relies on. *)
Class PyLib : Type := {
  (** [json.dumps] *)
  json_dumps : value -> string;
  (** [json.loads]; [None] stands for [json.JSONDecodeError] *)
  json_loads : string -> option value;
  (** [str] on an object that is not a string *)
  repr : value -> string;
  (** [float] on a string; [None] stands for [ValueError] *)
  float_of_string : string -> option pyfloat
}.

Section Runtime.
Context {lib : PyLib}.

(** [str(v)] *)
Definition str (v : value) : string :=
  match v with
  | VStr s => s
  | _ => repr v
  end.

(** [float(v)] *)
Definition float (v : value) : result pyfloat :=
  match v with
  | VBool b => Ok (Finite (if b then 1 else 0))
  | VInt z => if fits_float z then Ok (Finite (inject_Z z)) else Raise OverflowError
  | VFloat q => Ok (Finite q)
  | VNaN => Ok NaN
  | VStr s =>
      match float_of_string s with
      | Some x => Ok x
      | None => Raise ValueError
      end
  | VNone | VList _ | VDict _ => Raise TypeError
  end.

End Runtime.

End Py.

Import Py.

Notation "x <- m ;; k" := (Py.bind m (fun x => k))
  (at level 61, m at next level, right associativity).
Notation "x <~ m ;; k" := (Py.bindM m (fun x => k))
  (at level 61, m at next level, right associativity).
Notation "m ;;; k" := (Py.bindM m (fun _ => k))
  (at level 61, right associativity).

(* ------------------------------------------------------------------ *)
(** ** HistoryDB: the three tables and their operations *)
(* ------------------------------------------------------------------ *)

Module HistoryDB.

(** Row of [metrics (ts REAL NOT NULL, metric TEXT NOT NULL, value REAL,
    value_text TEXT)]. *)
Record metric_row : Type := MetricRow {
  ts : Q;
  metric : string;
  value : option Q;
  value_text : option string
}.

(** Row of [sessions (ts REAL NOT NULL, session_key TEXT NOT NULL,
    data TEXT NOT NULL)]. *)
Record session_row : Type := SessionRow {
  s_ts : Q;
  session_key : string;
  s_data : string
}.

(** Row of [crons (ts REAL NOT NULL, job_id TEXT NOT NULL, data TEXT NOT NULL)]. *)
Record cron_row : Type := CronRow {
  c_ts : Q;
  job_id : string;
  c_data : string
}.

Record t : Type := DB {
  metrics : list metric_row;
  sessions : list session_row;
  crons : list cron_row
}.

(** The store after [_init_db] on a fresh file. *)
Definition empty : t := DB [] [] [].

Definition insert_metric (r : metric_row) (db : t) : t :=
  DB (metrics db ++ [r]) (sessions db) (crons db).

Definition insert_session (r : session_row) (db : t) : t :=
  DB (metrics db) (sessions db ++ [r]) (crons db).

Definition insert_cron (r : cron_row) (db : t) : t :=
  DB (metrics db) (sessions db) (crons db ++ [r]).

(** *** SQL fragments shared by the queries *)

(** [ts >= ? AND ts <= ?] *)
Definition in_range (from_ts to_ts x : Q) : bool :=
  Qle_bool from_ts x && Qle_bool x to_ts.

(** [ORDER BY key ASC]: rows with equal keys stay in rowid order. *)
Section OrderBy.
Variable A : Type.
Variable key : A -> Q.

Fixpoint insert_sorted (x : A) (l : list A) : list A :=
  match l with
  | [] => [x]
  | y :: ys =>
      if Qle_bool (key x) (key y) then x :: l else y :: insert_sorted x ys
  end.

Fixpoint order_by (l : list A) : list A :=
  match l with
  | [] => []
  | x :: xs => insert_sorted x (order_by xs)
  end.

End OrderBy.

Section Operations.
Context {lib : PyLib}.

(** A float bound to a parameter of a statement: NaN is bound as NULL. *)
Definition sql_real (x : pyfloat) : option Q :=
  match x with
  | Finite q => Some q
  | NaN => None
  end.

(** [INSERT INTO metrics (ts, metric, value, value_text) VALUES (?, ?, ?, ?)]:
    [ts REAL NOT NULL] refuses a row without timestamp. *)
Definition insert_metric_row (ts0 : pyfloat) (name : string) (v : option Q)
  (text : option string) : M t unit :=
  match sql_real ts0 with
  | Some t0 => Py.modify (insert_metric (MetricRow t0 name v text))
  | None => Py.lift (Raise IntegrityError)
  end.

(** One iteration of the insert loop of [record_metrics]: a number goes to
    [value] as a float, anything else to [value_text] as its [str]. *)
Definition insert_value (ts0 : pyfloat) (name : string) (v : Py.value) : M t unit :=
  if is_number v
  then Py.bindM (Py.lift (float v))
         (fun x => insert_metric_row ts0 name (sql_real x) None)
  else insert_metric_row ts0 name None (Some (str v)).

(** First argument of [record_metrics]: a timestamp, or (alternate calling
    form, [isinstance(ts, str)]) a metric name. *)
Inductive first_arg : Type :=
| Timestamp (ts0 : pyfloat)
| MetricName (name : string).

(** [record_metrics(ts, data)]; [now] is what [time.time()] returns. *)
Definition record_metrics (now : Q) (a : first_arg) (data : Py.value) : M t unit :=
  match a with
  | MetricName name => insert_value now name data
  | Timestamp t0 =>
      match data with
      | VDict items => for_each items (fun kv => insert_value t0 (fst kv) (snd kv))
      | _ => Py.lift (Raise AttributeError)
      end
  end.

(** [record_session(ts, session_key, data)] *)
Definition record_session (ts0 : pyfloat) (key : string) (data : Py.value)
  : M t unit :=
  match sql_real ts0 with
  | Some t0 => Py.modify (insert_session (SessionRow t0 key (json_dumps data)))
  | None => Py.lift (Raise IntegrityError)
  end.

(** [record_cron(ts, job_id, data)] *)
Definition record_cron (ts0 : pyfloat) (id : string) (data : Py.value) : M t unit :=
  match sql_real ts0 with
  | Some t0 => Py.modify (insert_cron (CronRow t0 id (json_dumps data)))
  | None => Py.lift (Raise IntegrityError)
  end.

(** [try: d = json.loads(text) except (JSONDecodeError, TypeError):
    d = {"raw": text}] *)
Definition load_payload (text : string) : Py.value :=
  match json_loads text with
  | Some d => d
  | None => VDict [("raw", VStr text)]
  end.

(** A query filter is used only when it is truthy ([if session_key:]). *)
Definition active_filter (f : option string) : option string :=
  match f with
  | Some k => if (k =? "")%string then None else Some k
  | None => None
  end.

(** The SELECT of [query_sessions]. *)
Definition select_sessions (from_ts to_ts : Q) (key : option string) (db : t)
  : list session_row :=
  match active_filter key with
  | Some k =>
      order_by s_ts
        (filter (fun r => in_range from_ts to_ts (s_ts r)
                          && (session_key r =? k)%string) (sessions db))
  | None =>
      order_by s_ts (filter (fun r => in_range from_ts to_ts (s_ts r)) (sessions db))
  end.

(** Body of the [for row in rows] loop of [query_sessions]. *)
Definition session_record (r : session_row) : result Py.value :=
  d <- setitem (load_payload (s_data r)) "_ts" (VFloat (s_ts r)) ;;
  setitem d "_session_key" (VStr (session_key r)).

Definition query_sessions (from_ts to_ts : Q) (key : option string) (db : t)
  : result Py.value :=
  recs <- mapM session_record (select_sessions from_ts to_ts key db) ;;
  Ok (VDict [("sessions", VList recs)]).

(** The SELECT of [query_crons]. *)
Definition select_crons (from_ts to_ts : Q) (id : option string) (db : t)
  : list cron_row :=
  match active_filter id with
  | Some k =>
      order_by c_ts
        (filter (fun r => in_range from_ts to_ts (c_ts r)
                          && (job_id r =? k)%string) (crons db))
  | None =>
      order_by c_ts (filter (fun r => in_range from_ts to_ts (c_ts r)) (crons db))
  end.

Definition cron_record (r : cron_row) : result Py.value :=
  d <- setitem (load_payload (c_data r)) "_ts" (VFloat (c_ts r)) ;;
  setitem d "_job_id" (VStr (job_id r)).

Definition query_crons (from_ts to_ts : Q) (id : option string) (db : t)
  : result Py.value :=
  recs <- mapM cron_record (select_crons from_ts to_ts id db) ;;
  Ok (VDict [("crons", VList recs)]).

(** *** query_metrics *)

(** [FLOOR(ts / ?) * ?] with an integer parameter: an integer, or NULL when
    the division is by zero. *)
Definition bucket_of (interval : Z) (x : Q) : option Z :=
  if (interval =? 0)%Z then None
  else Some (Qfloor (x / inject_Z interval) * interval)%Z.

(** Order of SQLite on bucket keys: NULL first, then numbers ascending. *)
Definition key_lt (a b : option Z) : Prop :=
  match a, b with
  | None, None => False
  | None, Some _ => True
  | Some _, None => False
  | Some x, Some y => (x < y)%Z
  end.

Definition key_compare (a b : option Z) : comparison :=
  match a, b with
  | None, None => Eq
  | None, Some _ => Lt
  | Some _, None => Gt
  | Some x, Some y => (x ?= y)%Z
  end.

(** [GROUP BY bucket ORDER BY bucket ASC]: the groups in ascending key order,
    each with its values in row order. *)
Fixpoint group_insert (k : option Z) (v : Q) (groups : list (option Z * list Q))
  : list (option Z * list Q) :=
  match groups with
  | [] => [(k, [v])]
  | (k', vs) :: rest =>
      match key_compare k k' with
      | Lt => (k, [v]) :: groups
      | Eq => (k', v :: vs) :: rest
      | Gt => (k', vs) :: group_insert k v rest
      end
  end.

Fixpoint group_by (kvs : list (option Z * Q)) : list (option Z * list Q) :=
  match kvs with
  | [] => []
  | (k, v) :: rest => group_insert k v (group_by rest)
  end.

Definition Qsum (vs : list Q) : Q := fold_right Qplus 0 vs.

Definition mean (vs : list Q) : Q :=
  Qsum vs / inject_Z (Z.of_nat (List.length vs)).

(** [AVG(value)]: NULL on a group without a non-NULL value. *)
Definition sql_avg (vs : list Q) : option Q :=
  match vs with
  | [] => None
  | _ => Some (mean vs)
  end.

(** [WHERE metric = ? AND ts >= ? AND ts <= ? AND value IS NOT NULL], with
    the selected columns [bucket] and [value]. *)
Definition select_metric (name : string) (from_ts to_ts : Q) (interval : Z) (db : t)
  : list (option Z * Q) :=
  flat_map
    (fun r =>
       if (metric r =? name)%string && in_range from_ts to_ts (ts r)
       then match value r with
            | Some v => [(bucket_of interval (ts r), v)]
            | None => []
            end
       else [])
    (metrics db).

(** The rows fetched by [query_metrics]: [(bucket, avg_val)]. *)
Definition metric_rows (name : string) (from_ts to_ts : Q) (interval : Z) (db : t)
  : list (option Q * option Q) :=
  map (fun g => (option_map inject_Z (fst g), sql_avg (snd g)))
      (group_by (select_metric name from_ts to_ts interval db)).

(** [[row[0], row[1]] for row in rows if row[1] is not None] *)
Definition points (name : string) (from_ts to_ts : Q) (interval : Z) (db : t)
  : list (option Q * Q) :=
  flat_map
    (fun row => match snd row with
                | Some a => [(fst row, a)]
                | None => []
                end)
    (metric_rows name from_ts to_ts interval db).

Definition float_or_none (x : option Q) : Py.value :=
  match x with
  | Some q => VFloat q
  | None => VNone
  end.

Definition query_metrics (name : string) (from_ts to_ts : Q) (interval : Z) (db : t)
  : Py.value :=
  VDict [("points",
          VList (map (fun p => VList [float_or_none (fst p); VFloat (snd p)])
                     (points name from_ts to_ts interval db)))].

(** *** query_snapshot *)

(** [WHERE metric = 'snapshot' AND value_text IS NOT NULL
    ORDER BY ABS(ts - ?) ASC] *)
Definition snapshot_candidates (timestamp : Q) (db : t) : list metric_row :=
  order_by (fun r => Qabs (ts r - timestamp))
    (filter (fun r => (metric r =? "snapshot")%string
                      && match value_text r with Some _ => true | None => false end)
            (metrics db)).

(** [LIMIT 1] and [fetchone()] *)
Definition nearest_snapshot (timestamp : Q) (db : t) : option metric_row :=
  hd_error (snapshot_candidates timestamp db).

Definition query_snapshot (timestamp : Q) (db : t) : Py.value :=
  match nearest_snapshot timestamp db with
  | None => VDict [("snapshot", VDict [])]
  | Some r =>
      match value_text r with
      | Some text => VDict [("snapshot", load_payload text)]
      | None => VDict [("snapshot", VDict [("raw", VNone)])]
      end
  end.

(** *** get_available_metrics *)

(** [SELECT DISTINCT metric ... ORDER BY metric ASC]: the names in the
    binary order of SQLite on text, each once. *)
Fixpoint name_insert (s : string) (l : list string) : list string :=
  match l with
  | [] => [s]
  | x :: xs =>
      match String.compare s x with
      | Lt => s :: l
      | Eq => l
      | Gt => x :: name_insert s xs
      end
  end.

Definition distinct_metrics (db : t) : list string :=
  fold_right name_insert [] (map metric (metrics db)).

Definition get_available_metrics (db : t) : Py.value :=
  VDict [("metrics", VList (map VStr (distinct_metrics db)))].

(** *** get_stats *)

(** [MIN(ts)] and [MAX(ts)]: NULL on the empty table. *)
Definition sql_min (xs : list Q) : option Q :=
  match xs with
  | [] => None
  | x :: rest => Some (fold_left (fun m y => if Qle_bool m y then m else y) rest x)
  end.

Definition sql_max (xs : list Q) : option Q :=
  match xs with
  | [] => None
  | x :: rest => Some (fold_left (fun m y => if Qle_bool y m then m else y) rest x)
  end.

(** [get_stats()]; [file_size] is what [os.path.getsize(self.db_path)]
    returns, [None] standing for [OSError]. *)
Definition get_stats (file_size : option Z) (db : t) : Py.value :=
  let row0 := VInt (Z.of_nat (List.length (metrics db))) in
  let row1 := float_or_none (sql_min (map ts (metrics db))) in
  let row2 := float_or_none (sql_max (map ts (metrics db))) in
  let total_points := or_ row0 (VInt 0) in
  let oldest_ts := or_ row1 (VFloat 0) in
  let newest_ts := or_ row2 (VFloat 0) in
  let db_size_bytes :=
    match file_size with
    | Some n => VInt n
    | None => VInt 0
    end in
  VDict [("total_points", total_points); ("oldest_ts", oldest_ts);
         ("newest_ts", newest_ts); ("db_size_bytes", db_size_bytes)].

End Operations.

End HistoryDB.

(* ------------------------------------------------------------------ *)
(** ** HistoryCollector: one collection cycle and the worker loop *)
(* ------------------------------------------------------------------ *)

Module HistoryCollector.

(** [INTERVAL = 60] *)
Definition INTERVAL : nat := 60.

(** What one cycle updates: the store and the local dict [all_data]. *)
Record cycle : Type := Cycle {
  db : HistoryDB.t;
  all_data : list (string * Py.value)
}.

Definition on_db {A} (m : M HistoryDB.t A) : M cycle A :=
  fun c =>
    match m (db c) with
    | (r, db') => (r, Cycle db' (all_data c))
    end.

(** [all_data[k] = v] *)
Definition remember (k : string) (v : Py.value) : M cycle unit :=
  Py.modify (fun c => Cycle (db c) (Py.set k v (all_data c))).

Section Collect.
Context {lib : PyLib}.

(** The gateway: [gw_invoke(method, params)] returns a response or raises. *)
Variable gw_invoke : string -> Py.value -> result Py.value.

Definition _safe_float (val : Py.value) : result (option pyfloat) :=
  match val with
  | VNone => Ok None
  | _ => try_except_type_value (x <- float val ;; Ok (Some x)) (Ok None)
  end.

(** [if x is not None: metrics_data[k] = x] *)
Definition put_if_some (k : string) (x : option pyfloat)
  (d : list (string * Py.value)) : list (string * Py.value) :=
  match x with
  | Some f => Py.set k (of_float f) d
  | None => d
  end.

(** Step 1: [session_status]. *)
Definition collect_session_status (now : Q) : M cycle unit :=
  status <~ Py.lift (gw_invoke "session_status" (VDict [])) ;;
  match status with
  | VDict d =>
      cost <~ Py.lift (_safe_float (Py.get d "cost_total" VNone)) ;;
      tok_in <~ Py.lift (_safe_float (Py.get d "tokens_in_total" VNone)) ;;
      tok_out <~ Py.lift (_safe_float (Py.get d "tokens_out_total" VNone)) ;;
      let metrics_data :=
        put_if_some "tokens_out_total" tok_out
          (put_if_some "tokens_in_total" tok_in
             (put_if_some "cost_total" cost [])) in
      (if truthy (VDict metrics_data)
       then on_db (HistoryDB.record_metrics now (HistoryDB.Timestamp now)
                     (VDict metrics_data))
       else Py.ret tt) ;;;
      remember "session_status" status
  | _ => Py.ret tt
  end.

(** Step 2: [sessions_list], recorded as the count [sessions_active]. *)
Definition collect_sessions_list (now : Q) : M cycle unit :=
  sessions_resp <~
    Py.lift (gw_invoke "sessions_list"
               (VDict [("limit", VInt 50); ("messageLimit", VInt 0)])) ;;
  match sessions_resp with
  | VDict d =>
      match Py.get d "sessions" (VList []) with
      | VList sessions =>
          let active_count := List.length sessions in
          on_db (HistoryDB.record_metrics now (HistoryDB.Timestamp now)
                   (VDict [("sessions_active",
                            VFloat (inject_Z (Z.of_nat active_count)))])) ;;;
          remember "sessions_list" sessions_resp
      | _ => Py.ret tt
      end
  | _ => Py.ret tt
  end.

(** [float(last_run) / 1000 if float(last_run) > 1e10 else float(last_run)] *)
Definition normalize_last_run (last_run : Py.value) : result pyfloat :=
  x <- float last_run ;;
  Ok (match x with
      | Finite q => Finite (if Qle_bool q 10000000000 then q else q / 1000)
      | NaN => NaN
      end).

(** Body of [for job in jobs]. *)
Definition collect_job (now : Q) (job : Py.value) : M cycle unit :=
  match job with
  | VDict j =>
      let job_id :=
        or_ (or_ (Py.get j "id" VNone) (Py.get j "name" VNone)) (VStr "unknown") in
      let last_run := or_ (Py.get j "lastRun" VNone) (Py.get j "last_run" VNone) in
      if truthy last_run
      then
        last_ts <~
          Py.lift (try_except_type_value (normalize_last_run last_run)
                     (Ok (Finite now))) ;;
        on_db (HistoryDB.record_cron last_ts (str job_id) job)
      else Py.ret tt
  | _ => Py.ret tt
  end.

(** Step 3: [cron] list. *)
Definition collect_cron (now : Q) : M cycle unit :=
  cron_resp <~ Py.lift (gw_invoke "cron" (VDict [("action", VStr "list")])) ;;
  match cron_resp with
  | VDict d =>
      match Py.get d "jobs" (Py.get d "crons" (VList [])) with
      | VList jobs => for_each jobs (collect_job now)
      | _ => Py.ret tt
      end ;;;
      remember "cron" cron_resp
  | _ => Py.ret tt
  end.

(** Step 4: the full snapshot, inserted with [value] NULL. *)
Definition collect_snapshot (now : Q) : M cycle unit :=
  fun c =>
    let snapshot_json := json_dumps (VDict (all_data c)) in
    on_db (Py.modify
             (HistoryDB.insert_metric
                (HistoryDB.MetricRow now "snapshot" None (Some snapshot_json)))) c.

(** [_collect()] with [now = time.time()]: every step under its own
    [try ... except Exception: pass]. *)
Definition _collect (now : Q) (store : HistoryDB.t) : result unit * HistoryDB.t :=
  let m :=
    try_pass (collect_session_status now) ;;;
    try_pass (collect_sessions_list now) ;;;
    try_pass (collect_cron now) ;;;
    try_pass (collect_snapshot now) in
  match m (Cycle store []) with
  | (r, c) => (r, db c)
  end.

End Collect.

(** [_run()]: one [try: self._collect() except Exception: pass] per pass of
    the [while] loop.  The passes made before the stop event is seen are
    given by the clock reading and the gateway behaviour of each. *)
Fixpoint _run {lib : PyLib}
  (passes : list (Q * (string -> Py.value -> result Py.value)))
  : M HistoryDB.t unit :=
  match passes with
  | [] => Py.ret tt
  | (now, gw) :: rest => try_pass (_collect gw now) ;;; _run rest
  end.

End HistoryCollector.

(* ------------------------------------------------------------------ *)
(** ** HistoryCollector: start, stop and the worker thread *)
(* ------------------------------------------------------------------ *)

Module Lifecycle.

(** Where a worker thread stands in [_run]. *)
Inductive worker : Type :=
| AtLoopHead            (* about to test [while not self._stop_event.is_set()] *)
| Collecting            (* inside [self._collect()] *)
| Sleeping (k : nat)    (* in the sleep loop, [k] slices of 0.1 s left *)
| Exited.               (* [_run] has returned *)

(** [Thread.is_alive()] *)
Definition is_alive (w : worker) : bool :=
  match w with
  | Exited => false
  | _ => true
  end.

(** The collector object and the threads it has started: [_thread] is the
    thread the attribute refers to, [orphans] the threads started earlier
    and no longer referred to, [cycles] the number of collection cycles
    begun so far. *)
Record collector : Type := Collector {
  _stop_event : bool;
  _thread : option worker;
  orphans : list worker;
  cycles : nat
}.

(** The collector after [__init__]. *)
Definition initial : collector := Collector false None [] 0.

(** [self._thread and self._thread.is_alive()] *)
Definition running (c : collector) : bool :=
  match _thread c with
  | Some w => is_alive w
  | None => false
  end.

(** The part of [start()] after the guard: clear the event, create the
    thread, start it. *)
Definition spawn (c : collector) : collector :=
  Collector false (Some AtLoopHead)
    (match _thread c with
     | Some w => w :: orphans c
     | None => orphans c
     end)
    (cycles c).

(** [start()] *)
Definition start (c : collector) : collector :=
  if running c then c else spawn c.

(** [stop()]: set the event; the join only waits. *)
Definition stop (c : collector) : collector :=
  Collector true (_thread c) (orphans c) (cycles c).

(** One step of a worker thread, given the value of the stop event. *)
Definition worker_step (stopped : bool) (w : worker) : worker :=
  match w with
  | AtLoopHead => if stopped then Exited else Collecting
  | Collecting => Sleeping (HistoryCollector.INTERVAL * 10)
  | Sleeping (S k) => if stopped then Exited else Sleeping k
  | Sleeping O => AtLoopHead
  | Exited => Exited
  end.

(** A step of a worker begins a collection cycle when it enters [_collect]. *)
Definition begins_cycle (stopped : bool) (w : worker) : nat :=
  match w with
  | AtLoopHead => if stopped then 0 else 1
  | _ => 0
  end.

Fixpoint step_nth (stopped : bool) (i : nat) (ws : list worker) {struct ws}
  : list worker :=
  match ws with
  | [] => []
  | w :: rest =>
      match i with
      | O => worker_step stopped w :: rest
      | S j => w :: step_nth stopped j rest
      end
  end.

Definition cycles_nth (stopped : bool) (i : nat) (ws : list worker) : nat :=
  match nth_error ws i with
  | Some w => begins_cycle stopped w
  | None => 0
  end.

(** What can happen to a collector: a call of [start()], a call of
    [stop()], a step of the current thread, a step of an earlier thread. *)
Inductive event : Type :=
| Start
| Stop
| Tick
| TickOrphan (i : nat).

Definition step (c : collector) (e : event) : collector :=
  match e with
  | Start => start c
  | Stop => stop c
  | Tick =>
      match _thread c with
      | Some w =>
          Collector (_stop_event c) (Some (worker_step (_stop_event c) w))
            (orphans c) (cycles c + begins_cycle (_stop_event c) w)
      | None => c
      end
  | TickOrphan i =>
      Collector (_stop_event c) (_thread c)
        (step_nth (_stop_event c) i (orphans c))
        (cycles c + cycles_nth (_stop_event c) i (orphans c))
  end.

Definition run (events : list event) (c : collector) : collector :=
  fold_left step events c.

(** The number of worker threads that are alive. *)
Definition alive_workers (c : collector) : nat :=
  (if running c then 1 else 0)
  + List.length (filter is_alive (orphans c)).

(** Every thread that is no longer referred to has exited. *)
Definition orphans_exited (c : collector) : Prop :=
  Forall (fun w => w = Exited) (orphans c).

(** Steps of the current thread while the stop event is clear. *)
Definition ticks (n : nat) (c : collector) : collector :=
  run (repeat Tick n) c.

End Lifecycle.

(* ------------------------------------------------------------------ *)
(** ** Vocabulary of the specifications *)
(* ------------------------------------------------------------------ *)

Module Spec.
Import HistoryDB HistoryCollector.

(** Order of two rows by a numeric key. *)
Definition key_le {A : Type} (key : A -> Q) (a b : A) : Prop := key a <= key b.

(** Equality of two bucket keys. *)
Definition key_eqb (a b : option Z) : bool :=
  match key_compare a b with
  | Eq => true
  | _ => false
  end.

(** The values of the selected rows whose bucket key is [k], in row order. *)
Definition values_of (k : option Z) (kvs : list (option Z * Q)) : list Q :=
  map snd (filter (fun kv => key_eqb (fst kv) k) kvs).

(** [floor(timestamp / interval) * interval] *)
Definition bucket_start (interval : Z) (x : Q) : Z :=
  (Qfloor (x / inject_Z interval) * interval)%Z.

(** The numeric values of the rows named [name] with
    [from_ts <= ts <= to_ts] whose bucket starts at [k], in row order. *)
Definition bucket_values (name : string) (from_ts to_ts : Q) (interval : Z)
  (db : HistoryDB.t) (k : Z) : list Q :=
  flat_map
    (fun r =>
       match value r with
       | Some v =>
           if (metric r =? name)%string
              && (Qle_bool from_ts (ts r) && Qle_bool (ts r) to_ts)
              && (bucket_start interval (ts r) =? k)%Z
           then [v] else []
       | None => []
       end)
    (metrics db).

(** The integer keys of a list of groups. *)
Definition int_keys (gs : list (option Z * list Q)) : list Z :=
  flat_map (fun g => match fst g with Some k => [k] | None => [] end) gs.

(** The restriction a key filter puts on a row key: none when the filter is
    absent or the empty string, equality otherwise. *)
Definition key_matches (filter : option string) (k : string) : bool :=
  match filter with
  | None => true
  | Some f => if (f =? "")%string then true else (k =? f)%string
  end.


(** A row named ["snapshot"] that carries a text value. *)
Definition is_text_snapshot (r : metric_row) : bool :=
  (metric r =? "snapshot")%string
  && match value_text r with Some _ => true | None => false end.

(** A metrics row holds exactly one of its two values. *)
Definition one_value (r : metric_row) : Prop :=
  (value r <> None /\ value_text r = None)
  \/ (value r = None /\ value_text r <> None).

(** A metrics row never holds both of its values. *)
Definition not_both (r : metric_row) : Prop :=
  value r = None \/ value_text r = None.

(** The float a number is stored as; a NaN is stored as NULL. *)
Definition number_value (v : Py.value) : option Q :=
  match v with
  | VBool b => Some (if b then 1 else 0)
  | VInt z => Some (inject_Z z)
  | VFloat q => Some q
  | _ => None
  end.

(** The numbers that [float()] refuses with [OverflowError]: the ints
    beyond the range of a double. *)
Definition overflows (v : Py.value) : bool :=
  match v with
  | VInt z => negb (fits_float z)
  | _ => false
  end.

(** The float NaN. *)
Definition is_nan (v : Py.value) : bool :=
  match v with
  | VNaN => true
  | _ => false
  end.

(** The sum of a list of values, and what it is to be their arithmetic
    mean. *)
Definition total (vs : list Q) : Q := fold_right Qplus 0 vs.

Definition is_mean (a : Q) (vs : list Q) : Prop :=
  vs <> [] /\ a * inject_Z (Z.of_nat (List.length vs)) == total vs.

(** The names of the metrics taken from [session_status]. *)
Definition status_names : list string :=
  ["cost_total"; "tokens_in_total"; "tokens_out_total"].

(** The entry of [metrics_data] for a field, when it converted. *)
Definition opt_item {A : Type} (k : string) (o : option A) : list (string * A) :=
  match o with
  | Some q => [(k, q)]
  | None => []
  end.

(** The row of a numeric metric. *)
Definition float_row (now : Q) (kq : string * Q) : metric_row :=
  MetricRow now (fst kq) (Some (snd kq)) None.

(** Parameters of the three gateway calls. *)
Definition sessions_params : Py.value :=
  VDict [("limit", VInt 50); ("messageLimit", VInt 0)].

Definition cron_params : Py.value := VDict [("action", VStr "list")].

(** The last-run time of a job entry: [lastRun], else [last_run]. *)
Definition last_run_of (j : list (string * Py.value)) : Py.value :=
  or_ (Py.get j "lastRun" VNone) (Py.get j "last_run" VNone).

(** The job entries for which a cron row is due. *)
Definition with_last_run (job : Py.value) : bool :=
  match job with
  | VDict j => truthy (last_run_of j)
  | _ => false
  end.

(** A time in seconds: a value greater than 1e10 is in milliseconds. *)
Definition seconds (x : Q) : Q :=
  if Qlt_le_dec 10000000000 x then x / 1000 else x.

(** The row of a snapshot. *)
Definition snapshot_row (now : Q) (text : string) : metric_row :=
  MetricRow now "snapshot" None (Some text).

(** A row named ["snapshot"]. *)
Definition is_snapshot_row (r : metric_row) : bool :=
  (metric r =? "snapshot")%string.

Section WithLib.
Context {lib : PyLib}.

(** The row that [record_metrics] inserts for one value that [float()]
    does not refuse. *)
Definition metric_row_for (t0 : Q) (name : string) (v : Py.value) : metric_row :=
  if is_number v
  then MetricRow t0 name (number_value v) None
  else MetricRow t0 name None (Some (str v)).

(** One [record_metrics(t, {name: v})] call per sample [(t, v)]. *)
Definition write_all (name : string) (samples : list (Q * Py.value))
  : M HistoryDB.t unit :=
  for_each samples
    (fun s => record_metrics (fst s) (Timestamp (fst s)) (VDict [(name, snd s)])).

(** The numeric rows that the samples become. *)
Definition rows_of (name : string) (samples : list (Q * Py.value)) (xs : list Q)
  : list metric_row :=
  map (fun sx => MetricRow (fst (fst sx)) name (Some (snd sx)) None)
      (combine samples xs).

(** The sample holds a number whose float is the finite [x]. *)
Definition numeric (s : Q * Py.value) (x : Q) : Prop :=
  is_number (snd s) = true /\ float (snd s) = Ok (Finite x).

(** The key under which a job is recorded: its id, else its name, else
    ["unknown"]. *)
Definition job_key (j : list (string * Py.value)) : string :=
  if truthy (Py.get j "id" VNone) then str (Py.get j "id" VNone)
  else if truthy (Py.get j "name" VNone) then str (Py.get j "name" VNone)
  else "unknown".

Section Cycle.
Variable now : Q.

(** The timestamp of the cron row of a last-run value: the value in seconds
    when it converts to a finite float, the collection time when [float()]
    raises [TypeError] or [ValueError].  Otherwise the exception that ends
    the cron step: the [OverflowError] of [float()], or the
    [IntegrityError] of the insert when the float is NaN. *)
Definition last_ts (v : Py.value) : result Q :=
  match float v with
  | Ok (Finite x) => Ok (seconds x)
  | Ok NaN => Raise IntegrityError
  | Raise TypeError => Ok now
  | Raise ValueError => Ok now
  | Raise e => Raise e
  end.

(** The cron rows written for one entry of the job list, or the exception
    that ends the cron step there. *)
Definition job_rows (job : Py.value) : result (list cron_row) :=
  match job with
  | VDict j =>
      if truthy (last_run_of j)
      then match last_ts (last_run_of j) with
           | Ok t0 => Ok [CronRow t0 (job_key j) (json_dumps job)]
           | Raise e => Raise e
           end
      else Ok []
  | _ => Ok []
  end.

(** The entry does not end the cron step. *)
Definition job_passes (job : Py.value) : bool :=
  match job_rows job with
  | Ok _ => true
  | Raise _ => false
  end.

(** The cron rows written for a job list: those of the entries before the
    first one that ends the step. *)
Fixpoint jobs_rows (jobs : list Py.value) : list cron_row :=
  match jobs with
  | [] => []
  | job :: rest =>
      match job_rows job with
      | Ok rows => rows ++ jobs_rows rest
      | Raise _ => []
      end
  end.

End Cycle.

End WithLib.

End Spec.

(* ------------------------------------------------------------------ *)
(** ** A small runtime and stores for the worked examples *)
(* ------------------------------------------------------------------ *)

Module Samples.
Import HistoryDB.

(** A runtime that knows a handful of documents and numerals; everything
    else is malformed for it. *)
Definition sample_loads (s : string) : option Py.value :=
  if (s =? "{}")%string then Some (VDict [])
  else if (s =? "{n: 7}")%string then Some (VDict [("n", VInt 7)])
  else if (s =? "[]")%string then Some (VList [])
  else if (s =? "null")%string then Some VNone
  else if (s =? "7")%string then Some (VInt 7)
  else None.

Definition sample_dumps (v : Py.value) : string :=
  match v with
  | VDict [] => "{}"
  | VDict [("n", VInt 7)] => "{n: 7}"
  | VList [] => "[]"
  | VNone => "null"
  | VInt 7 => "7"
  | VDict _ => "{...}"
  | _ => "..."
  end.

Definition sample_float (s : string) : option pyfloat :=
  if (s =? "1700000000")%string then Some (Finite 1700000000)
  else if (s =? "1.5")%string then Some (Finite (3 # 2))
  else if (s =? "nan")%string then Some NaN
  else None.

Definition sample_lib : PyLib :=
  {| json_dumps := sample_dumps;
     json_loads := sample_loads;
     repr := sample_dumps;
     float_of_string := sample_float |}.

(** The three sample timestamps of the bucketing example, as one store. *)
Definition sample_db : HistoryDB.t :=
  DB [MetricRow 305 "cost_total" (Some 1) None;
      MetricRow 600 "cost_total" (Some 5) None;
      MetricRow 595 "cost_total" (Some 3) None;
      MetricRow 400 "cost_total" None (Some "n/a");
      MetricRow 410 "tokens_in_total" (Some 7) None;
      MetricRow 1300 "cost_total" (Some 9) None]
     [] [].

(** Two well-formed session rows around one whose text is not JSON, and one
    cron row of each kind. *)
Definition sample_store : HistoryDB.t :=
  DB []
     [SessionRow 10 "a" "{n: 7}"; SessionRow 5 "b" "not json"; SessionRow 20 "a" "{}"]
     [CronRow 7 "j" "{}"; CronRow 6 "k" "oops"].

(** A store reached through [record_metrics] alone: a number recorded under
    the name ["snapshot"] at 100, a text recorded under it at 200. *)
Definition mixed_store : HistoryDB.t :=
  snd (record_metrics (lib := sample_lib) 0 (Timestamp 200)
         (VDict [("snapshot", VStr "{}")])
         (snd (record_metrics (lib := sample_lib) 0 (Timestamp 100)
                 (VDict [("snapshot", VInt 1)]) HistoryDB.empty))).

(** A gateway that answers the three calls. *)
Definition sample_gateway (method : string) (params : Py.value) : result Py.value :=
  if (method =? "session_status")%string then
    Ok (VDict [("cost_total", VFloat (3 # 2)); ("tokens_in_total", VInt 500);
               ("tokens_out_total", VStr "n/a")])
  else if (method =? "sessions_list")%string then
    Ok (VDict [("sessions", VList [VDict []; VDict []])])
  else if (method =? "cron")%string then
    Ok (VDict [("jobs",
                VList [VDict [("id", VStr "a"); ("lastRun", VInt 1700000000000)];
                       VDict [("name", VStr "b"); ("last_run", VInt 1700000000)];
                       VDict [("id", VStr "c")]])])
  else Raise (OtherError "unknown method").

(** The same gateway with a failing [cron] call. *)
Definition broken_cron_gateway (method : string) (params : Py.value) : result Py.value :=
  if (method =? "cron")%string then Raise (OtherError "connection refused")
  else sample_gateway method params.

End Samples.

(* ------------------------------------------------------------------ *)
(** ** Vocabulary of the further properties *)
(* ------------------------------------------------------------------ *)

Module MoreSpec.
Import HistoryDB HistoryCollector Spec.

(** The binary order on names. *)
Definition name_lt (a b : string) : Prop := String.compare a b = Lt.

(** The smaller and the larger of two timestamps, as [MIN] and [MAX] keep
    them. *)
Definition pick_min (m y : Q) : Q := if Qle_bool m y then m else y.

Definition pick_max (m y : Q) : Q := if Qle_bool y m then m else y.

(** The numeric values of the rows named [name] with
    [from_ts <= ts <= to_ts], in row order. *)
Definition range_values (name : string) (from_ts to_ts : Q) (db : HistoryDB.t)
  : list Q :=
  flat_map
    (fun r =>
       if (metric r =? name)%string && in_range from_ts to_ts (ts r)
       then match value r with
            | Some v => [v]
            | None => []
            end
       else [])
    (metrics db).

(** [isinstance(v, list)] *)
Definition is_list (v : Py.value) : bool :=
  match v with
  | VList _ => true
  | _ => false
  end.

(** The answer to [sessions_list] is kept when it is a dict whose
    ["sessions"] entry, [[]] if absent, is a list. *)
Definition kept_sessions (r : result Py.value) : option Py.value :=
  match r with
  | Ok (VDict d) =>
      match Py.get d "sessions" (VList []) with
      | VList _ => Some (VDict d)
      | _ => None
      end
  | _ => None
  end.

(** [all_data[k] = v] when there is a [v]. *)
Definition put_opt (k : string) (o : option Py.value) (ad : list (string * Py.value))
  : list (string * Py.value) :=
  match o with
  | Some v => Py.set k v ad
  | None => ad
  end.

(** The row of a status metric: a NaN leaves [value] NULL. *)
Definition status_row (now : Q) (kx : string * pyfloat) : metric_row :=
  MetricRow now (fst kx) (sql_real (snd kx)) None.

(** The row of step 2, from the answer to [sessions_list]. *)
Definition sessions_rows (now : Q) (r : result Py.value) : list metric_row :=
  match r with
  | Ok (VDict d) =>
      match Py.get d "sessions" (VList []) with
      | VList l =>
          [float_row now ("sessions_active", inject_Z (Z.of_nat (List.length l)))]
      | _ => []
      end
  | _ => []
  end.

(** The number of steps of one turn of the worker loop: the test of the
    event, the cycle, the slices of the sleep and the end of the sleep loop. *)
Definition period : nat := HistoryCollector.INTERVAL * 10 + 3.

Section WithLib.
Context {lib : PyLib}.

(** The status fields that converted, in the order of [metrics_data], or
    the exception that ends step 1. *)
Definition status_items (d : list (string * Py.value))
  : result (list (string * pyfloat)) :=
  cost <- _safe_float (Py.get d "cost_total" VNone) ;;
  tok_in <- _safe_float (Py.get d "tokens_in_total" VNone) ;;
  tok_out <- _safe_float (Py.get d "tokens_out_total" VNone) ;;
  Ok (opt_item "cost_total" cost ++ opt_item "tokens_in_total" tok_in
      ++ opt_item "tokens_out_total" tok_out).

(** The rows of step 1, from the answer to [session_status]. *)
Definition status_rows (now : Q) (r : result Py.value) : list metric_row :=
  match r with
  | Ok (VDict d) =>
      match status_items d with
      | Ok items => map (status_row now) items
      | Raise _ => []
      end
  | _ => []
  end.

(** The answer to [session_status] is kept for the snapshot when it is a
    dict and step 1 runs to its end. *)
Definition kept_status (r : result Py.value) : option Py.value :=
  match r with
  | Ok (VDict d) =>
      match status_items d with
      | Ok _ => Some (VDict d)
      | Raise _ => None
      end
  | _ => None
  end.

(** The job list of the answer to [cron]: its ["jobs"] entry, else its
    ["crons"] entry, when that is a list. *)
Definition job_list (d : list (string * Py.value)) : list Py.value :=
  match Py.get d "jobs" (Py.get d "crons" (VList [])) with
  | VList jobs => jobs
  | _ => []
  end.

(** The cron rows of step 3, from the answer to [cron]. *)
Definition cron_rows (now : Q) (r : result Py.value) : list cron_row :=
  match r with
  | Ok (VDict d) => jobs_rows now (job_list d)
  | _ => []
  end.

(** The answer to [cron] is kept for the snapshot when it is a dict and no
    entry of its job list ends step 3. *)
Definition kept_cron (now : Q) (r : result Py.value) : option Py.value :=
  match r with
  | Ok (VDict d) =>
      if forallb (job_passes now) (job_list d) then Some (VDict d) else None
  | _ => None
  end.

(** The document of the snapshot, from the three gateway answers. *)
Definition snapshot_data (now : Q) (r1 r2 r3 : result Py.value)
  : list (string * Py.value) :=
  put_opt "cron" (kept_cron now r3)
    (put_opt "sessions_list" (kept_sessions r2)
       (put_opt "session_status" (kept_status r1) [])).

End WithLib.

End MoreSpec.

(* ------------------------------------------------------------------ *)
(** ** Properties of the SQL fragments *)
(* ------------------------------------------------------------------ *)

Module SqlFacts.
Import HistoryDB Spec Samples.

Lemma Qle_bool_false (x y : Q) : Qle_bool x y = false -> y <= x.
Proof.
  intros H. destruct (Qlt_le_dec y x) as [Hlt | Hle].
  - now apply Qlt_le_weak.
  - apply Qle_bool_iff in Hle. congruence.
Qed.

Lemma in_range_iff (a b x : Q) : in_range a b x = true <-> a <= x /\ x <= b.
Proof.
  unfold in_range. rewrite andb_true_iff, !Qle_bool_iff. tauto.
Qed.

Section OrderByFacts.
Variable A : Type.
Variable key : A -> Q.

Lemma insert_sorted_perm (x : A) (l : list A) :
  Permutation (insert_sorted key x l) (x :: l).
Proof.
  induction l as [| y ys IH]; simpl.
  - apply Permutation_refl.
  - destruct (Qle_bool (key x) (key y)).
    + apply Permutation_refl.
    + eapply perm_trans; [apply perm_skip, IH | apply perm_swap].
Qed.

Lemma order_by_perm (l : list A) : Permutation (order_by key l) l.
Proof.
  induction l as [| x xs IH]; simpl.
  - constructor.
  - eapply perm_trans; [apply insert_sorted_perm | now apply perm_skip].
Qed.

Lemma insert_sorted_Forall (P : A -> Prop) (x : A) (l : list A) :
  P x -> Forall P l -> Forall P (insert_sorted key x l).
Proof.
  intros Hx Hl.
  eapply Permutation_Forall; [apply Permutation_sym, insert_sorted_perm |].
  now constructor.
Qed.

Lemma insert_sorted_sorted (x : A) (l : list A) :
  StronglySorted (key_le key) l -> StronglySorted (key_le key) (insert_sorted key x l).
Proof.
  induction 1 as [| y ys Hs IH Hall]; simpl.
  - repeat constructor.
  - destruct (Qle_bool (key x) (key y)) eqn:E.
    + apply Qle_bool_iff in E.
      constructor; [now constructor |].
      constructor; [exact E |].
      eapply Forall_impl; [| exact Hall].
      intros z Hz. unfold key_le in *. eapply Qle_trans; eassumption.
    + apply Qle_bool_false in E.
      constructor; [exact IH |].
      apply insert_sorted_Forall; assumption.
Qed.

Lemma order_by_sorted (l : list A) : StronglySorted (key_le key) (order_by key l).
Proof.
  induction l as [| x xs IH]; simpl.
  - constructor.
  - now apply insert_sorted_sorted.
Qed.

Lemma order_by_In (l : list A) (x : A) : In x (order_by key l) <-> In x l.
Proof.
  split; apply Permutation_in;
    [apply order_by_perm | apply Permutation_sym, order_by_perm].
Qed.

End OrderByFacts.

(** *** GROUP BY *)

Lemma key_compare_eq (a b : option Z) : key_compare a b = Eq <-> a = b.
Proof.
  destruct a as [x |], b as [y |]; simpl; try (split; congruence).
  rewrite Z.compare_eq_iff. split; congruence.
Qed.

Lemma key_compare_lt (a b : option Z) : key_compare a b = Lt <-> key_lt a b.
Proof.
  destruct a as [x |], b as [y |]; simpl;
    first [apply Z.compare_lt_iff | tauto | split; [congruence | tauto]].
Qed.

Lemma key_compare_gt (a b : option Z) : key_compare a b = Gt <-> key_lt b a.
Proof.
  destruct a as [x |], b as [y |]; simpl;
    first [apply Z.compare_gt_iff | tauto | split; [congruence | tauto]].
Qed.

Lemma key_eqb_eq (a b : option Z) : key_eqb a b = true <-> a = b.
Proof.
  unfold key_eqb. rewrite <- key_compare_eq.
  destruct (key_compare a b); split; congruence.
Qed.

Lemma key_lt_irrefl (a : option Z) : ~ key_lt a a.
Proof. destruct a; simpl; lia. Qed.

Lemma key_lt_trans (a b c : option Z) : key_lt a b -> key_lt b c -> key_lt a c.
Proof. destruct a, b, c; simpl; try tauto; lia. Qed.

Lemma key_eq_dec (a b : option Z) : {a = b} + {a <> b}.
Proof.
  destruct (key_eqb a b) eqn:E.
  - left. now apply key_eqb_eq.
  - right. intros H. apply key_eqb_eq in H. congruence.
Qed.

Lemma sorted_head_not_In (k k' : option Z) (ks : list (option Z)) :
  StronglySorted key_lt (k' :: ks) -> (k = k' \/ key_lt k k') -> ~ In k ks.
Proof.
  intros Hs Hk Hin. inversion Hs as [| ? ? _ Hall]; subst.
  rewrite Forall_forall in Hall. specialize (Hall _ Hin).
  destruct Hk as [-> | Hk].
  - now apply key_lt_irrefl in Hall.
  - apply (@key_lt_irrefl k). eapply key_lt_trans; eassumption.
Qed.

Lemma group_insert_keys (k : option Z) (v : Q) (gs : list (option Z * list Q))
  (x : option Z) :
  In x (map fst (group_insert k v gs)) <-> x = k \/ In x (map fst gs).
Proof.
  induction gs as [| [k' vs] rest IH]; simpl.
  - intuition congruence.
  - destruct (key_compare k k') eqn:E; simpl.
    + apply key_compare_eq in E. subst. intuition congruence.
    + intuition congruence.
    + rewrite IH. intuition congruence.
Qed.

Lemma group_insert_sorted (k : option Z) (v : Q) (gs : list (option Z * list Q)) :
  StronglySorted key_lt (map fst gs) ->
  StronglySorted key_lt (map fst (group_insert k v gs)).
Proof.
  induction gs as [| [k' vs] rest IH]; simpl; intros Hs.
  - repeat constructor.
  - inversion Hs as [| ? ? Hrest Hall]; subst.
    destruct (key_compare k k') eqn:E; simpl.
    + exact Hs.
    + apply key_compare_lt in E.
      constructor; [exact Hs |].
      constructor; [exact E |].
      eapply Forall_impl; [| exact Hall].
      intros z Hz. eapply key_lt_trans; eassumption.
    + apply key_compare_gt in E.
      constructor; [now apply IH |].
      apply Forall_forall. intros x Hx.
      apply group_insert_keys in Hx. destruct Hx as [-> | Hx]; [exact E |].
      rewrite Forall_forall in Hall. now apply Hall.
Qed.

Lemma group_by_sorted (kvs : list (option Z * Q)) :
  StronglySorted key_lt (map fst (group_by kvs)).
Proof.
  induction kvs as [| [k v] rest IH]; simpl.
  - constructor.
  - now apply group_insert_sorted.
Qed.

Lemma group_by_keys (kvs : list (option Z * Q)) (x : option Z) :
  In x (map fst (group_by kvs)) <-> In x (map fst kvs).
Proof.
  induction kvs as [| [k v] rest IH]; simpl.
  - tauto.
  - rewrite group_insert_keys, IH. intuition congruence.
Qed.

Lemma group_insert_values (f : option Z -> list Q) (k : option Z) (v : Q)
  (gs : list (option Z * list Q)) :
  StronglySorted key_lt (map fst gs) ->
  (forall kk vv, In (kk, vv) gs -> vv = f kk) ->
  (~ In k (map fst gs) -> f k = []) ->
  forall kk vv, In (kk, vv) (group_insert k v gs) ->
    vv = if key_eq_dec kk k then v :: f kk else f kk.
Proof.
  induction gs as [| [k' vs] rest IH]; simpl; intros Hs Hval Hnew kk vv Hin.
  - destruct Hin as [Heq | []]. inversion Heq; subst.
    destruct (key_eq_dec kk kk); [| congruence].
    rewrite Hnew; tauto.
  - assert (Hkeys : forall x w, In (x, w) rest -> In x (map fst rest)).
    { intros x w Hx. apply in_map_iff. now exists (x, w). }
    destruct (key_compare k k') eqn:E.
    + apply key_compare_eq in E. subst k'.
      destruct Hin as [Heq | Hin].
      * inversion Heq; subst.
        destruct (key_eq_dec kk kk); [| congruence].
        f_equal. apply Hval. now left.
      * destruct (key_eq_dec kk k) as [-> | _].
        -- exfalso.
           apply (@sorted_head_not_In k k (map fst rest)); [exact Hs | now left | eauto].
        -- apply Hval. now right.
    + apply key_compare_lt in E.
      assert (Hfresh : ~ In k (k' :: map fst rest)).
      { intros [<- | Hk].
        - now apply key_lt_irrefl in E.
        - apply (@sorted_head_not_In k k' (map fst rest)); [exact Hs | now right | exact Hk]. }
      destruct Hin as [Heq | Hin].
      * inversion Heq; subst.
        destruct (key_eq_dec kk kk); [| congruence].
        rewrite Hnew; [reflexivity | exact Hfresh].
      * destruct (key_eq_dec kk k) as [-> | _].
        -- exfalso. apply Hfresh.
           destruct Hin as [Heq | Hin]; [inversion Heq; now left | right; eauto].
        -- now apply Hval.
    + apply key_compare_gt in E.
      destruct Hin as [Heq | Hin].
      * inversion Heq; subst.
        destruct (key_eq_dec kk k) as [-> | _].
        -- now apply key_lt_irrefl in E.
        -- apply Hval. now left.
      * inversion Hs; subst.
        apply IH; auto.
        intros Hk. apply Hnew. intros [<- | Hin'].
        -- now apply key_lt_irrefl in E.
        -- tauto.
Qed.

Lemma values_of_cons (k k0 : option Z) (v0 : Q) (kvs : list (option Z * Q)) :
  values_of k ((k0, v0) :: kvs) =
  if key_eq_dec k k0 then v0 :: values_of k kvs else values_of k kvs.
Proof.
  unfold values_of. simpl.
  destruct (key_eq_dec k k0) as [-> | Hne].
  - assert (E : key_eqb k0 k0 = true) by now apply key_eqb_eq.
    now rewrite E.
  - destruct (key_eqb k0 k) eqn:E; [| reflexivity].
    apply key_eqb_eq in E. congruence.
Qed.

Lemma values_of_nil_iff (k : option Z) (kvs : list (option Z * Q)) :
  values_of k kvs = [] <-> ~ In k (map fst kvs).
Proof.
  induction kvs as [| [k0 v0] rest IH].
  - simpl. unfold values_of. simpl. tauto.
  - rewrite values_of_cons. simpl.
    destruct (key_eq_dec k k0) as [-> | Hne].
    + split; [discriminate | tauto].
    + rewrite IH. intuition congruence.
Qed.

Lemma values_of_app (k : option Z) (l1 l2 : list (option Z * Q)) :
  values_of k (l1 ++ l2) = values_of k l1 ++ values_of k l2.
Proof. unfold values_of. now rewrite filter_app, map_app. Qed.

Lemma group_by_values (kvs : list (option Z * Q)) (k : option Z) (vs : list Q) :
  In (k, vs) (group_by kvs) -> vs = values_of k kvs.
Proof.
  revert k vs. induction kvs as [| [k0 v0] rest IH]; simpl; intros k vs Hin.
  - contradiction.
  - rewrite values_of_cons.
    apply (group_insert_values (fun kk => values_of kk rest)) in Hin.
    + exact Hin.
    + apply group_by_sorted.
    + exact IH.
    + rewrite group_by_keys. apply values_of_nil_iff.
Qed.

(** The groups are exactly the keys that occur, each with all its values. *)
Lemma group_by_In (kvs : list (option Z * Q)) (k : option Z) (vs : list Q) :
  In (k, vs) (group_by kvs) <-> vs = values_of k kvs /\ vs <> [].
Proof.
  split.
  - intros Hin. pose proof (group_by_values _ _ _ Hin) as Hv. split; [exact Hv |].
    subst vs. rewrite values_of_nil_iff. intros Hno. apply Hno.
    apply group_by_keys. apply in_map_iff. now exists (k, values_of k kvs).
  - intros [-> Hne].
    assert (Hk : In k (map fst (group_by kvs))).
    { apply group_by_keys. destruct (in_dec key_eq_dec k (map fst kvs)) as [H | H].
      - exact H.
      - apply values_of_nil_iff in H. contradiction. }
    apply in_map_iff in Hk. destruct Hk as [[k' vs'] [Hfst Hin]]. simpl in Hfst. subst k'.
    now rewrite <- (group_by_values _ _ _ Hin).
Qed.

End SqlFacts.

(* ------------------------------------------------------------------ *)
(** ** query_metrics: bucketed averages *)
(* ------------------------------------------------------------------ *)

Module MetricsSpec.
Import HistoryDB SqlFacts Spec Samples.

Lemma bucket_of_nonzero (interval : Z) (x : Q) :
  interval <> 0%Z -> bucket_of interval x = Some (bucket_start interval x).
Proof.
  intros H. unfold bucket_of. destruct (interval =? 0)%Z eqn:E.
  - apply Z.eqb_eq in E. contradiction.
  - reflexivity.
Qed.

Lemma select_values (name : string) (from_ts to_ts : Q) (interval : Z)
  (db : HistoryDB.t) (k : Z) :
  interval <> 0%Z ->
  values_of (Some k) (select_metric name from_ts to_ts interval db)
  = bucket_values name from_ts to_ts interval db k.
Proof.
  intros Hi. unfold select_metric, bucket_values, in_range.
  induction (metrics db) as [| r rows IH]; simpl.
  - reflexivity.
  - rewrite values_of_app, IH. f_equal.
    destruct (value r) as [v |];
      destruct ((metric r =? name)%string
                && (Qle_bool from_ts (ts r) && Qle_bool (ts r) to_ts)); simpl;
      try reflexivity.
    rewrite (bucket_of_nonzero _ Hi), values_of_cons.
    destruct (key_eq_dec (Some k) (Some (bucket_start interval (ts r)))) as [E | E].
    + inversion E. now rewrite Z.eqb_refl.
    + destruct (Z.eqb_spec (bucket_start interval (ts r)) k); [congruence | reflexivity].
Qed.

Lemma select_keys (name : string) (from_ts to_ts : Q) (interval : Z)
  (db : HistoryDB.t) (x : option Z) :
  interval <> 0%Z ->
  In x (map fst (select_metric name from_ts to_ts interval db)) ->
  exists k, x = Some k.
Proof.
  intros Hi. unfold select_metric.
  induction (metrics db) as [| r rows IH]; simpl.
  - contradiction.
  - rewrite map_app, in_app_iff. intros [H | H]; [| now apply IH].
    destruct ((metric r =? name)%string && in_range from_ts to_ts (ts r));
      [| contradiction].
    destruct (value r); [| contradiction].
    rewrite (bucket_of_nonzero _ Hi) in H. simpl in H.
    destruct H as [<- | []]. now eexists.
Qed.

Lemma points_of_groups (gs : list (option Z * list Q)) :
  Forall (fun g => snd g <> []) gs ->
  flat_map
    (fun row : option Q * option Q =>
       match snd row with
       | Some a => [(fst row, a)]
       | None => []
       end)
    (map (fun g => (option_map inject_Z (fst g), sql_avg (snd g))) gs)
  = map (fun g => (option_map inject_Z (fst g), mean (snd g))) gs.
Proof.
  induction 1 as [| [k vs] rest Hne _ IH]; simpl in *.
  - reflexivity.
  - rewrite IH. destruct vs; [congruence | reflexivity].
Qed.

Lemma int_keys_groups (f : Z -> list Q) (gs : list (option Z * list Q)) :
  Forall (fun g => exists k, fst g = Some k /\ snd g = f k) gs ->
  gs = map (fun k => (Some k, f k)) (int_keys gs).
Proof.
  induction 1 as [| [x vs] rest [k [Hk Hv]] _ IH]; simpl in *.
  - reflexivity.
  - subst. simpl. now rewrite <- IH.
Qed.

Lemma int_keys_In (gs : list (option Z * list Q)) (k : Z) :
  In k (int_keys gs) <-> In (Some k) (map fst gs).
Proof.
  unfold int_keys. induction gs as [| [x vs] rest IH]; simpl.
  - tauto.
  - rewrite in_app_iff, IH. destruct x as [k' |]; simpl; intuition congruence.
Qed.

Lemma int_keys_sorted (gs : list (option Z * list Q)) :
  StronglySorted key_lt (map fst gs) -> StronglySorted Z.lt (int_keys gs).
Proof.
  induction gs as [| [x vs] rest IH]; simpl; intros Hs.
  - constructor.
  - inversion Hs as [| ? ? Hrest Hall]; subst.
    destruct x as [k |]; simpl; [| now apply IH].
    constructor; [now apply IH |].
    apply Forall_forall. intros k' Hk'. apply int_keys_In in Hk'.
    rewrite Forall_forall in Hall. exact (Hall _ Hk').
Qed.

Lemma groups_of_select (name : string) (from_ts to_ts : Q) (interval : Z)
  (db : HistoryDB.t) :
  interval <> 0%Z ->
  let gs := group_by (select_metric name from_ts to_ts interval db) in
  gs = map (fun k => (Some k, bucket_values name from_ts to_ts interval db k))
           (int_keys gs)
  /\ Forall (fun g => snd g <> []) gs.
Proof.
  intros Hi gs. split.
  - apply int_keys_groups. apply Forall_forall. intros [x vs] Hin.
    pose proof Hin as Hin'. apply group_by_In in Hin'. destruct Hin' as [Hv _].
    assert (Hx : In x (map fst gs)) by (apply in_map_iff; now exists (x, vs)).
    apply group_by_keys in Hx.
    destruct (@select_keys name from_ts to_ts interval db x Hi Hx) as [k ->].
    exists k. simpl. split; [reflexivity |].
    now rewrite <- (select_values name from_ts to_ts db k Hi).
  - apply Forall_forall. intros [x vs] Hin. apply group_by_In in Hin. tauto.
Qed.

Example sample_points :
  points "cost_total" 0 1000 300 sample_db
  = [(Some (300 # 1), 4 # 2); (Some (600 # 1), 5 # 1)].
Proof. vm_compute. reflexivity. Qed.

(** The points are the non-empty buckets in ascending order, each with the
    mean of its values. *)
Lemma points_by_bucket (name : string) (from_ts to_ts : Q) (interval : Z)
  (db : HistoryDB.t) :
  interval <> 0%Z ->
  exists ks : list Z,
    StronglySorted Z.lt ks
    /\ (forall k, In k ks <->
                  bucket_values name from_ts to_ts interval db k <> [])
    /\ points name from_ts to_ts interval db
       = map (fun k => (Some (inject_Z k),
                        mean (bucket_values name from_ts to_ts interval db k))) ks.
Proof.
  intros Hi.
  destruct (groups_of_select name from_ts to_ts db Hi) as [Hgs Hne].
  set (sel := select_metric name from_ts to_ts interval db) in *.
  set (gs := group_by sel) in *.
  exists (int_keys gs). repeat split.
  - apply int_keys_sorted. apply group_by_sorted.
  - intros Hk. apply int_keys_In in Hk. apply group_by_keys in Hk.
    rewrite <- (select_values name from_ts to_ts db k Hi).
    fold sel. now rewrite values_of_nil_iff.
  - intros Hk. apply int_keys_In. apply group_by_keys.
    rewrite <- (select_values name from_ts to_ts db k Hi) in Hk.
    fold sel in Hk. rewrite values_of_nil_iff in Hk.
    destruct (in_dec key_eq_dec (Some k) (map fst sel)); tauto.
  - unfold points, metric_rows. fold sel. fold gs.
    rewrite (points_of_groups Hne).
    transitivity
      (map (fun g : option Z * list Q => (option_map inject_Z (fst g), mean (snd g)))
           (map (fun k => (Some k, bucket_values name from_ts to_ts interval db k))
                (int_keys gs))).
    + now rewrite <- Hgs.
    + now rewrite map_map.
Qed.

Lemma mean_is_mean (vs : list Q) : vs <> [] -> is_mean (mean vs) vs.
Proof.
  intros Hne. split; [exact Hne |].
  unfold mean, total, Qsum.
  assert (Hn : ~ inject_Z (Z.of_nat (List.length vs)) == 0).
  { destruct vs as [| v rest]; [congruence |].
    unfold Qeq. simpl. lia. }
  field. exact Hn.
Qed.

(** C1. For every metric name, inclusive range and non-zero interval,
    [query_metrics] returns one point per non-empty bucket: the bucket starts
    [floor(ts / interval) * interval] of the rows of that name in range with a
    numeric value, strictly ascending, each with the arithmetic mean of the
    numeric values of its rows (their sum divided by their number); buckets
    without such a row do not appear.  With interval 300 the timestamps 305
    and 595 fall in bucket 300 and the timestamp 600 in bucket 600: rows
    with the values 1 at 305, 3 at 595 and 5 at 600 give the points
    [[300, 2]] and [[600, 5]]. *)
Theorem query_metrics_buckets (name : string) (from_ts to_ts : Q) (interval : Z)
  (db : HistoryDB.t) :
  interval <> 0%Z ->
  (exists pts : list (Z * Q),
     query_metrics name from_ts to_ts interval db
     = VDict [("points",
               VList (map (fun p => VList [VFloat (inject_Z (fst p)); VFloat (snd p)])
                          pts))]
     /\ StronglySorted Z.lt (map fst pts)
     /\ (forall k, In k (map fst pts) <->
                   bucket_values name from_ts to_ts interval db k <> [])
     /\ (forall k a, In (k, a) pts ->
                     is_mean a (bucket_values name from_ts to_ts interval db k)))
  /\ bucket_of 300 305 = Some 300%Z
  /\ bucket_of 300 595 = Some 300%Z
  /\ bucket_of 300 600 = Some 600%Z
  /\ (exists a b,
        query_metrics "cost_total" 0 1000 300
          (DB [MetricRow 305 "cost_total" (Some 1) None;
               MetricRow 595 "cost_total" (Some 3) None;
               MetricRow 600 "cost_total" (Some 5) None] [] [])
        = VDict [("points", VList [VList [VFloat 300; VFloat a];
                                   VList [VFloat 600; VFloat b]])]
        /\ a == 2 /\ b == 5).
Proof.
  intros Hi. split.
  - destruct (points_by_bucket name from_ts to_ts db Hi) as [ks [Hs [Hk Hpts]]].
    exists (map (fun k => (k, mean (bucket_values name from_ts to_ts interval db k)))
                ks).
    assert (Hfst : map fst
                     (map (fun k => (k, mean (bucket_values name from_ts to_ts
                                                interval db k))) ks) = ks).
    { rewrite map_map. simpl. apply map_id. }
    rewrite Hfst. split; [| split; [exact Hs | split; [exact Hk |]]].
    + unfold query_metrics. rewrite Hpts, !map_map. reflexivity.
    + intros k a Hin. apply in_map_iff in Hin. destruct Hin as [k' [E Hin]].
      inversion E; subst. apply mean_is_mean. now apply Hk.
  - split; [reflexivity |]. split; [reflexivity |]. split; [reflexivity |].
    eexists. eexists. split; [vm_compute; reflexivity |]. split; reflexivity.
Qed.

Lemma query_metrics_buckets_witness :
  exists pts : list (Z * Q),
    query_metrics "cost_total" 0 1000 300 sample_db
    = VDict [("points",
              VList (map (fun p => VList [VFloat (inject_Z (fst p)); VFloat (snd p)])
                         pts))]
    /\ StronglySorted Z.lt (map fst pts)
    /\ (forall k, In k (map fst pts) <->
                  bucket_values "cost_total" 0 1000 300 sample_db k <> [])
    /\ (forall k a, In (k, a) pts ->
                    is_mean a (bucket_values "cost_total" 0 1000 300 sample_db k)).
Proof.
  apply (query_metrics_buckets "cost_total" 0 1000 sample_db (interval := 300)).
  lia.
Defined.

End MetricsSpec.

(* ------------------------------------------------------------------ *)
(** ** Writing metrics and reading them back *)
(* ------------------------------------------------------------------ *)

Module RoundTrip.
Import HistoryDB SqlFacts MetricsSpec Spec Samples.

Section WithLib.
Context {lib : PyLib}.

Lemma write_all_rows (name : string) (samples : list (Q * Py.value)) (xs : list Q) :
  Forall2 numeric samples xs ->
  forall db,
    write_all name samples db
    = (Ok tt, DB (metrics db ++ rows_of name samples xs) (sessions db) (crons db)).
Proof.
  unfold write_all, rows_of.
  induction 1 as [| [t0 v] x samples xs [Hnum Hfloat] _ IH]; intros db; simpl.
  - unfold Py.ret. rewrite app_nil_r. now destruct db.
  - simpl in Hnum, Hfloat.
    unfold Py.bindM at 1. unfold record_metrics, for_each, insert_value.
    rewrite Hnum. unfold Py.bindM, Py.lift, insert_metric_row, Py.modify, Py.ret.
    rewrite Hfloat. simpl.
    fold (@for_each HistoryDB.t (Q * Py.value)).
    rewrite IH. unfold insert_metric. simpl. now rewrite <- app_assoc.
Qed.

End WithLib.

Lemma bucket_values_app (name : string) (from_ts to_ts : Q) (interval : Z)
  (db : HistoryDB.t) (rows : list metric_row) (k : Z) :
  bucket_values name from_ts to_ts interval
    (DB (metrics db ++ rows) (sessions db) (crons db)) k
  = bucket_values name from_ts to_ts interval db k
    ++ bucket_values name from_ts to_ts interval (DB rows [] []) k.
Proof. unfold bucket_values. simpl. apply flat_map_app. Qed.

Lemma bucket_values_new {lib : PyLib} (name : string) (from_ts to_ts : Q)
  (interval : Z) (k : Z) (samples : list (Q * Py.value)) (xs : list Q) :
  List.length samples = List.length xs ->
  Forall (fun s => in_range from_ts to_ts (fst s) = true
                   /\ bucket_start interval (fst s) = k) samples ->
  bucket_values name from_ts to_ts interval (DB (rows_of name samples xs) [] []) k = xs.
Proof.
  unfold bucket_values, rows_of. simpl.
  revert xs. induction samples as [| [t0 v] samples IH]; intros [| x xs] Hlen Hall;
    simpl in *; try discriminate; try reflexivity.
  inversion Hall as [| ? ? [Hr Hb] Hall']; subst. simpl in *.
  rewrite String.eqb_refl. unfold in_range in Hr. rewrite Hr, Z.eqb_refl. simpl.
  f_equal. apply IH; [congruence | assumption].
Qed.

Lemma Qsum_const (v : Q) (xs : list Q) :
  Forall (Qeq v) xs -> Qsum xs == inject_Z (Z.of_nat (List.length xs)) * v.
Proof.
  induction 1 as [| x xs Hx _ IH].
  - simpl. unfold Qsum. simpl. ring.
  - unfold Qsum in *. cbn [fold_right List.length]. rewrite IH, <- Hx.
    rewrite Nat2Z.inj_succ, <- Z.add_1_r, inject_Z_plus. ring.
Qed.

Lemma mean_const (v : Q) (xs : list Q) :
  xs <> [] -> Forall (Qeq v) xs -> mean xs == v.
Proof.
  intros Hne Hall. unfold mean. rewrite (Qsum_const Hall).
  field. destruct xs as [| x xs]; [congruence |].
  cbn [List.length]. intros H.
  unfold Qeq in H. cbn [Qnum Qden inject_Z] in H. lia.
Qed.

(** C6. Round trip: numeric values that [float()] converts to finite
    floats, recorded under one metric name at timestamps of one bucket, in a
    range that covers them and in a bucket that held no value of that name
    before, come back from [query_metrics] as one point of that bucket
    whose average is their arithmetic mean; when the values are all equal
    to [v] (one value, or N equal values) the average is [v]. *)
Theorem record_then_query_mean {lib : PyLib} (name : string) (from_ts to_ts : Q)
  (interval k : Z) (db : HistoryDB.t) (samples : list (Q * Py.value)) (xs : list Q) :
  interval <> 0%Z ->
  samples <> [] ->
  Forall2 numeric samples xs ->
  Forall (fun s => in_range from_ts to_ts (fst s) = true
                   /\ bucket_start interval (fst s) = k) samples ->
  bucket_values name from_ts to_ts interval db k = [] ->
  exists db' pts a,
    write_all name samples db = (Ok tt, db')
    /\ query_metrics name from_ts to_ts interval db' = VDict [("points", VList pts)]
    /\ In (VList [VFloat (inject_Z k); VFloat a]) pts
    /\ (forall a', In (VList [VFloat (inject_Z k); VFloat a']) pts -> a' = a)
    /\ is_mean a xs
    /\ List.length xs = List.length samples
    /\ (forall v, Forall (Qeq v) xs -> a == v).
Proof.
  intros Hi Hne Hnum Hin Hempty.
  pose proof (Forall2_length Hnum) as Hlen.
  set (db' := DB (metrics db ++ rows_of name samples xs) (sessions db) (crons db)).
  assert (Hbv : bucket_values name from_ts to_ts interval db' k = xs).
  { unfold db'. rewrite bucket_values_app, Hempty. simpl.
    now apply bucket_values_new. }
  assert (Hxs : xs <> []).
  { destruct xs; [| discriminate]. destruct samples; [congruence | discriminate]. }
  destruct (points_by_bucket name from_ts to_ts db' Hi) as [ks [_ [Hk Hpts]]].
  exists db'. eexists. exists (mean xs).
  split; [now apply write_all_rows |].
  split; [unfold query_metrics; rewrite Hpts, map_map; reflexivity |].
  split; [| split; [| split; [| split]]].
  - apply in_map_iff. exists k. simpl. rewrite Hbv. split; [reflexivity |].
    apply Hk. now rewrite Hbv.
  - intros a' Ha. apply in_map_iff in Ha. destruct Ha as [k' [Heq _]].
    simpl in Heq. inversion Heq as [[Hkk Ha']].
    assert (k' = k).
    { unfold inject_Z in Hkk. now inversion Hkk. }
    subst k'. now rewrite Hbv.
  - now apply mean_is_mean.
  - now symmetry.
  - intros v Hv. now apply mean_const.
Qed.

Lemma record_then_query_mean_witness :
  exists db' pts a,
    write_all (lib := sample_lib) "tokens_out_total"
      [(305, VInt 1); (595, VFloat 3)] sample_db = (Ok tt, db')
    /\ query_metrics "tokens_out_total" 0 1000 300 db' = VDict [("points", VList pts)]
    /\ In (VList [VFloat (inject_Z 300); VFloat a]) pts
    /\ (forall a', In (VList [VFloat (inject_Z 300); VFloat a']) pts -> a' = a)
    /\ is_mean a [1; 3]
    /\ List.length [1; 3] = List.length [(305, VInt 1); (595, VFloat 3)]
    /\ (forall v, Forall (Qeq v) [1; 3] -> a == v).
Proof.
  apply (record_then_query_mean (lib := sample_lib) "tokens_out_total" 0 1000
           (interval := 300) (k := 300) sample_db
           (samples := [(305, VInt 1); (595, VFloat 3)]) (xs := [1; 3])).
  - lia.
  - discriminate.
  - repeat constructor.
  - repeat constructor.
  - reflexivity.
Defined.

(** The round trip fails without these conditions: a value recorded into a
    bucket that already holds a value comes back averaged with it (1 at 305,
    then 3 at 310, give the average 2); a NaN is stored as NULL and gives no
    point; an int beyond the range of a float is refused with
    [OverflowError] and nothing is stored. *)
Lemma round_trip_needs_fresh_bucket :
  (query_metrics "m" 0 1000 300
     (snd (record_metrics (lib := sample_lib) 0 (Timestamp 310) (VDict [("m", VInt 3)])
             (snd (record_metrics (lib := sample_lib) 0 (Timestamp 305)
                     (VDict [("m", VInt 1)]) HistoryDB.empty))))
   = VDict [("points", VList [VList [VFloat 300; VFloat (4 # 2)]])]
   /\ ~ 4 # 2 == 3)
  /\ query_metrics "m" 0 1000 300
       (snd (record_metrics (lib := sample_lib) 0 (Timestamp 305) (VDict [("m", VNaN)])
               HistoryDB.empty))
     = VDict [("points", VList [])]
  /\ record_metrics (lib := sample_lib) 0 (Timestamp 305)
       (VDict [("m", VInt (2 ^ 1024))]) HistoryDB.empty
     = (Raise OverflowError, HistoryDB.empty).
Proof.
  split; [split; [vm_compute; reflexivity | intros H; discriminate H] |].
  split; vm_compute; reflexivity.
Qed.

Example single_value_round_trip :
  points "sessions_active" 0 1000 300
    (snd (write_all (lib := sample_lib) "sessions_active" [(305, VInt 4)]
            HistoryDB.empty))
  = [(Some (300 # 1), 4 # 1)].
Proof. vm_compute. reflexivity. Qed.

End RoundTrip.

(* ------------------------------------------------------------------ *)
(** ** query_sessions and query_crons: range scans *)
(* ------------------------------------------------------------------ *)

Module RangeSpec.
Import HistoryDB SqlFacts Spec Samples.

Lemma lookup_set_same (k : string) (v : Py.value) (d : list (string * Py.value)) :
  Py.lookup k (Py.set k v d) = Some v.
Proof.
  induction d as [| [k' v'] rest IH]; simpl.
  - now rewrite String.eqb_refl.
  - destruct (k' =? k)%string eqn:E; simpl.
    + now rewrite String.eqb_refl.
    + now rewrite E.
Qed.

Lemma lookup_set_other (k k' : string) (v : Py.value) (d : list (string * Py.value)) :
  k' <> k -> Py.lookup k' (Py.set k v d) = Py.lookup k' d.
Proof.
  intros Hne. induction d as [| [k0 v0] rest IH]; simpl.
  - destruct (String.eqb_spec k k'); [congruence | reflexivity].
  - destruct (String.eqb_spec k0 k) as [-> | Hk0]; simpl.
    + destruct (String.eqb_spec k k'); congruence.
    + destruct (String.eqb_spec k0 k'); [reflexivity | exact IH].
Qed.


Lemma mapM_Forall2 (A B : Type) (f : A -> result B) (l : list A) (ys : list B) :
  mapM f l = Ok ys <-> Forall2 (fun x y => f x = Ok y) l ys.
Proof.
  revert ys. induction l as [| x xs IH]; intros ys; simpl.
  - split.
    + intros H. inversion H. constructor.
    + intros H. inversion H. reflexivity.
  - split.
    + destruct (f x) as [y | e] eqn:Ef; simpl; [| discriminate].
      destruct (mapM f xs) as [ys0 | e] eqn:Em; simpl; [| discriminate].
      intros H. inversion H; subst. constructor; [exact Ef | now apply IH].
    + intros H. inversion H as [| ? y ? ys0 Hy Hrest]; subst.
      rewrite Hy. simpl. apply IH in Hrest. rewrite Hrest. reflexivity.
Qed.

Lemma mapM_perm (A B : Type) (f : A -> result B) (l l' : list A) (ys : list B) :
  Permutation l l' -> mapM f l = Ok ys ->
  exists ys', mapM f l' = Ok ys' /\ Permutation ys ys'.
Proof.
  intros Hp Hm. apply mapM_Forall2 in Hm.
  destruct (Permutation_Forall2 Hp Hm) as [ys' [Hperm Hall]].
  exists ys'. split; [now apply mapM_Forall2 | exact Hperm].
Qed.

(** A scan over a table that holds one more row [r] whose record is [raw]. *)
Lemma scan_with_row (A : Type) (key : A -> Q) (p : A -> bool)
  (f : A -> result Py.value) (l1 l2 : list A) (r : A) (raw : Py.value) :
  p r = true -> f r = Ok raw ->
  (forall recs', mapM f (order_by key (filter p (l1 ++ l2))) = Ok recs' ->
     exists recs, mapM f (order_by key (filter p (l1 ++ r :: l2))) = Ok recs
                  /\ Permutation recs (raw :: recs'))
  /\ (forall e, mapM f (order_by key (filter p (l1 ++ r :: l2))) = Raise e ->
        exists e', mapM f (order_by key (filter p (l1 ++ l2))) = Raise e').
Proof.
  intros Hp Hf.
  assert (Hperm : Permutation (r :: order_by key (filter p (l1 ++ l2)))
                              (order_by key (filter p (l1 ++ r :: l2)))).
  { eapply perm_trans; [| apply Permutation_sym, order_by_perm].
    rewrite !filter_app. simpl. rewrite Hp.
    eapply perm_trans; [| apply Permutation_middle].
    apply perm_skip. rewrite <- filter_app. apply order_by_perm. }
  assert (Hok : forall recs', mapM f (order_by key (filter p (l1 ++ l2))) = Ok recs' ->
     exists recs, mapM f (order_by key (filter p (l1 ++ r :: l2))) = Ok recs
                  /\ Permutation recs (raw :: recs')).
  { intros recs' Hm.
    assert (Hm' : mapM f (r :: order_by key (filter p (l1 ++ l2))) = Ok (raw :: recs')).
    { simpl. rewrite Hf. simpl. rewrite Hm. reflexivity. }
    destruct (mapM_perm _ Hperm Hm') as [recs [H1 H2]].
    exists recs. split; [exact H1 | now apply Permutation_sym]. }
  split; [exact Hok |].
  intros e He.
  destruct (mapM f (order_by key (filter p (l1 ++ l2)))) as [recs' | e'] eqn:Em.
  - destruct (Hok recs' eq_refl) as [recs [H _]]. congruence.
  - now exists e'.
Qed.

Section WithLib.
Context {lib : PyLib}.

Lemma select_sessions_filter (from_ts to_ts : Q) (key : option string) (db : HistoryDB.t) :
  select_sessions from_ts to_ts key db
  = order_by s_ts
      (filter (fun r => in_range from_ts to_ts (s_ts r)
                        && key_matches key (session_key r)) (sessions db)).
Proof.
  unfold select_sessions, active_filter, key_matches.
  destruct key as [k |]; [destruct (k =? "")%string |];
    try reflexivity; f_equal; apply filter_ext; intros r; now rewrite andb_true_r.
Qed.

Lemma select_crons_filter (from_ts to_ts : Q) (id : option string) (db : HistoryDB.t) :
  select_crons from_ts to_ts id db
  = order_by c_ts
      (filter (fun r => in_range from_ts to_ts (c_ts r)
                        && key_matches id (job_id r)) (crons db)).
Proof.
  unfold select_crons, active_filter, key_matches.
  destruct id as [k |]; [destruct (k =? "")%string |];
    try reflexivity; f_equal; apply filter_ext; intros r; now rewrite andb_true_r.
Qed.

Lemma mapM_each (A B : Type) (f : A -> result B) (P : A -> B -> Prop) (l : list A) :
  (forall x, In x l -> exists y, f x = Ok y /\ P x y) ->
  exists ys, mapM f l = Ok ys /\ Forall2 P l ys.
Proof.
  induction l as [| x xs IH]; intros H.
  - exists []. split; [reflexivity | constructor].
  - destruct (H x (or_introl eq_refl)) as [y [Hy HP]].
    destruct IH as [ys [Hm Hall]]; [intros z Hz; apply H; now right |].
    exists (y :: ys). split; [| now constructor].
    simpl. rewrite Hy. simpl. rewrite Hm. reflexivity.
Qed.

Lemma query_sessions_Ok (from_ts to_ts : Q) (key : option string) (db : HistoryDB.t)
  (recs : list Py.value) :
  query_sessions from_ts to_ts key db = Ok (VDict [("sessions", VList recs)])
  <-> mapM session_record (select_sessions from_ts to_ts key db) = Ok recs.
Proof.
  unfold query_sessions.
  destruct (mapM session_record (select_sessions from_ts to_ts key db)); simpl;
    split; intros H; inversion H; reflexivity.
Qed.

Lemma query_crons_Ok (from_ts to_ts : Q) (id : option string) (db : HistoryDB.t)
  (recs : list Py.value) :
  query_crons from_ts to_ts id db = Ok (VDict [("crons", VList recs)])
  <-> mapM cron_record (select_crons from_ts to_ts id db) = Ok recs.
Proof.
  unfold query_crons.
  destruct (mapM cron_record (select_crons from_ts to_ts id db)); simpl;
    split; intros H; inversion H; reflexivity.
Qed.

Lemma query_sessions_Raise (from_ts to_ts : Q) (key : option string) (db : HistoryDB.t)
  (e : exn) :
  query_sessions from_ts to_ts key db = Raise e
  <-> mapM session_record (select_sessions from_ts to_ts key db) = Raise e.
Proof.
  unfold query_sessions.
  destruct (mapM session_record (select_sessions from_ts to_ts key db)); simpl;
    split; intros H; inversion H; reflexivity.
Qed.

Lemma query_crons_Raise (from_ts to_ts : Q) (id : option string) (db : HistoryDB.t)
  (e : exn) :
  query_crons from_ts to_ts id db = Raise e
  <-> mapM cron_record (select_crons from_ts to_ts id db) = Raise e.
Proof.
  unfold query_crons.
  destruct (mapM cron_record (select_crons from_ts to_ts id db)); simpl;
    split; intros H; inversion H; reflexivity.
Qed.









(** A row in range whose stored text does not load as JSON is returned as
    [{"raw": text}] with the reserved fields, and it does not make the scan
    fail: whenever the query succeeds on the table without that row, it
    succeeds with it and returns the same records plus the wrapped one, and
    a failure with the row is a failure without it. *)
Lemma undecodable_row_is_wrapped (from_ts to_ts : Q) (key : option string) :
  (forall rs : session_row,
     json_loads (s_data rs) = None ->
     in_range from_ts to_ts (s_ts rs) = true ->
     key_matches key (session_key rs) = true ->
     forall m c s1 s2,
       let raw := VDict [("raw", VStr (s_data rs)); ("_ts", VFloat (s_ts rs));
                         ("_session_key", VStr (session_key rs))] in
       (forall recs',
          query_sessions from_ts to_ts key (DB m (s1 ++ s2) c)
          = Ok (VDict [("sessions", VList recs')]) ->
          exists recs,
            query_sessions from_ts to_ts key (DB m (s1 ++ rs :: s2) c)
            = Ok (VDict [("sessions", VList recs)])
            /\ Permutation recs (raw :: recs'))
       /\ (forall e,
             query_sessions from_ts to_ts key (DB m (s1 ++ rs :: s2) c) = Raise e ->
             exists e', query_sessions from_ts to_ts key (DB m (s1 ++ s2) c) = Raise e'))
  /\ (forall rc : cron_row,
        json_loads (c_data rc) = None ->
        in_range from_ts to_ts (c_ts rc) = true ->
        key_matches key (job_id rc) = true ->
        forall m s c1 c2,
          let raw := VDict [("raw", VStr (c_data rc)); ("_ts", VFloat (c_ts rc));
                            ("_job_id", VStr (job_id rc))] in
          (forall recs',
             query_crons from_ts to_ts key (DB m s (c1 ++ c2))
             = Ok (VDict [("crons", VList recs')]) ->
             exists recs,
               query_crons from_ts to_ts key (DB m s (c1 ++ rc :: c2))
               = Ok (VDict [("crons", VList recs)])
               /\ Permutation recs (raw :: recs'))
          /\ (forall e,
                query_crons from_ts to_ts key (DB m s (c1 ++ rc :: c2)) = Raise e ->
                exists e', query_crons from_ts to_ts key (DB m s (c1 ++ c2)) = Raise e')).
Proof.
  split.
  - intros rs Hls Hrs Hks m c s1 s2 raw.
    assert (Hrec : session_record rs = Ok raw).
    { unfold session_record, load_payload. rewrite Hls. reflexivity. }
    destruct (@scan_with_row _ s_ts
                (fun r => in_range from_ts to_ts (s_ts r)
                          && key_matches key (session_key r))
                session_record s1 s2 rs raw) as [Hok Hfail];
      [now rewrite Hrs, Hks | exact Hrec |].
    split.
    + intros recs' H. apply query_sessions_Ok in H.
      rewrite select_sessions_filter in H. simpl in H.
      destruct (Hok recs' H) as [recs [H1 H2]].
      exists recs. split; [| exact H2].
      apply query_sessions_Ok. now rewrite select_sessions_filter.
    + intros e H. apply query_sessions_Raise in H.
      rewrite select_sessions_filter in H. simpl in H.
      destruct (Hfail e H) as [e' H'].
      exists e'. apply query_sessions_Raise. now rewrite select_sessions_filter.
  - intros rc Hlc Hrc Hkc m s c1 c2 raw.
    assert (Hrec : cron_record rc = Ok raw).
    { unfold cron_record, load_payload. rewrite Hlc. reflexivity. }
    destruct (@scan_with_row _ c_ts
                (fun r => in_range from_ts to_ts (c_ts r)
                          && key_matches key (job_id r))
                cron_record c1 c2 rc raw) as [Hok Hfail];
      [now rewrite Hrc, Hkc | exact Hrec |].
    split.
    + intros recs' H. apply query_crons_Ok in H.
      rewrite select_crons_filter in H. simpl in H.
      destruct (Hok recs' H) as [recs [H1 H2]].
      exists recs. split; [| exact H2].
      apply query_crons_Ok. now rewrite select_crons_filter.
    + intros e H. apply query_crons_Raise in H.
      rewrite select_crons_filter in H. simpl in H.
      destruct (Hfail e H) as [e' H'].
      exists e'. apply query_crons_Raise. now rewrite select_crons_filter.
Qed.

End WithLib.

End RangeSpec.

Module RangeExamples.
Import HistoryDB SqlFacts RangeSpec Samples Spec.

Example sample_query_sessions :
  query_sessions (lib := sample_lib) 0 15 None sample_store
  = Ok (VDict [("sessions",
                VList [VDict [("raw", VStr "not json"); ("_ts", VFloat 5);
                              ("_session_key", VStr "b")];
                       VDict [("n", VInt 7); ("_ts", VFloat 10);
                              ("_session_key", VStr "a")]])]).
Proof. reflexivity. Qed.

Example sample_query_sessions_by_key :
  query_sessions (lib := sample_lib) 0 30 (Some "a") sample_store
  = Ok (VDict [("sessions",
                VList [VDict [("n", VInt 7); ("_ts", VFloat 10);
                              ("_session_key", VStr "a")];
                       VDict [("_ts", VFloat 20); ("_session_key", VStr "a")]])]).
Proof. reflexivity. Qed.

(** C2. The scan does not survive every row that is not a valid document.
    A row whose text is not JSON is wrapped as [{"raw": text}] and the other
    rows are returned with it; but a row whose text is JSON and not an
    object (here the list [[]]) makes the item assignment [d["_ts"] = ...]
    raise [TypeError]: the query returns no record at all, although the two
    other rows in range are sound and are returned when that row is not
    there.  The same with [query_crons]. *)
Theorem non_document_row_aborts_scan :
  query_sessions (lib := sample_lib) 0 100 None
    (DB [] [SessionRow 10 "a" "{}"; SessionRow 15 "b" "not json";
            SessionRow 20 "a" "{n: 7}"] [])
  = Ok (VDict [("sessions",
                VList [VDict [("_ts", VFloat 10); ("_session_key", VStr "a")];
                       VDict [("raw", VStr "not json"); ("_ts", VFloat 15);
                              ("_session_key", VStr "b")];
                       VDict [("n", VInt 7); ("_ts", VFloat 20);
                              ("_session_key", VStr "a")]])])
  /\ query_sessions (lib := sample_lib) 0 100 None
       (DB [] [SessionRow 10 "a" "{}"; SessionRow 15 "b" "[]";
               SessionRow 20 "a" "{n: 7}"] [])
     = Raise TypeError
  /\ query_sessions (lib := sample_lib) 0 100 None
       (DB [] [SessionRow 10 "a" "{}"; SessionRow 20 "a" "{n: 7}"] [])
     = Ok (VDict [("sessions",
                   VList [VDict [("_ts", VFloat 10); ("_session_key", VStr "a")];
                          VDict [("n", VInt 7); ("_ts", VFloat 20);
                                 ("_session_key", VStr "a")]])])
  /\ query_crons (lib := sample_lib) 0 100 None
       (DB [] [] [CronRow 10 "j" "{}"; CronRow 15 "k" "7"; CronRow 20 "j" "{n: 7}"])
     = Raise TypeError
  /\ query_crons (lib := sample_lib) 0 100 None
       (DB [] [] [CronRow 10 "j" "{}"; CronRow 20 "j" "{n: 7}"])
     = Ok (VDict [("crons",
                   VList [VDict [("_ts", VFloat 10); ("_job_id", VStr "j")];
                          VDict [("n", VInt 7); ("_ts", VFloat 20);
                                 ("_job_id", VStr "j")]])]).
Proof. repeat split; reflexivity. Qed.



End RangeExamples.
(* ------------------------------------------------------------------ *)
(** ** query_snapshot: the nearest snapshot *)
(* ------------------------------------------------------------------ *)

Module SnapshotSpec.
Import HistoryDB SqlFacts Spec Samples.

Section WithLib.
Context {lib : PyLib}.

Lemma nearest_snapshot_None (t0 : Q) (db : HistoryDB.t) :
  (forall r, In r (metrics db) -> is_text_snapshot r = false) ->
  nearest_snapshot t0 db = None.
Proof.
  intros H. unfold nearest_snapshot, snapshot_candidates.
  change (fun r : metric_row =>
            (metric r =? "snapshot")%string
            && match value_text r with Some _ => true | None => false end)
    with is_text_snapshot.
  replace (filter is_text_snapshot (metrics db)) with (@nil metric_row);
    [reflexivity |].
  symmetry. induction (metrics db) as [| r rows IH]; simpl; [reflexivity |].
  rewrite (H r (or_introl eq_refl)). apply IH. intros r' Hr'. apply H. now right.
Qed.

Lemma nearest_snapshot_Some (t0 : Q) (db : HistoryDB.t) (r0 : metric_row) :
  In r0 (metrics db) -> is_text_snapshot r0 = true ->
  exists r text,
    nearest_snapshot t0 db = Some r /\ In r (metrics db)
    /\ metric r = "snapshot" /\ value_text r = Some text
    /\ forall r', In r' (metrics db) -> is_text_snapshot r' = true ->
                  Qabs (ts r - t0) <= Qabs (ts r' - t0).
Proof.
  intros Hin Hsnap. unfold nearest_snapshot, snapshot_candidates.
  fold is_text_snapshot.
  change (fun r : metric_row =>
            (metric r =? "snapshot")%string
            && match value_text r with Some _ => true | None => false end)
    with is_text_snapshot.
  set (dist := fun r : metric_row => Qabs (ts r - t0)).
  pose proof (order_by_sorted dist (filter is_text_snapshot (metrics db))) as Hsorted.
  pose proof (order_by_In dist (filter is_text_snapshot (metrics db))) as Hmem.
  destruct (order_by dist (filter is_text_snapshot (metrics db))) as [| r rest] eqn:E.
  - exfalso. apply (Hmem r0). apply filter_In. now split.
  - assert (Hr : In r (metrics db) /\ is_text_snapshot r = true).
    { apply filter_In. apply Hmem. now left. }
    destruct Hr as [Hr1 Hr2]. pose proof Hr2 as Hr3.
    unfold is_text_snapshot in Hr3. apply andb_true_iff in Hr3.
    destruct Hr3 as [Hname Htext]. apply String.eqb_eq in Hname.
    destruct (value_text r) as [text |] eqn:Et; [| discriminate].
    exists r, text. repeat split; try assumption.
    intros r' Hr' Hs'.
    assert (Hin' : In r' (r :: rest)) by (apply Hmem; apply filter_In; now split).
    inversion Hsorted as [| ? ? _ Hall]; subst.
    destruct Hin' as [<- | Hin'].
    + apply Qle_refl.
    + rewrite Forall_forall in Hall. exact (Hall _ Hin').
Qed.

(** C3 (as amended). For every query timestamp, [query_snapshot] returns
    the payload of a stored row named ["snapshot"] that carries a text value
    and whose timestamp is at minimum absolute distance from the query
    timestamp among such rows; it returns the empty document when no such
    row exists.  With snapshots at 100 and 200 only, the query at 140
    returns the one of 100 and the query at 160 the one of 200. *)
Theorem query_snapshot_nearest (t0 : Q) (db : HistoryDB.t) :
  ((forall r, In r (metrics db) -> is_text_snapshot r = false) ->
   query_snapshot t0 db = VDict [("snapshot", VDict [])])
  /\ (forall r0, In r0 (metrics db) -> is_text_snapshot r0 = true ->
        exists r text,
          In r (metrics db) /\ metric r = "snapshot" /\ value_text r = Some text
          /\ query_snapshot t0 db = VDict [("snapshot", load_payload text)]
          /\ forall r', In r' (metrics db) -> is_text_snapshot r' = true ->
                        Qabs (ts r - t0) <= Qabs (ts r' - t0))
  /\ (forall p1 p2,
        let two := DB [MetricRow 100 "snapshot" None (Some p1);
                       MetricRow 200 "snapshot" None (Some p2)] [] [] in
        query_snapshot 140 two = VDict [("snapshot", load_payload p1)]
        /\ query_snapshot 160 two = VDict [("snapshot", load_payload p2)]).
Proof.
  split; [| split].
  - intros H. unfold query_snapshot. now rewrite nearest_snapshot_None.
  - intros r0 Hin Hsnap.
    destruct (nearest_snapshot_Some t0 db r0 Hin Hsnap)
      as [r [text [Hn [Hr [Hname [Htext Hmin]]]]]].
    exists r, text. repeat split; try assumption.
    unfold query_snapshot. now rewrite Hn, Htext.
  - intros p1 p2. split; reflexivity.
Qed.

End WithLib.

Example mixed_store_rows :
  metrics mixed_store
  = [MetricRow 100 "snapshot" (Some (1 # 1)) None;
     MetricRow 200 "snapshot" None (Some "{}")].
Proof. reflexivity. Qed.

(** C3 as stated fails when a row named ["snapshot"] holds a number: the
    query at 140 returns the payload of the row at 200 although the row at
    100, also named ["snapshot"], is nearer; and on a store whose only
    snapshot-named row holds a number, the result is empty. *)
Lemma numeric_snapshot_row_skipped :
  query_snapshot (lib := sample_lib) 140 mixed_store
  = VDict [("snapshot", load_payload (lib := sample_lib) "{}")]
  /\ nearest_snapshot 140 mixed_store = Some (MetricRow 200 "snapshot" None (Some "{}"))
  /\ ~ (forall r', In r' (metrics mixed_store) -> metric r' = "snapshot" ->
                   Qabs (200 - 140) <= Qabs (ts r' - 140))
  /\ query_snapshot (lib := sample_lib) 140
       (DB [MetricRow 100 "snapshot" (Some 1) None] [] [])
     = VDict [("snapshot", VDict [])].
Proof.
  repeat split.
  intros H.
  specialize (H (MetricRow 100 "snapshot" (Some (1 # 1)) None) (or_introl eq_refl) eq_refl).
  vm_compute in H. apply H. reflexivity.
Qed.

Lemma query_snapshot_nearest_witness :
  exists r text,
    In r (metrics mixed_store) /\ metric r = "snapshot" /\ value_text r = Some text
    /\ query_snapshot (lib := sample_lib) 140 mixed_store
       = VDict [("snapshot", load_payload (lib := sample_lib) text)]
    /\ forall r', In r' (metrics mixed_store) -> is_text_snapshot r' = true ->
                  Qabs (ts r - 140) <= Qabs (ts r' - 140).
Proof.
  apply (proj1 (proj2 (query_snapshot_nearest (lib := sample_lib) 140 mixed_store))
           (MetricRow 200 "snapshot" None (Some "{}"))).
  - right. left. reflexivity.
  - reflexivity.
Defined.

End SnapshotSpec.

(* ------------------------------------------------------------------ *)
(** ** The effect of the write operations *)
(* ------------------------------------------------------------------ *)

Module WriteFacts.
Import HistoryDB Spec Samples.

Lemma db_eta (s : HistoryDB.t) : DB (metrics s) (sessions s) (crons s) = s.
Proof. now destruct s. Qed.

Lemma db_app_nil (s : HistoryDB.t) : DB (metrics s ++ []) (sessions s) (crons s) = s.
Proof. rewrite app_nil_r. apply db_eta. Qed.

Section WithLib.
Context {lib : PyLib}.

Lemma float_number (v : Py.value) :
  is_number v = true -> overflows v = false ->
  exists x, float v = Ok x /\ sql_real x = number_value v.
Proof.
  destruct v; simpl; intros H Ho; try discriminate; try (eexists; split; reflexivity).
  apply negb_false_iff in Ho. rewrite Ho. eexists. split; reflexivity.
Qed.

Lemma float_overflows (v : Py.value) :
  overflows v = true <-> float v = Raise OverflowError.
Proof.
  destruct v; simpl; split; intros H; try discriminate; try reflexivity.
  - apply negb_true_iff in H. now rewrite H.
  - destruct (fits_float z); [discriminate | reflexivity].
  - destruct (float_of_string s); discriminate.
Qed.

Lemma overflows_number (v : Py.value) : overflows v = true -> is_number v = true.
Proof. destruct v; simpl; intros H; try discriminate; reflexivity. Qed.

Lemma insert_value_run (t0 : Q) (name : string) (v : Py.value) (db : HistoryDB.t) :
  overflows v = false ->
  insert_value t0 name v db = (Ok tt, insert_metric (metric_row_for t0 name v) db).
Proof.
  intros Ho. unfold insert_value, metric_row_for. destruct (is_number v) eqn:E.
  - destruct (float_number _ E Ho) as [x [Hx Hv]].
    unfold Py.bindM, Py.lift. rewrite Hx. unfold insert_metric_row. simpl.
    now rewrite Hv.
  - reflexivity.
Qed.

Lemma insert_value_overflow (ts0 : pyfloat) (name : string) (v : Py.value)
  (db : HistoryDB.t) :
  overflows v = true ->
  insert_value ts0 name v db = (Raise OverflowError, db).
Proof.
  intros Ho. unfold insert_value. rewrite (overflows_number _ Ho).
  apply float_overflows in Ho. unfold Py.bindM, Py.lift. now rewrite Ho.
Qed.

Lemma record_items_run (t0 : Q) (items : list (string * Py.value)) (db : HistoryDB.t) :
  Forall (fun kv => overflows (snd kv) = false) items ->
  for_each items (fun kv => insert_value t0 (fst kv) (snd kv)) db
  = (Ok tt,
     DB (metrics db ++ map (fun kv => metric_row_for t0 (fst kv) (snd kv)) items)
        (sessions db) (crons db)).
Proof.
  intros H. revert db. induction H as [| [k v] items Hv _ IH]; intros db; simpl.
  - unfold Py.ret. now rewrite db_app_nil.
  - unfold Py.bindM. rewrite insert_value_run by exact Hv. rewrite IH. simpl.
    now rewrite <- app_assoc.
Qed.

Lemma record_items_overflow (t0 : Q) (before after : list (string * Py.value))
  (k : string) (v : Py.value) (db : HistoryDB.t) :
  Forall (fun kv => overflows (snd kv) = false) before ->
  overflows v = true ->
  for_each (before ++ (k, v) :: after)
    (fun kv => insert_value t0 (fst kv) (snd kv)) db
  = (Raise OverflowError,
     DB (metrics db ++ map (fun kv => metric_row_for t0 (fst kv) (snd kv)) before)
        (sessions db) (crons db)).
Proof.
  intros H Hv. revert db. induction H as [| [k0 v0] items Hv0 _ IH]; intros db; simpl.
  - unfold Py.bindM. rewrite insert_value_overflow by exact Hv. now rewrite db_app_nil.
  - unfold Py.bindM. rewrite insert_value_run by exact Hv0. rewrite IH. simpl.
    now rewrite <- app_assoc.
Qed.

Lemma metric_row_for_not_both (t0 : Q) (name : string) (v : Py.value) :
  not_both (metric_row_for t0 name v).
Proof.
  unfold metric_row_for, not_both. destruct (is_number v); simpl; auto.
Qed.

Lemma metric_row_for_one_value (t0 : Q) (name : string) (v : Py.value) :
  is_nan v = false -> one_value (metric_row_for t0 name v).
Proof.
  unfold metric_row_for, one_value. intros Hn. destruct (is_number v) eqn:E; simpl.
  - left. split; [| reflexivity].
    destruct v; simpl in *; discriminate.
  - right. split; [reflexivity | discriminate].
Qed.

(** Every row that one insert writes is the row of its value. *)
Lemma insert_value_rows (ts0 : pyfloat) (name : string) (v : Py.value)
  (db : HistoryDB.t) :
  exists rows,
    snd (insert_value ts0 name v db) = DB (metrics db ++ rows) (sessions db) (crons db)
    /\ Forall (fun r => exists t0, r = metric_row_for t0 name v) rows.
Proof.
  destruct ts0 as [t0 |].
  - destruct (overflows v) eqn:Ho.
    + exists []. rewrite insert_value_overflow by exact Ho. simpl.
      split; [now rewrite db_app_nil | constructor].
    + exists [metric_row_for t0 name v]. rewrite insert_value_run by exact Ho.
      split; [reflexivity |]. constructor; [now exists t0 | constructor].
  - exists []. split; [| constructor]. rewrite db_app_nil.
    unfold insert_value, insert_metric_row, Py.bindM, Py.lift. simpl.
    destruct (is_number v); [| reflexivity].
    destruct (float v); reflexivity.
Qed.

Lemma record_items_rows (ts0 : pyfloat) (items : list (string * Py.value))
  (db : HistoryDB.t) :
  exists rows,
    snd (for_each items (fun kv => insert_value ts0 (fst kv) (snd kv)) db)
    = DB (metrics db ++ rows) (sessions db) (crons db)
    /\ Forall (fun r => exists t0 k v, In (k, v) items /\ r = metric_row_for t0 k v)
              rows.
Proof.
  revert db. induction items as [| [k v] items IH]; intros db; simpl.
  - exists []. split; [now rewrite db_app_nil | constructor].
  - destruct (insert_value_rows ts0 k v db) as [rows1 [H1 Hall1]].
    unfold Py.bindM.
    destruct (insert_value ts0 k v db) as [[[] | e] db1] eqn:E; simpl in H1; subst db1.
    + destruct (IH (DB (metrics db ++ rows1) (sessions db) (crons db)))
        as [rows2 [H2 Hall2]].
      simpl in H2. exists (rows1 ++ rows2). rewrite H2, <- app_assoc.
      split; [reflexivity |]. apply Forall_app. split.
      * eapply Forall_impl; [| exact Hall1]. intros r [t0 ->].
        exists t0, k, v. split; [now left | reflexivity].
      * eapply Forall_impl; [| exact Hall2]. intros r [t0 [k' [v' [Hin ->]]]].
        exists t0, k', v'. split; [now right | reflexivity].
    + exists rows1. split; [reflexivity |].
      eapply Forall_impl; [| exact Hall1]. intros r [t0 ->].
      exists t0, k, v. split; [now left | reflexivity].
Qed.

(** What [record_metrics] does to the store, in both calling forms and
    whether it returns or raises: it appends rows of values of [data]. *)
Lemma record_metrics_rows (now : Q) (a : first_arg) (data : Py.value) (db : HistoryDB.t) :
  exists rows,
    snd (record_metrics now a data db)
    = DB (metrics db ++ rows) (sessions db) (crons db)
    /\ Forall (fun r => exists t0 k v,
                          r = metric_row_for t0 k v
                          /\ (v = data \/ exists items, data = VDict items
                                                        /\ In (k, v) items))
              rows.
Proof.
  destruct a as [ts0 | name]; simpl.
  - destruct data as [| | | | | | | items];
      try (exists []; simpl; split; [now rewrite db_app_nil | constructor]).
    destruct (record_items_rows ts0 items db) as [rows [H Hall]].
    exists rows. split; [exact H |].
    eapply Forall_impl; [| exact Hall]. intros r [t0 [k [v [Hin ->]]]].
    exists t0, k, v. split; [reflexivity |]. right. now exists items.
  - destruct (insert_value_rows now name data db) as [rows [H Hall]].
    exists rows. split; [exact H |].
    eapply Forall_impl; [| exact Hall]. intros r [t0 ->].
    exists t0, name, data. split; [reflexivity | now left].
Qed.

End WithLib.

End WriteFacts.
(* ------------------------------------------------------------------ *)
(** ** The effect of one collection cycle *)
(* ------------------------------------------------------------------ *)

Module CollectFacts.
Import HistoryDB HistoryCollector WriteFacts Spec Samples MoreSpec.

Lemma bindM_lift_ok (S A B : Type) (r : result A) (a : A) (k : A -> M S B) (s : S) :
  r = Ok a -> Py.bindM (Py.lift r) k s = k a s.
Proof. intros ->. reflexivity. Qed.

Lemma bindM_lift_raise (S A B : Type) (r : result A) (e : exn) (k : A -> M S B)
  (s : S) :
  r = Raise e -> Py.bindM (Py.lift r) k s = (Raise e, s).
Proof. intros ->. reflexivity. Qed.

Lemma try_pass_eq (S : Type) (m : M S unit) (s s' : S) (r : result unit) :
  m s = (r, s') -> try_pass m s = (Ok tt, s').
Proof. unfold try_pass. intros ->. now destruct r. Qed.

Lemma try_pass_fst (S : Type) (m : M S unit) (s : S) : fst (try_pass m s) = Ok tt.
Proof. unfold try_pass. destruct (m s) as [[u | e] s']; reflexivity. Qed.

Lemma try_pass_snd (S : Type) (m : M S unit) (s : S) :
  snd (try_pass m s) = snd (m s).
Proof. unfold try_pass. destruct (m s) as [[u | e] s']; reflexivity. Qed.

Lemma bindM_try_pass (S B : Type) (m : M S unit) (k : unit -> M S B) (s : S) :
  Py.bindM (try_pass m) k s = k tt (snd (try_pass m s)).
Proof.
  unfold Py.bindM. pose proof (try_pass_fst m s) as H.
  destruct (try_pass m s) as [r s']. simpl in *. now subst.
Qed.

Lemma cycle_same (c : cycle) :
  Cycle (DB (metrics (db c) ++ []) (sessions (db c)) (crons (db c))) (all_data c) = c.
Proof. rewrite db_app_nil. now destruct c. Qed.

Lemma cycle_same_crons (c : cycle) :
  Cycle (DB (metrics (db c)) (sessions (db c)) (crons (db c) ++ [])) (all_data c) = c.
Proof. rewrite app_nil_r, db_eta. now destruct c. Qed.

Section WithLib.
Context {lib : PyLib}.
Variable gw : string -> Py.value -> result Py.value.
Variable now : Q.

(** [_safe_float] gives the float where [float()] gives one, [None] where
    [float()] raises [TypeError] or [ValueError], and lets any other
    exception of [float()] through. *)
Lemma _safe_float_eq (v : Py.value) :
  _safe_float v
  = match float v with
    | Ok x => Ok (Some x)
    | Raise TypeError => Ok None
    | Raise ValueError => Ok None
    | Raise e => Raise e
    end.
Proof.
  destruct v; simpl; try reflexivity.
  - destruct (fits_float z); reflexivity.
  - destruct (float_of_string s); reflexivity.
Qed.

Lemma _safe_float_raises (v : Py.value) (e : exn) :
  _safe_float v = Raise e <-> overflows v = true /\ e = OverflowError.
Proof.
  rewrite _safe_float_eq. destruct v; simpl; split;
    try (intros H; discriminate H); try (intros [H _]; discriminate H).
  - destruct (fits_float z); simpl; intros H; inversion H. auto.
  - intros [H ->]. apply negb_true_iff in H. now rewrite H.
  - destruct (float_of_string s); intros H; discriminate H.
Qed.

Lemma on_db_record (t0 : Q) (items : list (string * Py.value)) (c : cycle) :
  Forall (fun kv => overflows (snd kv) = false) items ->
  on_db (record_metrics now (Timestamp t0) (VDict items)) c
  = (Ok tt,
     Cycle (DB (metrics (db c)
                ++ map (fun kv => metric_row_for t0 (fst kv) (snd kv)) items)
               (sessions (db c)) (crons (db c)))
           (all_data c)).
Proof. intros H. unfold on_db, record_metrics. now rewrite record_items_run. Qed.

Lemma record_status (o1 o2 o3 : option pyfloat) (c : cycle) :
  (if truthy (VDict (put_if_some "tokens_out_total" o3
                       (put_if_some "tokens_in_total" o2
                          (put_if_some "cost_total" o1 []))))
   then on_db (record_metrics now (Timestamp now)
                 (VDict (put_if_some "tokens_out_total" o3
                           (put_if_some "tokens_in_total" o2
                              (put_if_some "cost_total" o1 [])))))
   else Py.ret tt) c
  = (Ok tt,
     Cycle (DB (metrics (db c)
                ++ map (status_row now)
                     (opt_item "cost_total" o1 ++ opt_item "tokens_in_total" o2
                      ++ opt_item "tokens_out_total" o3))
               (sessions (db c)) (crons (db c)))
           (all_data c)).
Proof.
  destruct o1 as [[q1 |] |], o2 as [[q2 |] |], o3 as [[q3 |] |];
    cbn; unfold Py.ret, insert_metric, status_row; cbn; rewrite <- ?app_assoc;
    try rewrite cycle_same; reflexivity.
Qed.

Lemma status_exact (c : cycle) :
  try_pass (collect_session_status gw now) c
  = (Ok tt,
     Cycle (DB (metrics (db c) ++ status_rows now (gw "session_status" (VDict [])))
               (sessions (db c)) (crons (db c)))
           (put_opt "session_status" (kept_status (gw "session_status" (VDict [])))
              (all_data c))).
Proof.
  destruct (gw "session_status" (VDict [])) as [status | e] eqn:Hgw.
  - destruct status as [| | | | | | | d];
      try (simpl; rewrite cycle_same; apply (@try_pass_eq _ _ _ _ (Ok tt));
           unfold collect_session_status; rewrite (bindM_lift_ok _ _ Hgw);
           reflexivity).
    unfold status_rows, kept_status, status_items.
    destruct (_safe_float (Py.get d "cost_total" VNone)) as [o1 | e1] eqn:H1;
      [| simpl; rewrite cycle_same; apply (@try_pass_eq _ _ _ _ (Raise e1));
         unfold collect_session_status; rewrite (bindM_lift_ok _ _ Hgw);
         now rewrite (bindM_lift_raise _ _ H1)].
    destruct (_safe_float (Py.get d "tokens_in_total" VNone)) as [o2 | e2] eqn:H2;
      [| simpl; rewrite cycle_same; apply (@try_pass_eq _ _ _ _ (Raise e2));
         unfold collect_session_status; rewrite (bindM_lift_ok _ _ Hgw);
         rewrite (bindM_lift_ok _ _ H1); now rewrite (bindM_lift_raise _ _ H2)].
    destruct (_safe_float (Py.get d "tokens_out_total" VNone)) as [o3 | e3] eqn:H3;
      [| simpl; rewrite cycle_same; apply (@try_pass_eq _ _ _ _ (Raise e3));
         unfold collect_session_status; rewrite (bindM_lift_ok _ _ Hgw);
         rewrite (bindM_lift_ok _ _ H1), (bindM_lift_ok _ _ H2);
         now rewrite (bindM_lift_raise _ _ H3)].
    simpl. apply (@try_pass_eq _ _ _ _ (Ok tt)). unfold collect_session_status.
    rewrite (bindM_lift_ok _ _ Hgw).
    rewrite (bindM_lift_ok _ _ H1), (bindM_lift_ok _ _ H2), (bindM_lift_ok _ _ H3).
    unfold Py.bindM at 1. rewrite record_status. reflexivity.
  - simpl. rewrite cycle_same. apply (@try_pass_eq _ _ _ _ (Raise e)).
    unfold collect_session_status. rewrite Hgw. reflexivity.
Qed.

Lemma sessions_exact (c : cycle) :
  try_pass (collect_sessions_list gw now) c
  = (Ok tt,
     Cycle (DB (metrics (db c) ++ sessions_rows now (gw "sessions_list" sessions_params))
               (sessions (db c)) (crons (db c)))
           (put_opt "sessions_list" (kept_sessions (gw "sessions_list" sessions_params))
              (all_data c))).
Proof.
  unfold sessions_params.
  destruct (gw "sessions_list" (VDict [("limit", VInt 50); ("messageLimit", VInt 0)]))
    as [resp | e] eqn:Hgw.
  - destruct resp as [| | | | | | | d];
      try (simpl; rewrite cycle_same; apply (@try_pass_eq _ _ _ _ (Ok tt));
           unfold collect_sessions_list; rewrite (bindM_lift_ok _ _ Hgw); reflexivity).
    unfold sessions_rows, kept_sessions.
    destruct (Py.get d "sessions" (VList [])) as [| | | | | | l |] eqn:Hs;
      try (simpl; rewrite cycle_same; apply (@try_pass_eq _ _ _ _ (Ok tt));
           unfold collect_sessions_list; rewrite (bindM_lift_ok _ _ Hgw);
           rewrite Hs; reflexivity).
    apply (@try_pass_eq _ _ _ _ (Ok tt)). unfold collect_sessions_list.
    rewrite (bindM_lift_ok _ _ Hgw). rewrite Hs.
    unfold Py.bindM. rewrite on_db_record; [reflexivity |].
    constructor; [reflexivity | constructor].
  - simpl. rewrite cycle_same. apply (@try_pass_eq _ _ _ _ (Raise e)).
    unfold collect_sessions_list. rewrite Hgw. reflexivity.
Qed.

(** The conversion of a last-run value, with its fallback. *)
Lemma last_ts_eq (v : Py.value) :
  match try_except_type_value (normalize_last_run v) (Ok (Finite now)) with
  | Ok (Finite t0) => last_ts now v = Ok t0
  | Ok NaN => last_ts now v = Raise IntegrityError
  | Raise e => last_ts now v = Raise e
  end.
Proof.
  unfold last_ts, normalize_last_run.
  destruct (float v) as [[x |] | []]; simpl; try reflexivity.
  unfold seconds. destruct (Qlt_le_dec 10000000000 x) as [Hlt | Hle].
  - destruct (Qle_bool x 10000000000) eqn:E; [| reflexivity].
    apply Qle_bool_iff in E. exfalso. apply (Qlt_not_le _ _ Hlt E).
  - apply Qle_bool_iff in Hle. now rewrite Hle.
Qed.

Lemma job_key_eq (j : list (string * Py.value)) :
  str (or_ (or_ (Py.get j "id" VNone) (Py.get j "name" VNone)) (VStr "unknown"))
  = job_key j.
Proof.
  unfold job_key, or_.
  destruct (truthy (Py.get j "id" VNone)) eqn:E1.
  - now rewrite E1.
  - destruct (truthy (Py.get j "name" VNone)) eqn:E2; cbv iota;
      try rewrite E2; reflexivity.
Qed.

(** One pass of the job loop. *)
Lemma collect_job_run (job : Py.value) (c : cycle) :
  match job_rows now job with
  | Ok rows =>
      collect_job now job c
      = (Ok tt, Cycle (DB (metrics (db c)) (sessions (db c)) (crons (db c) ++ rows))
                      (all_data c))
  | Raise e => collect_job now job c = (Raise e, c)
  end.
Proof.
  destruct job as [| | | | | | | j]; simpl;
    try (unfold Py.ret; now rewrite cycle_same_crons).
  unfold last_run_of.
  destruct (truthy (or_ (Py.get j "lastRun" VNone) (Py.get j "last_run" VNone)));
    [| unfold Py.ret; now rewrite cycle_same_crons].
  pose proof (last_ts_eq (or_ (Py.get j "lastRun" VNone) (Py.get j "last_run" VNone)))
    as H.
  unfold Py.bindM, Py.lift.
  destruct (try_except_type_value
              (normalize_last_run (or_ (Py.get j "lastRun" VNone)
                                       (Py.get j "last_run" VNone)))
              (Ok (Finite now))) as [[t0 |] | e]; rewrite H.
  - rewrite job_key_eq. reflexivity.
  - unfold on_db, record_cron. simpl. now destruct c.
  - reflexivity.
Qed.

Lemma jobs_run (jobs : list Py.value) (c : cycle) :
  exists r,
    for_each jobs (collect_job now) c
    = (r, Cycle (DB (metrics (db c)) (sessions (db c))
                    (crons (db c) ++ jobs_rows now jobs))
                (all_data c))
    /\ (forallb (job_passes now) jobs = true -> r = Ok tt)
    /\ (forallb (job_passes now) jobs = false -> exists e, r = Raise e).
Proof.
  revert c. induction jobs as [| job jobs IH]; intros c; simpl.
  - exists (Ok tt). unfold Py.ret. rewrite cycle_same_crons.
    split; [reflexivity |]. split; [reflexivity | discriminate].
  - unfold Py.bindM, job_passes. pose proof (collect_job_run job c) as H.
    destruct (job_rows now job) as [rows | e]; rewrite H; simpl.
    + destruct (IH (Cycle (DB (metrics (db c)) (sessions (db c)) (crons (db c) ++ rows))
                          (all_data c))) as [r [E [H1 H2]]].
      exists r. rewrite E. simpl. rewrite <- app_assoc.
      split; [reflexivity |]. split; assumption.
    + exists (Raise e). rewrite cycle_same_crons.
      split; [reflexivity |]. split; [discriminate | now exists e].
Qed.

Lemma cron_exact (c : cycle) :
  try_pass (collect_cron gw now) c
  = (Ok tt,
     Cycle (DB (metrics (db c)) (sessions (db c))
               (crons (db c) ++ cron_rows now (gw "cron" cron_params)))
           (put_opt "cron" (kept_cron now (gw "cron" cron_params)) (all_data c))).
Proof.
  unfold cron_params.
  destruct (gw "cron" (VDict [("action", VStr "list")])) as [resp | e] eqn:Hgw.
  - destruct resp as [| | | | | | | d];
      try (simpl; rewrite cycle_same_crons; apply (@try_pass_eq _ _ _ _ (Ok tt));
           unfold collect_cron; rewrite (bindM_lift_ok _ _ Hgw); reflexivity).
    unfold cron_rows, kept_cron, job_list.
    destruct (Py.get d "jobs" (Py.get d "crons" (VList []))) as [| | | | | | jobs |]
      eqn:Hj;
      try (simpl; apply (@try_pass_eq _ _ _ _ (Ok tt));
           unfold collect_cron; rewrite (bindM_lift_ok _ _ Hgw); rewrite Hj;
           rewrite app_nil_r, db_eta; reflexivity).
    unfold try_pass, collect_cron. rewrite (bindM_lift_ok _ _ Hgw). rewrite Hj.
    unfold Py.bindM at 1.
    destruct (jobs_run jobs c) as [r [E [H1 H2]]]. rewrite E.
    destruct (forallb (job_passes now) jobs) eqn:Hall.
    + rewrite (H1 eq_refl). reflexivity.
    + destruct (H2 eq_refl) as [e ->]. reflexivity.
  - simpl. rewrite cycle_same_crons. apply (@try_pass_eq _ _ _ _ (Raise e)).
    unfold collect_cron. rewrite Hgw. reflexivity.
Qed.

(** The whole effect of a cycle. *)
Lemma collect_exact (store : HistoryDB.t) :
  _collect gw now store
  = (Ok tt,
     DB (metrics store
         ++ status_rows now (gw "session_status" (VDict []))
         ++ sessions_rows now (gw "sessions_list" sessions_params)
         ++ [snapshot_row now
               (json_dumps
                  (VDict (snapshot_data now (gw "session_status" (VDict []))
                            (gw "sessions_list" sessions_params)
                            (gw "cron" cron_params))))])
        (sessions store)
        (crons store ++ cron_rows now (gw "cron" cron_params))).
Proof.
  unfold _collect. rewrite !bindM_try_pass.
  rewrite status_exact. simpl. rewrite sessions_exact. simpl.
  rewrite cron_exact. simpl.
  unfold try_pass, collect_snapshot, on_db, Py.modify, insert_metric, snapshot_data.
  simpl. now rewrite <- !app_assoc.
Qed.

End WithLib.

Lemma run_cons {lib : PyLib} (now : Q) (gw : string -> Py.value -> result Py.value)
  (rest : list (Q * (string -> Py.value -> result Py.value))) (store : HistoryDB.t) :
  _run ((now, gw) :: rest) store = _run rest (snd (_collect gw now store)).
Proof. simpl. now rewrite bindM_try_pass, try_pass_snd. Qed.

End CollectFacts.
(* ------------------------------------------------------------------ *)
(** ** HistoryCollector: resilience, cron records, row invariant *)
(* ------------------------------------------------------------------ *)

Module CollectorSpec.
Import HistoryDB HistoryCollector WriteFacts CollectFacts Spec Samples MoreSpec.

Lemma sessions_rows_cases (now : Q) (r : result Py.value) (row : metric_row) :
  In row (sessions_rows now r) ->
  metric row = "sessions_active" /\ ts row = now /\ value row <> None
  /\ value_text row = None.
Proof.
  unfold sessions_rows. destruct r as [[| | | | | | | d] | e]; simpl; try contradiction.
  destruct (Py.get d "sessions" (VList [])); simpl; try contradiction.
  intros [<- | []]. simpl. repeat split; discriminate.
Qed.

Lemma sessions_rows_length (now : Q) (r : result Py.value) :
  (List.length (sessions_rows now r) <= 1)%nat.
Proof.
  unfold sessions_rows. destruct r as [[| | | | | | | d] | e]; simpl; try lia.
  destruct (Py.get d "sessions" (VList [])); simpl; lia.
Qed.

Section WithLib.
Context {lib : PyLib}.

(** The fields of a status that step 1 reads, when none of them ends it. *)
Lemma status_items_Ok (d : list (string * Py.value)) :
  Forall (fun k => overflows (Py.get d k VNone) = false) status_names ->
  exists o1 o2 o3,
    _safe_float (Py.get d "cost_total" VNone) = Ok o1
    /\ _safe_float (Py.get d "tokens_in_total" VNone) = Ok o2
    /\ _safe_float (Py.get d "tokens_out_total" VNone) = Ok o3
    /\ status_items d
       = Ok (opt_item "cost_total" o1 ++ opt_item "tokens_in_total" o2
             ++ opt_item "tokens_out_total" o3).
Proof.
  intros H. inversion H as [| ? ? H1 H']; subst.
  inversion H' as [| ? ? H2 H'']; subst. inversion H'' as [| ? ? H3 _]; subst.
  unfold status_items.
  destruct (_safe_float (Py.get d "cost_total" VNone)) as [o1 | e] eqn:E1;
    [| apply _safe_float_raises in E1; destruct E1; congruence].
  destruct (_safe_float (Py.get d "tokens_in_total" VNone)) as [o2 | e] eqn:E2;
    [| apply _safe_float_raises in E2; destruct E2; congruence].
  destruct (_safe_float (Py.get d "tokens_out_total" VNone)) as [o3 | e] eqn:E3;
    [| apply _safe_float_raises in E3; destruct E3; congruence].
  exists o1, o2, o3. repeat split; reflexivity.
Qed.

Lemma status_items_Raise (d : list (string * Py.value)) :
  Exists (fun k => overflows (Py.get d k VNone) = true) status_names ->
  status_items d = Raise OverflowError.
Proof.
  intros H. unfold status_items.
  assert (R : forall v, overflows v = true -> _safe_float v = Raise OverflowError)
    by (intros v Hv; now apply _safe_float_raises).
  assert (T : forall v, (exists o, _safe_float v = Ok o)
                        \/ _safe_float v = Raise OverflowError).
  { intros v. destruct (_safe_float v) as [o | e] eqn:E; [left; now exists o |].
    right. apply _safe_float_raises in E. destruct E as [_ ->]. reflexivity. }
  destruct (T (Py.get d "cost_total" VNone)) as [[o1 E1] | E1]; rewrite E1;
    [| reflexivity].
  destruct (T (Py.get d "tokens_in_total" VNone)) as [[o2 E2] | E2]; rewrite E2;
    [| reflexivity].
  destruct (T (Py.get d "tokens_out_total" VNone)) as [[o3 E3] | E3]; rewrite E3;
    [| reflexivity].
  exfalso. unfold status_names in H.
  inversion H as [? ? H1 | ? ? H']; subst;
    [apply R in H1; congruence |].
  inversion H' as [? ? H2 | ? ? H'']; subst;
    [apply R in H2; congruence |].
  inversion H'' as [? ? H3 | ? ? H''']; subst;
    [apply R in H3; congruence | inversion H'''].
Qed.

Lemma status_names_dec (d : list (string * Py.value)) :
  Forall (fun k => overflows (Py.get d k VNone) = false) status_names
  \/ Exists (fun k => overflows (Py.get d k VNone) = true) status_names.
Proof.
  unfold status_names.
  destruct (overflows (Py.get d "cost_total" VNone)) eqn:E1;
    [right; now constructor |].
  destruct (overflows (Py.get d "tokens_in_total" VNone)) eqn:E2;
    [right; apply Exists_cons_tl; now constructor |].
  destruct (overflows (Py.get d "tokens_out_total" VNone)) eqn:E3;
    [right; apply Exists_cons_tl, Exists_cons_tl; now constructor |].
  left. repeat constructor; assumption.
Qed.

Lemma safe_float_Some (v : Py.value) (x : pyfloat) :
  _safe_float v = Ok (Some x) <-> float v = Ok x.
Proof.
  rewrite _safe_float_eq. destruct (float v) as [y | []]; split; intros H;
    try discriminate H; now inversion H.
Qed.

(** The rows of step 1 are rows of status fields, stamped [now]. *)
Lemma status_rows_In (now : Q) (r : result Py.value) (row : metric_row) :
  In row (status_rows now r) ->
  exists d k x,
    r = Ok (VDict d) /\ In k status_names /\ float (Py.get d k VNone) = Ok x
    /\ row = status_row now (k, x)
    /\ Forall (fun k => overflows (Py.get d k VNone) = false) status_names.
Proof.
  unfold status_rows. destruct r as [[| | | | | | | d] | e]; simpl; try contradiction.
  destruct (status_names_dec d) as [Hok | Hbad];
    [| rewrite (status_items_Raise d Hbad); contradiction].
  destruct (status_items_Ok d Hok) as [o1 [o2 [o3 [E1 [E2 [E3 ->]]]]]].
  intros H. apply in_map_iff in H. destruct H as [[k x] [<- Hin]].
  exists d, k, x. split; [reflexivity |].
  unfold status_names.
  apply in_app_or in Hin. destruct Hin as [Hin | Hin].
  { destruct o1 as [y |]; simpl in Hin; [| contradiction].
    destruct Hin as [Hin | []]. inversion Hin; subst.
    apply safe_float_Some in E1. simpl. tauto. }
  apply in_app_or in Hin. destruct Hin as [Hin | Hin].
  { destruct o2 as [y |]; simpl in Hin; [| contradiction].
    destruct Hin as [Hin | []]. inversion Hin; subst.
    apply safe_float_Some in E2. simpl. tauto. }
  destruct o3 as [y |]; simpl in Hin; [| contradiction].
  destruct Hin as [Hin | []]. inversion Hin; subst.
  apply safe_float_Some in E3. simpl. tauto.
Qed.

(** Every convertible field of a status that does not end step 1 has its
    row. *)
Lemma status_rows_has (now : Q) (d : list (string * Py.value)) (k : string)
  (x : pyfloat) :
  Forall (fun k => overflows (Py.get d k VNone) = false) status_names ->
  In k status_names -> float (Py.get d k VNone) = Ok x ->
  In (status_row now (k, x)) (status_rows now (Ok (VDict d))).
Proof.
  intros Hok Hk Hx. unfold status_rows.
  destruct (status_items_Ok d Hok) as [o1 [o2 [o3 [E1 [E2 [E3 ->]]]]]].
  apply in_map. apply safe_float_Some in Hx.
  unfold status_names in Hk. simpl in Hk.
  destruct Hk as [<- | [<- | [<- | []]]].
  - rewrite Hx in E1. inversion E1; subst. simpl. now left.
  - rewrite Hx in E2. inversion E2; subst.
    apply in_or_app. right. apply in_or_app. left. now left.
  - rewrite Hx in E3. inversion E3; subst.
    apply in_or_app. right. apply in_or_app. right. now left.
Qed.

Lemma status_rows_length (now : Q) (r : result Py.value) :
  (List.length (status_rows now r) <= 3)%nat.
Proof.
  unfold status_rows. destruct r as [[| | | | | | | d] | e]; simpl; try lia.
  destruct (status_names_dec d) as [Hok | Hbad];
    [| rewrite (status_items_Raise d Hbad); simpl; lia].
  destruct (status_items_Ok d Hok) as [o1 [o2 [o3 [_ [_ [_ ->]]]]]].
  rewrite length_map. destruct o1, o2, o3; simpl; lia.
Qed.

Lemma status_rows_names (now : Q) (r : result Py.value) (row : metric_row) :
  In row (status_rows now r) ->
  In (metric row) status_names /\ ts row = now /\ value_text row = None.
Proof.
  intros H. apply status_rows_In in H.
  destruct H as [d [k [x [_ [Hk [_ [-> _]]]]]]]. simpl. auto.
Qed.

Lemma step_rows_not_snapshot (now : Q) (r1 r2 : result Py.value) :
  Forall (fun r => is_snapshot_row r = false)
    (status_rows now r1 ++ sessions_rows now r2).
Proof.
  apply Forall_app. split; apply Forall_forall; intros r Hr.
  - apply status_rows_names in Hr. destruct Hr as [Hn _].
    unfold is_snapshot_row. unfold status_names in Hn. simpl in Hn.
    destruct Hn as [<- | [<- | [<- | []]]]; reflexivity.
  - apply sessions_rows_cases in Hr. destruct Hr as [Hn _].
    unfold is_snapshot_row. now rewrite Hn.
Qed.

Lemma snapshot_count_app (rows pre : list metric_row) (r : metric_row) :
  Forall (fun x => is_snapshot_row x = false) pre ->
  is_snapshot_row r = true ->
  List.length (filter is_snapshot_row (rows ++ pre ++ [r]))
  = S (List.length (filter is_snapshot_row rows)).
Proof.
  intros Hpre Hr. rewrite !filter_app, !length_app. simpl. rewrite Hr. simpl.
  replace (filter is_snapshot_row pre) with (@nil metric_row); [simpl; lia |].
  symmetry. induction Hpre as [| x pre Hx _ IH]; simpl; [reflexivity |].
  now rewrite Hx.
Qed.

Lemma float_raises (v : Py.value) (e : exn) :
  float v = Raise e -> e = TypeError \/ e = ValueError \/ e = OverflowError.
Proof.
  destruct v; simpl; intros H; try discriminate; try (inversion H; tauto).
  - destruct (fits_float z); inversion H. tauto.
  - destruct (float_of_string s); inversion H. tauto.
Qed.

(** The four outcomes of the conversion of a last-run value. *)
Lemma last_ts_cases (now : Q) (v : Py.value) :
  (exists x, float v = Ok (Finite x) /\ overflows v = false
             /\ last_ts now v = Ok (seconds x))
  \/ (float v = Ok NaN /\ overflows v = false
      /\ last_ts now v = Raise IntegrityError)
  \/ (exists e, float v = Raise e /\ (e = TypeError \/ e = ValueError)
                /\ overflows v = false /\ last_ts now v = Ok now)
  \/ (float v = Raise OverflowError /\ overflows v = true
      /\ last_ts now v = Raise OverflowError).
Proof.
  unfold last_ts. pose proof (float_overflows v) as Ho.
  assert (Hno : float v <> Raise OverflowError -> overflows v = false).
  { intros H. destruct (overflows v); [| reflexivity].
    destruct Ho as [Ho _]. now specialize (Ho eq_refl). }
  destruct (float v) as [[x |] | e] eqn:E.
  - left. exists x. repeat split. apply Hno. discriminate.
  - right. left. repeat split. apply Hno. discriminate.
  - destruct (float_raises _ E) as [-> | [-> | ->]].
    + right. right. left. exists TypeError. repeat split; [tauto |].
      apply Hno. discriminate.
    + right. right. left. exists ValueError. repeat split; [tauto |].
      apply Hno. discriminate.
    + right. right. right. repeat split. now apply Ho.
Qed.

(** An entry of the job list lets the cron step go on when it is not a
    dict, has no truthy last-run value, or has one whose conversion neither
    overflows nor gives NaN. *)
Lemma job_passes_dict (now : Q) (j : list (string * Py.value)) :
  job_passes now (VDict j) = true
  <-> (truthy (last_run_of j) = true ->
       overflows (last_run_of j) = false /\ float (last_run_of j) <> Ok NaN).
Proof.
  unfold job_passes, job_rows.
  destruct (truthy (last_run_of j)); [| split; [discriminate | reflexivity]].
  destruct (last_ts_cases now (last_run_of j))
    as [[x [E [Ho ->]]] | [[E [Ho ->]] | [[e [E [_ [Ho ->]]]] | [E [Ho ->]]]]];
    rewrite E, Ho; split; try reflexivity;
    try (intros _ _; split; [reflexivity | discriminate]).
  - discriminate.
  - intros H. destruct (H eq_refl) as [_ H']. congruence.
  - discriminate.
  - intros H. destruct (H eq_refl) as [H' _]. discriminate.
Qed.

(** The cron rows of a job list in which no entry ends the step. *)
Lemma jobs_rows_clean (now : Q) (jobs : list Py.value) :
  forallb (job_passes now) jobs = true ->
  (forall j x,
     In (VDict j) jobs -> truthy (last_run_of j) = true ->
     float (last_run_of j) = Ok (Finite x) ->
     In (CronRow (seconds x) (job_key j) (json_dumps (VDict j))) (jobs_rows now jobs))
  /\ (forall j e,
        In (VDict j) jobs -> truthy (last_run_of j) = true ->
        float (last_run_of j) = Raise e ->
        In (CronRow now (job_key j) (json_dumps (VDict j))) (jobs_rows now jobs))
  /\ (forall r, In r (jobs_rows now jobs) ->
        exists j, In (VDict j) jobs /\ truthy (last_run_of j) = true
                  /\ job_id r = job_key j /\ c_data r = json_dumps (VDict j))
  /\ List.length (jobs_rows now jobs) = List.length (filter with_last_run jobs).
Proof.
  induction jobs as [| job jobs IH]; intros Hall; simpl in *.
  - repeat split; try contradiction.
  - apply andb_true_iff in Hall. destruct Hall as [Hjob Hrest].
    destruct (IH Hrest) as [I1 [I2 [I3 I4]]]. clear IH.
    unfold job_passes in Hjob.
    destruct (job_rows now job) as [rows |] eqn:Erows; [| discriminate].
    assert (Hrows : match job with
                    | VDict j =>
                        if truthy (last_run_of j)
                        then exists t0,
                               last_ts now (last_run_of j) = Ok t0
                               /\ rows = [CronRow t0 (job_key j) (json_dumps (VDict j))]
                        else rows = []
                    | _ => rows = []
                    end).
    { destruct job; simpl in Erows; try (now inversion Erows).
      destruct (truthy (last_run_of d)); [| now inversion Erows].
      destruct (last_ts now (last_run_of d)) as [t0 |]; [| discriminate].
      inversion Erows. now exists t0. }
    split; [| split; [| split]].
    + intros j x [-> | Hin] Ht Hx.
      * rewrite Ht in Hrows. destruct Hrows as [t0 [Hts ->]].
        unfold last_ts in Hts. rewrite Hx in Hts. inversion Hts. now left.
      * apply in_or_app. right. now apply I1.
    + intros j e [-> | Hin] Ht He.
      * rewrite Ht in Hrows. destruct Hrows as [t0 [Hts ->]].
        destruct (last_ts_cases now (last_run_of j))
          as [[x [E _]] | [[E _] | [[e' [_ [_ [_ E]]]] | [_ [_ E]]]]];
          try congruence.
        rewrite E in Hts. inversion Hts. now left.
      * apply in_or_app. right. now eapply I2; eauto.
    + intros r Hr. apply in_app_or in Hr. destruct Hr as [Hr | Hr].
      * destruct job; try (subst rows; contradiction).
        destruct (truthy (last_run_of d)) eqn:Ht; [| subst rows; contradiction].
        destruct Hrows as [t0 [_ ->]]. destruct Hr as [<- | []].
        exists d. repeat split; auto.
      * destruct (I3 r Hr) as [j [Hin H]]. exists j. split; [now right | exact H].
    + rewrite length_app, I4.
      destruct job; simpl; try (now subst rows).
      destruct (truthy (last_run_of d)); [| now subst rows].
      destruct Hrows as [t0 [_ ->]]. reflexivity.
Qed.

(** C4. A collection cycle never raises, whatever the gateway does, and
    always appends a snapshot row.  The metrics rows of steps 1 and 2 do not
    depend on what the [cron] call does: under any gateway that answers
    [session_status] and [sessions_list] the same way (its [cron] call may
    raise or return anything) the cycle writes the same rows before its
    snapshot row.  These rows hold the status fields that convert, when no
    field of the status ends step 1 with [OverflowError], and the session
    count, whatever step 1 did.  The cron rows in turn depend on the answer
    to [cron] alone.  The worker loop never raises either, and every pass
    adds exactly one snapshot row, so a failed pass does not stop later
    ones. *)
Theorem collect_isolates_steps (gw : string -> Py.value -> result Py.value)
  (now : Q) (store : HistoryDB.t) :
  fst (_collect gw now store) = Ok tt
  /\ (exists pre,
        (forall gw',
           gw' "session_status" (VDict []) = gw "session_status" (VDict []) ->
           gw' "sessions_list" sessions_params = gw "sessions_list" sessions_params ->
           exists text,
             fst (_collect gw' now store) = Ok tt
             /\ metrics (snd (_collect gw' now store))
                = metrics store ++ pre ++ [snapshot_row now text])
        /\ (forall d k q,
              gw "session_status" (VDict []) = Ok (VDict d) ->
              Forall (fun k => overflows (Py.get d k VNone) = false) status_names ->
              In k status_names ->
              float (Py.get d k VNone) = Ok (Finite q) ->
              In (float_row now (k, q)) pre)
        /\ (forall d l,
              gw "sessions_list" sessions_params = Ok (VDict d) ->
              Py.get d "sessions" (VList []) = VList l ->
              In (float_row now ("sessions_active", inject_Z (Z.of_nat (List.length l))))
                 pre))
  /\ (forall gw',
        gw' "cron" cron_params = gw "cron" cron_params ->
        crons (snd (_collect gw' now store)) = crons (snd (_collect gw now store)))
  /\ (forall passes store0,
        fst (_run passes store0) = Ok tt
        /\ List.length (filter is_snapshot_row (metrics (snd (_run passes store0))))
           = (List.length (filter is_snapshot_row (metrics store0))
              + List.length passes)%nat).
Proof.
  split; [now rewrite collect_exact |]. split; [| split].
  - exists (status_rows now (gw "session_status" (VDict []))
            ++ sessions_rows now (gw "sessions_list" sessions_params)).
    split; [| split].
    + intros gw' H1 H2. rewrite collect_exact. simpl. rewrite H1, H2.
      eexists. split; [reflexivity |]. now rewrite <- !app_assoc.
    + intros d k q Hgw Hok Hk Hq. rewrite Hgw. apply in_or_app. left.
      change (float_row now (k, q)) with (status_row now (k, Finite q)).
      now apply status_rows_has.
    + intros d l Hgw Hl. rewrite Hgw. apply in_or_app. right.
      unfold sessions_rows. rewrite Hl. now left.
  - intros gw' H. rewrite !collect_exact. simpl. now rewrite H.
  - intros passes. induction passes as [| [now' gw'] rest IH]; intros store0.
    + simpl. split; [reflexivity | lia].
    + rewrite run_cons. destruct (IH (snd (_collect gw' now' store0))) as [H1 H2].
      split; [exact H1 |]. rewrite H2, collect_exact. simpl.
      replace (status_rows now' (gw' "session_status" (VDict []))
               ++ sessions_rows now' (gw' "sessions_list" sessions_params)
               ++ [snapshot_row now'
                     (json_dumps
                        (VDict (snapshot_data now' (gw' "session_status" (VDict []))
                                  (gw' "sessions_list" sessions_params)
                                  (gw' "cron" cron_params))))])
        with ((status_rows now' (gw' "session_status" (VDict []))
               ++ sessions_rows now' (gw' "sessions_list" sessions_params))
              ++ [snapshot_row now'
                    (json_dumps
                       (VDict (snapshot_data now' (gw' "session_status" (VDict []))
                                 (gw' "sessions_list" sessions_params)
                                 (gw' "cron" cron_params))))])
        by now rewrite <- app_assoc.
      rewrite snapshot_count_app;
        [lia | apply step_rows_not_snapshot | reflexivity].
Qed.

(** C5. When the gateway answers the [cron] call with a job list in which
    no last-run value is NaN or an int beyond the range of a float, the
    cycle writes one cron row for every job entry with a truthy last-run
    value ([lastRun], else [last_run]) and none for the other entries: at
    [x / 1000] if the value converts to a float [x > 1e10], at [x] if it
    converts to another [x], and at the collection time if it does not
    convert; the row is keyed by the job's id, else its name, else
    ["unknown"], and holds the job entry.  The snapshot row holds the whole
    response, so entries without a last-run value are in it too.
    1700000000000 and 1700000000 normalise to the same timestamp. *)
Theorem cron_records (gw : string -> Py.value -> result Py.value) (now : Q)
  (store : HistoryDB.t) (d : list (string * Py.value)) (jobs : list Py.value) :
  gw "cron" cron_params = Ok (VDict d) ->
  Py.get d "jobs" (Py.get d "crons" (VList [])) = VList jobs ->
  (forall j, In (VDict j) jobs -> truthy (last_run_of j) = true ->
             overflows (last_run_of j) = false /\ float (last_run_of j) <> Ok NaN) ->
  (exists new pre all,
     snd (_collect gw now store)
     = DB (pre ++ [snapshot_row now (json_dumps (VDict all))])
          (sessions store) (crons store ++ new)
     /\ Py.lookup "cron" all = Some (VDict d)
     /\ (forall j x,
           In (VDict j) jobs -> truthy (last_run_of j) = true ->
           float (last_run_of j) = Ok (Finite x) ->
           In (CronRow (seconds x) (job_key j) (json_dumps (VDict j))) new)
     /\ (forall j e,
           In (VDict j) jobs -> truthy (last_run_of j) = true ->
           float (last_run_of j) = Raise e ->
           In (CronRow now (job_key j) (json_dumps (VDict j))) new)
     /\ (forall r, In r new ->
           exists j, In (VDict j) jobs /\ truthy (last_run_of j) = true
                     /\ job_id r = job_key j /\ c_data r = json_dumps (VDict j))
     /\ List.length new = List.length (filter with_last_run jobs))
  /\ (exists q1 q2,
        normalize_last_run (VInt 1700000000000) = Ok (Finite q1)
        /\ normalize_last_run (VInt 1700000000) = Ok (Finite q2)
        /\ q1 == q2 /\ q2 == 1700000000
        /\ seconds 1700000000000 == 1700000000
        /\ seconds 1700000000 == 1700000000)
  /\ (forall j, truthy (Py.get j "id" VNone) = true ->
                job_key j = str (Py.get j "id" VNone))
  /\ (forall j, truthy (Py.get j "id" VNone) = false ->
                truthy (Py.get j "name" VNone) = true ->
                job_key j = str (Py.get j "name" VNone))
  /\ (forall j, truthy (Py.get j "id" VNone) = false ->
                truthy (Py.get j "name" VNone) = false ->
                job_key j = "unknown").
Proof.
  intros Hgw Hjobs Hclean.
  assert (Hall : forallb (job_passes now) jobs = true).
  { apply forallb_forall. intros job Hin.
    destruct job; try reflexivity.
    apply job_passes_dict. intros Ht. now apply Hclean. }
  split; [| split; [| split; [| split]]].
  - rewrite collect_exact. rewrite Hgw. simpl. unfold job_list. rewrite Hjobs.
    destruct (jobs_rows_clean now jobs Hall) as [I1 [I2 [I3 I4]]].
    exists (jobs_rows now jobs). eexists. eexists.
    split; [rewrite !app_assoc; reflexivity |].
    split; [| repeat split; assumption].
    unfold snapshot_data, kept_cron, job_list. rewrite Hjobs, Hall. simpl.
    apply RangeSpec.lookup_set_same.
  - eexists. eexists. split; [reflexivity |]. split; [reflexivity |].
    repeat split; reflexivity.
  - intros j H. unfold job_key. now rewrite H.
  - intros j H1 H2. unfold job_key. now rewrite H1, H2.
  - intros j H1 H2. unfold job_key. now rewrite H1, H2.
Qed.

(** C8. No row of the metrics table holds both [value] and [value_text]:
    this holds of the empty table and is kept by [record_metrics] in both
    calling forms, by a collection cycle (its metric batches and its
    snapshot row) and by the worker loop.  Every row holds exactly one of
    the two as long as no value written is the float NaN, which is stored
    as NULL: the invariant is kept by a [record_metrics] whose data holds
    no NaN and by a cycle and a worker loop whose status fields do not
    convert to NaN. *)
Theorem metrics_rows_one_value :
  Forall one_value (metrics HistoryDB.empty)
  /\ (forall now a data db,
        Forall not_both (metrics db) ->
        Forall not_both (metrics (snd (record_metrics now a data db))))
  /\ (forall gw now db,
        Forall not_both (metrics db) ->
        Forall not_both (metrics (snd (_collect gw now db))))
  /\ (forall passes db,
        Forall not_both (metrics db) ->
        Forall not_both (metrics (snd (_run passes db))))
  /\ (forall now a data db,
        is_nan data = false ->
        (forall items k v, data = VDict items -> In (k, v) items -> is_nan v = false) ->
        Forall one_value (metrics db) ->
        Forall one_value (metrics (snd (record_metrics now a data db))))
  /\ (forall gw now db,
        (forall d k, gw "session_status" (VDict []) = Ok (VDict d) ->
                     In k status_names -> float (Py.get d k VNone) <> Ok NaN) ->
        Forall one_value (metrics db) ->
        Forall one_value (metrics (snd (_collect gw now db))))
  /\ (forall passes db,
        Forall (fun p => forall d k,
                  snd p "session_status" (VDict []) = Ok (VDict d) ->
                  In k status_names -> float (Py.get d k VNone) <> Ok NaN) passes ->
        Forall one_value (metrics db) ->
        Forall one_value (metrics (snd (_run passes db)))).
Proof.
  assert (Hrec : forall now a data db,
            Forall not_both (metrics db) ->
            Forall not_both (metrics (snd (record_metrics now a data db)))).
  { intros now a data db H.
    destruct (record_metrics_rows now a data db) as [rows [-> Hrows]]. simpl.
    apply Forall_app. split; [exact H |].
    eapply Forall_impl; [| exact Hrows]. intros r [t0 [k [v [-> _]]]].
    apply metric_row_for_not_both. }
  assert (Hcol : forall gw now db,
            Forall not_both (metrics db) ->
            Forall not_both (metrics (snd (_collect gw now db)))).
  { intros gw now db H. rewrite collect_exact. simpl.
    apply Forall_app. split; [exact H |].
    apply Forall_app. split; [| apply Forall_app; split].
    - apply Forall_forall. intros r Hr. apply status_rows_names in Hr.
      right. tauto.
    - apply Forall_forall. intros r Hr. apply sessions_rows_cases in Hr.
      right. tauto.
    - constructor; [now left | constructor]. }
  assert (Hcol1 : forall gw now db,
            (forall d k, gw "session_status" (VDict []) = Ok (VDict d) ->
                         In k status_names -> float (Py.get d k VNone) <> Ok NaN) ->
            Forall one_value (metrics db) ->
            Forall one_value (metrics (snd (_collect gw now db)))).
  { intros gw now db Hnan H. rewrite collect_exact. simpl.
    apply Forall_app. split; [exact H |].
    apply Forall_app. split; [| apply Forall_app; split].
    - apply Forall_forall. intros r Hr. apply status_rows_In in Hr.
      destruct Hr as [d [k [x [Hgw [Hk [Hx [-> _]]]]]]].
      left. simpl. split; [| reflexivity].
      destruct x as [q |]; [discriminate |]. exfalso. exact (Hnan d k Hgw Hk Hx).
    - apply Forall_forall. intros r Hr. apply sessions_rows_cases in Hr.
      left. tauto.
    - constructor; [| constructor]. right. split; [reflexivity | discriminate]. }
  split; [constructor |]. split; [exact Hrec |]. split; [exact Hcol |].
  split; [| split; [| split; [exact Hcol1 |]]].
  - intros passes. induction passes as [| [now gw] rest IH]; intros db H.
    + exact H.
    + rewrite run_cons. apply IH. now apply Hcol.
  - intros now a data db Hd Hitems H.
    destruct (record_metrics_rows now a data db) as [rows [-> Hrows]]. simpl.
    apply Forall_app. split; [exact H |].
    eapply Forall_impl; [| exact Hrows].
    intros r [t0 [k [v [-> [-> | [items [-> Hin]]]]]]];
      apply metric_row_for_one_value; [exact Hd | now apply (Hitems items k v)].
  - intros passes. induction passes as [| [now gw] rest IH]; intros db Hp H.
    + exact H.
    + inversion Hp as [| ? ? Hgw Hrest]; subst. rewrite run_cons.
      apply IH; [exact Hrest |]. apply Hcol1; [exact Hgw | exact H].
Qed.

End WithLib.

End CollectorSpec.

Module CollectorExamples.
Import HistoryDB HistoryCollector WriteFacts CollectFacts CollectorSpec Samples Spec.

Example sample_cycle :
  _collect (lib := sample_lib) sample_gateway 1000 HistoryDB.empty
  = (Ok tt,
     DB [MetricRow 1000 "cost_total" (Some (3 # 2)) None;
         MetricRow 1000 "tokens_in_total" (Some (500 # 1)) None;
         MetricRow 1000 "sessions_active" (Some (2 # 1)) None;
         MetricRow 1000 "snapshot" None (Some "{...}")]
        []
        [CronRow (1700000000000 # 1000) "a" "{...}";
         CronRow (1700000000 # 1) "b" "{...}"]).
Proof. vm_compute. reflexivity. Qed.

Example broken_cron_cycle :
  _collect (lib := sample_lib) broken_cron_gateway 1000 HistoryDB.empty
  = (Ok tt,
     DB [MetricRow 1000 "cost_total" (Some (3 # 2)) None;
         MetricRow 1000 "tokens_in_total" (Some (500 # 1)) None;
         MetricRow 1000 "sessions_active" (Some (2 # 1)) None;
         MetricRow 1000 "snapshot" None (Some "{...}")]
        [] []).
Proof. vm_compute. reflexivity. Qed.

(** A status field beyond the range of a float ends step 1 before anything
    is written: the other fields are lost with it, and the later steps run. *)
Example overflowing_status_cycle :
  _collect (lib := sample_lib)
    (fun m p => if (m =? "session_status")%string
                then Ok (VDict [("cost_total", VFloat (3 # 2));
                                ("tokens_in_total", VInt (10 ^ 400))])
                else sample_gateway m p)
    1000 HistoryDB.empty
  = (Ok tt,
     DB [MetricRow 1000 "sessions_active" (Some (2 # 1)) None;
         MetricRow 1000 "snapshot" None (Some "{...}")]
        []
        [CronRow (1700000000000 # 1000) "a" "{...}";
         CronRow (1700000000 # 1) "b" "{...}"]).
Proof. vm_compute. reflexivity. Qed.

Lemma collect_isolates_steps_witness :
  exists pre text,
    fst (_collect (lib := sample_lib) broken_cron_gateway 1000 HistoryDB.empty) = Ok tt
    /\ metrics (snd (_collect (lib := sample_lib) broken_cron_gateway 1000 HistoryDB.empty))
       = metrics HistoryDB.empty ++ pre ++ [snapshot_row 1000 text]
    /\ In (float_row 1000 ("cost_total", 3 # 2)) pre
    /\ In (float_row 1000 ("sessions_active", inject_Z (Z.of_nat 2))) pre.
Proof.
  destruct (collect_isolates_steps (lib := sample_lib) sample_gateway 1000 HistoryDB.empty)
    as [_ [[pre [Hany [Hstatus Hcount]]] _]].
  destruct (Hany broken_cron_gateway eq_refl eq_refl) as [text [Hok Hrows]].
  exists pre, text. split; [exact Hok |]. split; [exact Hrows |]. split.
  - apply (Hstatus [("cost_total", VFloat (3 # 2)); ("tokens_in_total", VInt 500);
                    ("tokens_out_total", VStr "n/a")] "cost_total" (3 # 2)).
    + reflexivity.
    + repeat constructor.
    + left. reflexivity.
    + reflexivity.
  - apply (Hcount [("sessions", VList [VDict []; VDict []])] [VDict []; VDict []]);
      reflexivity.
Defined.

Lemma cron_records_witness :
  exists new pre all,
    snd (_collect (lib := sample_lib) sample_gateway 1000 HistoryDB.empty)
    = DB (pre ++ [snapshot_row 1000 (json_dumps (PyLib := sample_lib) (VDict all))])
         (sessions HistoryDB.empty) (crons HistoryDB.empty ++ new)
    /\ In (CronRow (seconds 1700000000000) "a"
             (json_dumps (PyLib := sample_lib)
                (VDict [("id", VStr "a"); ("lastRun", VInt 1700000000000)]))) new
    /\ (forall r, In r new ->
          exists j, truthy (last_run_of j) = true /\ job_id r = job_key (lib := sample_lib) j).
Proof.
  destruct (cron_records (lib := sample_lib) sample_gateway 1000 HistoryDB.empty
              (d := [("jobs",
                      VList [VDict [("id", VStr "a"); ("lastRun", VInt 1700000000000)];
                             VDict [("name", VStr "b"); ("last_run", VInt 1700000000)];
                             VDict [("id", VStr "c")]])])
              (jobs := [VDict [("id", VStr "a"); ("lastRun", VInt 1700000000000)];
                        VDict [("name", VStr "b"); ("last_run", VInt 1700000000)];
                        VDict [("id", VStr "c")]])
              eq_refl eq_refl)
    as [[new [pre [all [Hdb [_ [Hin [_ [Hfrom _]]]]]]]] _].
  - intros j [Hj | [Hj | [Hj | []]]] Ht; inversion Hj; subst;
      try discriminate Ht; split; try reflexivity; discriminate.
  - exists new, pre, all. split; [exact Hdb |]. split.
    + apply (Hin [("id", VStr "a"); ("lastRun", VInt 1700000000000)]
                 (inject_Z 1700000000000)).
      * left. reflexivity.
      * reflexivity.
      * reflexivity.
    + intros r Hr. destruct (Hfrom r Hr) as [j [_ [Ht [Hk _]]]]. now exists j.
Defined.

(** A truthy last-run value that is not a time gets a cron row all the same,
    stamped with the collection time: ["yesterday"] does not convert, and
    the job is recorded at 1000, the time of the cycle. *)
Lemma unconvertible_last_run_recorded :
  float (lib := sample_lib) (VStr "yesterday") = Raise ValueError
  /\ crons (snd (_collect (lib := sample_lib)
                   (fun m _ => if (m =? "cron")%string
                               then Ok (VDict [("jobs",
                                          VList [VDict [("id", VStr "a");
                                                        ("lastRun", VStr "yesterday")]])])
                               else Raise (OtherError "down"))
                   1000 HistoryDB.empty))
     = [CronRow 1000 "a"
          (json_dumps (PyLib := sample_lib)
             (VDict [("id", VStr "a"); ("lastRun", VStr "yesterday")]))].
Proof. split; vm_compute; reflexivity. Qed.

Lemma metrics_rows_one_value_witness :
  Forall one_value
    (metrics (snd (_collect (lib := sample_lib) sample_gateway 1000 HistoryDB.empty)))
  /\ Forall one_value
       (metrics (snd (record_metrics (lib := sample_lib) 7 (MetricName "snapshot")
                        (VStr "{}") HistoryDB.empty)))
  /\ Forall not_both
       (metrics (snd (record_metrics (lib := sample_lib) 7 (Timestamp 100)
                        (VDict [("a", VNaN)]) HistoryDB.empty))).
Proof.
  destruct (metrics_rows_one_value (lib := sample_lib))
    as [Hempty [Hboth [_ [_ [Hrec [Hcol _]]]]]].
  split; [| split].
  - apply Hcol; [| exact Hempty].
    intros d k Hgw Hk. inversion Hgw; subst. simpl in Hk.
    destruct Hk as [<- | [<- | [<- | []]]]; discriminate.
  - apply Hrec; [reflexivity | discriminate | exact Hempty].
  - apply Hboth. constructor.
Defined.

(** A NaN breaks the invariant: [record_metrics(100.0, {"a": nan})] writes a
    row with neither value, and so does a cycle whose status holds
    ["cost_total": "nan"]. *)
Lemma nan_row_has_no_value :
  metrics (snd (record_metrics (lib := sample_lib) 7 (Timestamp 100)
                  (VDict [("a", VNaN)]) HistoryDB.empty))
  = [MetricRow 100 "a" None None]
  /\ ~ one_value (MetricRow 100 "a" None None)
  /\ In (MetricRow 1000 "cost_total" None None)
        (metrics (snd (_collect (lib := sample_lib)
                         (fun m _ => if (m =? "session_status")%string
                                     then Ok (VDict [("cost_total", VStr "nan")])
                                     else Raise (OtherError "down"))
                         1000 HistoryDB.empty))).
Proof.
  split; [vm_compute; reflexivity |]. split.
  - intros [[H _] | [_ H]]; apply H; reflexivity.
  - vm_compute. left. reflexivity.
Qed.

End CollectorExamples.
(* ------------------------------------------------------------------ *)
(** ** HistoryCollector: start is idempotent *)
(* ------------------------------------------------------------------ *)

Module LifecycleSpec.
Import Lifecycle.

Lemma step_nth_exited (stopped : bool) (i : nat) (ws : list worker) :
  Forall (fun w => w = Exited) ws ->
  Forall (fun w => w = Exited) (step_nth stopped i ws).
Proof.
  intros H. revert i. induction H as [| w rest Hw H IH]; intros i; simpl.
  - constructor.
  - destruct i as [| j].
    + constructor; [now subst | exact H].
    + constructor; [exact Hw | apply IH].
Qed.

Lemma step_keeps_orphans_exited (c : collector) (e : event) :
  orphans_exited c -> orphans_exited (step c e).
Proof.
  unfold orphans_exited. intros H. destruct e as [| | | i]; simpl.
  - unfold start. destruct (running c) eqn:R; [exact H |].
    unfold spawn, running in *. simpl.
    destruct (_thread c) as [w |]; [| exact H].
    constructor; [| exact H]. destruct w; simpl in R; congruence.
  - exact H.
  - destruct (_thread c); exact H.
  - now apply step_nth_exited.
Qed.

Lemma run_keeps_orphans_exited (events : list event) (c : collector) :
  orphans_exited c -> orphans_exited (run events c).
Proof.
  unfold run. revert c. induction events as [| e rest IH]; intros c H; simpl.
  - exact H.
  - apply IH. now apply step_keeps_orphans_exited.
Qed.

Lemma exited_not_alive (ws : list worker) :
  Forall (fun w => w = Exited) ws -> filter is_alive ws = [].
Proof.
  induction 1 as [| w rest Hw _ IH]; simpl; [reflexivity |].
  subst w. exact IH.
Qed.

Lemma start_running (c : collector) : running (start c) = true.
Proof. unfold start. destruct (running c) eqn:R; [exact R | reflexivity]. Qed.

Lemma ticks_running (n : nat) (c : collector) :
  _stop_event c = false -> running c = true ->
  _stop_event (ticks n c) = false /\ running (ticks n c) = true
  /\ orphans (ticks n c) = orphans c.
Proof.
  unfold ticks, run. revert c. induction n as [| n IH]; intros c Hs Hr; simpl.
  - auto.
  - unfold running in Hr. destruct (_thread c) as [w |] eqn:Ht; [| discriminate].
    destruct (IH (Collector (_stop_event c) (Some (worker_step (_stop_event c) w))
                    (orphans c) (cycles c + begins_cycle (_stop_event c) w)))
      as [H1 [H2 H3]].
    + exact Hs.
    + unfold running. simpl. rewrite Hs.
      destruct w as [| | [| k] |]; simpl in *; congruence.
    + auto.
Qed.

(** C9. [start()] on a running collector changes nothing, so two calls in a
    row leave the state of the first; a second call made while the worker of
    the first goes on running changes nothing either; after two calls on a
    new collector exactly one worker is alive; and in every state reached by
    calls of [start()] and [stop()] and steps of the threads, at most one
    worker is alive, so no two workers run collection cycles side by side. *)
Theorem start_idempotent :
  (forall c, running c = true -> start c = c)
  /\ (forall c, start (start c) = start c)
  /\ (forall n, start (ticks n (start initial)) = ticks n (start initial))
  /\ alive_workers (start (start initial)) = 1%nat
  /\ (forall events, (alive_workers (run events initial) <= 1)%nat).
Proof.
  split; [| split; [| split; [| split]]].
  - intros c H. unfold start. now rewrite H.
  - intros c. unfold start at 1. now rewrite start_running.
  - intros n. unfold start at 1.
    destruct (@ticks_running n (start initial)) as [_ [H _]]; try reflexivity.
    now rewrite H.
  - reflexivity.
  - intros events. unfold alive_workers.
    rewrite (exited_not_alive (run_keeps_orphans_exited events (c := initial)
                                 (Forall_nil _))).
    simpl. destruct (running (run events initial)); lia.
Qed.

Lemma start_idempotent_witness :
  start (step (step (start initial) Tick) Tick) = step (step (start initial) Tick) Tick.
Proof.
  apply (proj1 start_idempotent (step (step (start initial) Tick) Tick)).
  reflexivity.
Defined.

Example two_starts :
  start (start initial) = Collector false (Some AtLoopHead) [] 0.
Proof. reflexivity. Qed.

Example restart_after_stop :
  run [Start; Tick; Stop; Tick; Tick; Start] initial
  = Collector false (Some AtLoopHead) [Exited] 1.
Proof. reflexivity. Qed.

End LifecycleSpec.

(* ------------------------------------------------------------------ *)
(** ** get_available_metrics and get_stats *)
(* ------------------------------------------------------------------ *)

Module CatalogFacts.
Import HistoryDB Spec Samples MoreSpec.

Lemma name_lt_trans (a b c : string) : name_lt a b -> name_lt b c -> name_lt a c.
Proof.
  unfold name_lt. intros H1 H2.
  apply OrderedTypeEx.String_as_OT.cmp_lt in H1.
  apply OrderedTypeEx.String_as_OT.cmp_lt in H2.
  apply OrderedTypeEx.String_as_OT.cmp_lt.
  eapply OrderedTypeEx.String_as_OT.lt_trans; eassumption.
Qed.

Lemma name_lt_irrefl (a : string) : ~ name_lt a a.
Proof.
  unfold name_lt. intros H.
  assert (E : String.compare a a = Eq)
    by now apply OrderedTypeEx.String_as_OT.cmp_eq.
  congruence.
Qed.

Lemma name_gt_lt (a b : string) : String.compare a b = Gt -> name_lt b a.
Proof.
  unfold name_lt. intros H. rewrite String.compare_antisym, H. reflexivity.
Qed.

Lemma name_insert_In (s x : string) (l : list string) :
  In x (name_insert s l) <-> x = s \/ In x l.
Proof.
  induction l as [| y ys IH]; simpl.
  - intuition congruence.
  - destruct (String.compare s y) eqn:E; simpl.
    + apply String.compare_eq_iff in E. subst. intuition congruence.
    + intuition congruence.
    + rewrite IH. intuition congruence.
Qed.

Lemma name_insert_sorted (s : string) (l : list string) :
  StronglySorted name_lt l -> StronglySorted name_lt (name_insert s l).
Proof.
  induction l as [| y ys IH]; simpl; intros Hs.
  - repeat constructor.
  - inversion Hs as [| ? ? Hrest Hall]; subst.
    destruct (String.compare s y) eqn:E.
    + exact Hs.
    + constructor; [exact Hs |]. constructor; [exact E |].
      eapply Forall_impl; [| exact Hall]. intros z Hz.
      eapply name_lt_trans; eassumption.
    + constructor; [now apply IH |].
      apply Forall_forall. intros z Hz. apply name_insert_In in Hz.
      destruct Hz as [-> | Hz]; [now apply name_gt_lt |].
      rewrite Forall_forall in Hall. now apply Hall.
Qed.

Lemma sorted_NoDup (l : list string) : StronglySorted name_lt l -> NoDup l.
Proof.
  induction 1 as [| x xs _ IH Hall]; constructor; [| exact IH].
  intros Hin. rewrite Forall_forall in Hall.
  exact (name_lt_irrefl (Hall _ Hin)).
Qed.

Lemma distinct_metrics_sorted (db : HistoryDB.t) :
  StronglySorted name_lt (distinct_metrics db).
Proof.
  unfold distinct_metrics. induction (map metric (metrics db)) as [| n ns IH]; simpl.
  - constructor.
  - now apply name_insert_sorted.
Qed.

Lemma distinct_metrics_In (db : HistoryDB.t) (n : string) :
  In n (distinct_metrics db) <-> exists r, In r (metrics db) /\ metric r = n.
Proof.
  unfold distinct_metrics.
  assert (H : In n (fold_right name_insert [] (map metric (metrics db)))
              <-> In n (map metric (metrics db))).
  { induction (map metric (metrics db)) as [| m ms IH]; simpl.
    - tauto.
    - rewrite name_insert_In, IH. intuition congruence. }
  rewrite H, in_map_iff. split; intros [r Hr]; exists r; tauto.
Qed.

(** X1. [get_available_metrics] lists exactly the metric names that occur in
    the metrics table, each once, in strictly ascending binary order; on an
    empty table the list is empty. *)
Theorem get_available_metrics_sorted_distinct (db : HistoryDB.t) :
  exists names,
    get_available_metrics db = VDict [("metrics", VList (map VStr names))]
    /\ StronglySorted name_lt names
    /\ NoDup names
    /\ (forall n, In n names <-> exists r, In r (metrics db) /\ metric r = n)
    /\ (metrics db = [] <-> names = []).
Proof.
  exists (distinct_metrics db). split; [reflexivity |].
  pose proof (distinct_metrics_sorted db) as Hs.
  split; [exact Hs |]. split; [now apply sorted_NoDup |].
  split; [apply distinct_metrics_In |].
  split.
  - intros H. unfold distinct_metrics. now rewrite H.
  - intros H. destruct (metrics db) as [| r rows] eqn:E; [reflexivity |].
    exfalso. assert (Hin : In (metric r) (distinct_metrics db)).
    { apply distinct_metrics_In. exists r. rewrite E. split; [now left | reflexivity]. }
    rewrite H in Hin. exact Hin.
Qed.

Example sample_names :
  get_available_metrics sample_db
  = VDict [("metrics", VList [VStr "cost_total"; VStr "tokens_in_total"])].
Proof. reflexivity. Qed.

(** *** MIN and MAX *)

Lemma fold_min_le (rest : list Q) (x : Q) :
  fold_left pick_min rest x <= x
  /\ Forall (fun y => fold_left pick_min rest x <= y) rest
  /\ In (fold_left pick_min rest x) (x :: rest).
Proof.
  revert x. induction rest as [| y ys IH]; intros x; simpl.
  - split; [apply Qle_refl | split; [constructor | now left]].
  - destruct (IH (pick_min x y)) as [H1 [H2 H3]].
    assert (Hx : pick_min x y <= x /\ pick_min x y <= y).
    { unfold pick_min. destruct (Qle_bool x y) eqn:E.
      - apply Qle_bool_iff in E. split; [apply Qle_refl | exact E].
      - apply SqlFacts.Qle_bool_false in E. split; [exact E | apply Qle_refl]. }
    destruct Hx as [Hx Hy].
    split; [eapply Qle_trans; eassumption |].
    split.
    + constructor; [eapply Qle_trans; eassumption | exact H2].
    + destruct H3 as [H3 | H3]; [| now right; right].
      rewrite <- H3. unfold pick_min. destruct (Qle_bool x y); [now left | right; now left].
Qed.

Lemma fold_max_ge (rest : list Q) (x : Q) :
  x <= fold_left pick_max rest x
  /\ Forall (fun y => y <= fold_left pick_max rest x) rest
  /\ In (fold_left pick_max rest x) (x :: rest).
Proof.
  revert x. induction rest as [| y ys IH]; intros x; simpl.
  - split; [apply Qle_refl | split; [constructor | now left]].
  - destruct (IH (pick_max x y)) as [H1 [H2 H3]].
    assert (Hx : x <= pick_max x y /\ y <= pick_max x y).
    { unfold pick_max. destruct (Qle_bool y x) eqn:E.
      - apply Qle_bool_iff in E. split; [apply Qle_refl | exact E].
      - apply SqlFacts.Qle_bool_false in E. split; [exact E | apply Qle_refl]. }
    destruct Hx as [Hx Hy].
    split; [eapply Qle_trans; eassumption |].
    split.
    + constructor; [eapply Qle_trans; eassumption | exact H2].
    + destruct H3 as [H3 | H3]; [| now right; right].
      rewrite <- H3. unfold pick_max. destruct (Qle_bool y x); [now left | right; now left].
Qed.

Lemma or_float_zero (m : Q) :
  exists q, or_ (VFloat m) (VFloat 0) = VFloat q /\ q == m.
Proof.
  unfold or_. simpl. destruct (Qeq_bool m 0) eqn:E; simpl.
  - exists 0. split; [reflexivity |]. apply Qeq_bool_iff in E. now symmetry.
  - exists m. split; [reflexivity | apply Qeq_refl].
Qed.

Lemma or_int_zero (n : Z) : or_ (VInt n) (VInt 0) = VInt n.
Proof.
  unfold or_. simpl. destruct (Z.eqb_spec n 0); simpl; congruence.
Qed.

(** X2. [get_stats] reports the number of metrics rows, an oldest and a
    newest timestamp that bound the timestamp of every row and are attained
    by rows of the table, and the file size, 0 when the size cannot be read;
    on an empty table the count and both timestamps are 0. *)
Theorem get_stats_bounds (file_size : option Z) (db : HistoryDB.t) :
  exists oldest newest,
    get_stats file_size db
    = VDict [("total_points", VInt (Z.of_nat (List.length (metrics db))));
             ("oldest_ts", VFloat oldest); ("newest_ts", VFloat newest);
             ("db_size_bytes",
              VInt (match file_size with Some n => n | None => 0%Z end))]
    /\ (forall r, In r (metrics db) -> oldest <= ts r /\ ts r <= newest)
    /\ (metrics db <> [] ->
        exists r1 r2, In r1 (metrics db) /\ In r2 (metrics db)
                      /\ oldest == ts r1 /\ newest == ts r2)
    /\ (metrics db = [] -> oldest = 0 /\ newest = 0).
Proof.
  unfold get_stats. rewrite or_int_zero.
  destruct (metrics db) as [| r rows]; simpl.
  - exists 0, 0. split; [now destruct file_size |].
    split; [intros r [] |]. split; [congruence | auto].
  - fold pick_min. fold pick_max.
    destruct (fold_min_le (map ts rows) (ts r)) as [A1 [A2 A3]].
    destruct (fold_max_ge (map ts rows) (ts r)) as [B1 [B2 B3]].
    destruct (or_float_zero (fold_left pick_min (map ts rows) (ts r))) as [lo [Elo Hlo]].
    destruct (or_float_zero (fold_left pick_max (map ts rows) (ts r))) as [hi [Ehi Hhi]].
    exists lo, hi. rewrite Elo, Ehi.
    split; [now destruct file_size |]. split; [| split; [| discriminate]].
    + rewrite Forall_forall in A2, B2.
      intros r' [<- | Hin]; rewrite Hlo, Hhi.
      * split; assumption.
      * split; [apply A2 | apply B2]; apply in_map_iff; now exists r'.
    + intros _.
      assert (Hpick : forall q, In q (ts r :: map ts rows) ->
                exists r0, (r = r0 \/ In r0 rows) /\ q = ts r0).
      { intros q [<- | Hq]; [exists r; auto |].
        apply in_map_iff in Hq. destruct Hq as [r0 [<- Hr0]]. exists r0; auto. }
      destruct (Hpick _ A3) as [r1 [Hr1 E1]]. destruct (Hpick _ B3) as [r2 [Hr2 E2]].
      exists r1, r2. repeat split; try assumption.
      * now rewrite Hlo, E1.
      * now rewrite Hhi, E2.
Qed.

Lemma get_stats_bounds_witness :
  exists oldest newest,
    get_stats None sample_db
    = VDict [("total_points", VInt 6); ("oldest_ts", VFloat oldest);
             ("newest_ts", VFloat newest); ("db_size_bytes", VInt 0)]
    /\ oldest <= 600 /\ 600 <= newest.
Proof.
  destruct (get_stats_bounds None sample_db) as [lo [hi [E [H _]]]].
  exists lo, hi. split; [exact E |].
  apply (H (MetricRow 600 "cost_total" (Some 5) None)).
  right. left. reflexivity.
Defined.

End CatalogFacts.

(* ------------------------------------------------------------------ *)
(** ** query_metrics: empty results, bucket bounds, interval 0 *)
(* ------------------------------------------------------------------ *)

Module MetricsMore.
Import HistoryDB SqlFacts MetricsSpec Spec Samples MoreSpec.

Lemma select_values_all (name : string) (from_ts to_ts : Q) (interval : Z)
  (db : HistoryDB.t) :
  map snd (select_metric name from_ts to_ts interval db)
  = range_values name from_ts to_ts db.
Proof.
  unfold select_metric, range_values.
  induction (metrics db) as [| r rows IH]; simpl; [reflexivity |].
  rewrite map_app, IH. f_equal.
  destruct ((metric r =? name)%string && in_range from_ts to_ts (ts r));
    [| reflexivity].
  destruct (value r); reflexivity.
Qed.

Lemma group_insert_not_nil (k : option Z) (v : Q) (gs : list (option Z * list Q)) :
  group_insert k v gs <> [].
Proof.
  destruct gs as [| [k' vs] rest]; simpl; [discriminate |].
  destruct (key_compare k k'); discriminate.
Qed.

Lemma group_by_nil (kvs : list (option Z * Q)) : group_by kvs = [] <-> kvs = [].
Proof.
  destruct kvs as [| [k v] rest]; simpl; [tauto |].
  split; [| discriminate]. intros H. now apply group_insert_not_nil in H.
Qed.

Lemma groups_nonempty (kvs : list (option Z * Q)) :
  Forall (fun g => snd g <> []) (group_by kvs).
Proof.
  apply Forall_forall. intros [k vs] Hin. apply group_by_In in Hin. tauto.
Qed.

Lemma points_nil (name : string) (from_ts to_ts : Q) (interval : Z)
  (db : HistoryDB.t) :
  points name from_ts to_ts interval db = []
  <-> range_values name from_ts to_ts db = [].
Proof.
  unfold points, metric_rows. rewrite (points_of_groups (groups_nonempty _)).
  rewrite <- (select_values_all name from_ts to_ts interval db).
  split.
  - intros H. apply map_eq_nil in H. apply group_by_nil in H. now rewrite H.
  - intros H. apply map_eq_nil in H. now rewrite H.
Qed.

Lemma range_values_nil (name : string) (from_ts to_ts : Q) (db : HistoryDB.t) :
  range_values name from_ts to_ts db = []
  <-> (forall r, In r (metrics db) -> metric r = name ->
                 in_range from_ts to_ts (ts r) = true -> value r = None).
Proof.
  unfold range_values. induction (metrics db) as [| r rows IH]; simpl.
  - split; [intros _ r [] | reflexivity].
  - split.
    + intros H. apply app_eq_nil in H. destruct H as [H1 H2].
      intros r' [<- | Hin] Hn Hr.
      * apply String.eqb_eq in Hn. rewrite Hn, Hr in H1. simpl in H1.
        destruct (value r); [discriminate | reflexivity].
      * exact (proj1 IH H2 r' Hin Hn Hr).
    + intros H. rewrite (proj2 IH); [| intros r' Hin; apply H; now right].
      rewrite app_nil_r.
      destruct (String.eqb_spec (metric r) name) as [Hn | Hn]; [| reflexivity].
      destruct (in_range from_ts to_ts (ts r)) eqn:Hr; [| reflexivity]. simpl.
      now rewrite (H r (or_introl eq_refl) Hn Hr).
Qed.

Lemma in_range_inverted (from_ts to_ts x : Q) :
  to_ts < from_ts -> in_range from_ts to_ts x = false.
Proof.
  intros H. unfold in_range.
  destruct (Qle_bool from_ts x) eqn:E1; [| reflexivity].
  destruct (Qle_bool x to_ts) eqn:E2; [| reflexivity].
  apply Qle_bool_iff in E1, E2. exfalso.
  apply (Qlt_not_le _ _ H). eapply Qle_trans; eassumption.
Qed.

(** X3. [query_metrics] returns an empty point list, for every interval,
    exactly when no row of that name in the range holds a number: so for an
    unknown name, for a name whose rows all hold text, and for an inverted
    range. *)
Theorem query_metrics_empty (name : string) (from_ts to_ts : Q) (interval : Z)
  (db : HistoryDB.t) :
  (query_metrics name from_ts to_ts interval db = VDict [("points", VList [])]
   <-> (forall r, In r (metrics db) -> metric r = name ->
                  in_range from_ts to_ts (ts r) = true -> value r = None))
  /\ ((forall r, In r (metrics db) -> metric r <> name) ->
      query_metrics name from_ts to_ts interval db = VDict [("points", VList [])])
  /\ (to_ts < from_ts ->
      query_metrics name from_ts to_ts interval db = VDict [("points", VList [])]).
Proof.
  assert (Hiff : query_metrics name from_ts to_ts interval db
                 = VDict [("points", VList [])]
                 <-> (forall r, In r (metrics db) -> metric r = name ->
                        in_range from_ts to_ts (ts r) = true -> value r = None)).
  { rewrite <- range_values_nil, <- (points_nil name from_ts to_ts interval db).
    unfold query_metrics. split.
    - intros H. inversion H as [Hm]. now apply map_eq_nil in Hm.
    - intros ->. reflexivity. }
  split; [exact Hiff |]. split.
  - intros H. apply Hiff. intros r Hin Hn. now apply H in Hin.
  - intros H. apply Hiff. intros r _ _ Hr.
    rewrite (in_range_inverted _ H) in Hr. discriminate.
Qed.

Lemma query_metrics_empty_witness :
  query_metrics "cost_total" 1000 0 300 sample_db = VDict [("points", VList [])]
  /\ query_metrics "no_such_metric" 0 1000 300 sample_db = VDict [("points", VList [])].
Proof.
  split.
  - apply (proj2 (proj2 (query_metrics_empty "cost_total" 1000 0 300 sample_db))).
    reflexivity.
  - apply (proj1 (proj2 (query_metrics_empty "no_such_metric" 0 1000 300 sample_db))).
    intros r [<- | [<- | [<- | [<- | [<- | [<- | []]]]]]]; discriminate.
Defined.

(** *** The bucket of a timestamp *)

Lemma bucket_start_bounds (interval : Z) (x : Q) :
  (0 < interval)%Z ->
  inject_Z (bucket_start interval x) <= x
  /\ x < inject_Z (bucket_start interval x + interval).
Proof.
  intros Hpos. unfold bucket_start.
  assert (Hi : 0 < inject_Z interval).
  { unfold Qlt. simpl. lia. }
  assert (Hne : ~ inject_Z interval == 0).
  { intros E. rewrite E in Hi. exact (Qlt_irrefl _ Hi). }
  pose proof (Qfloor_le (x / inject_Z interval)) as Hlo.
  pose proof (Qlt_floor (x / inject_Z interval)) as Hhi.
  split.
  - rewrite inject_Z_mult.
    apply (Qmult_le_compat_r _ _ (inject_Z interval)) in Hlo; [| now apply Qlt_le_weak].
    eapply Qle_trans; [exact Hlo |].
    rewrite Qmult_comm, Qmult_div_r by exact Hne. apply Qle_refl.
  - replace (Qfloor (x / inject_Z interval) * interval + interval)%Z
      with ((Qfloor (x / inject_Z interval) + 1) * interval)%Z by ring.
    rewrite inject_Z_mult.
    apply (Qmult_lt_r _ _ (inject_Z interval) Hi) in Hhi.
    eapply Qle_lt_trans; [| exact Hhi].
    rewrite Qmult_comm, Qmult_div_r by exact Hne. apply Qle_refl.
Qed.

(** X4. With a positive interval, every point of [query_metrics] starts at
    a multiple of the interval, and its bucket holds a row of that name in
    the range whose timestamp lies in
    [bucketStart <= ts < bucketStart + interval]; conversely the bucket start
    of a timestamp is the one multiple of the interval with that property. *)
Theorem bucket_contains_timestamp (name : string) (from_ts to_ts : Q)
  (interval : Z) (db : HistoryDB.t) :
  (0 < interval)%Z ->
  (forall x, exists b,
      bucket_of interval x = Some b
      /\ (interval | b)%Z
      /\ inject_Z b <= x /\ x < inject_Z (b + interval)
      /\ (forall b', (interval | b')%Z -> inject_Z b' <= x ->
                     x < inject_Z (b' + interval) -> b' = b))
  /\ (forall b a,
        In (Some (inject_Z b), a) (points name from_ts to_ts interval db) ->
        (interval | b)%Z
        /\ exists r v,
             In r (metrics db) /\ metric r = name /\ value r = Some v
             /\ from_ts <= ts r /\ ts r <= to_ts
             /\ inject_Z b <= ts r /\ ts r < inject_Z (b + interval)).
Proof.
  intros Hpos. assert (Hne : interval <> 0%Z) by lia. split.
  - intros x. exists (bucket_start interval x).
    destruct (bucket_start_bounds x Hpos) as [Hlo Hhi].
    split; [now apply bucket_of_nonzero |].
    split; [unfold bucket_start; now exists (Qfloor (x / inject_Z interval)) |].
    split; [exact Hlo |]. split; [exact Hhi |].
    intros b' [q ->] Hlo' Hhi'.
    destruct (bucket_start_bounds x Hpos) as [_ Hhi2].
    unfold bucket_start in *.
    set (f := Qfloor (x / inject_Z interval)) in *.
    assert (H1 : inject_Z (q * interval) < inject_Z (f * interval + interval))
      by (eapply Qle_lt_trans; eassumption).
    assert (H2 : inject_Z (f * interval) < inject_Z (q * interval + interval))
      by (eapply Qle_lt_trans; eassumption).
    rewrite <- Zlt_Qlt in H1, H2. f_equal. nia.
  - intros b a Hin.
    destruct (points_by_bucket name from_ts to_ts db Hne) as [ks [_ [Hk Hpts]]].
    rewrite Hpts in Hin. apply in_map_iff in Hin. destruct Hin as [k [Heq Hkin]].
    inversion Heq; subst. clear Heq.
    apply Hk in Hkin. unfold bucket_values in Hkin.
    destruct (flat_map _ (metrics db)) as [| v vs] eqn:E; [congruence |].
    assert (Hv : In v (v :: vs)) by now left.
    rewrite <- E in Hv. apply in_flat_map in Hv. destruct Hv as [r [Hr Hv]].
    destruct (value r) as [v' |] eqn:Ev; [| contradiction].
    destruct (String.eqb_spec (metric r) name) as [Hn | Hn]; [| contradiction].
    destruct (Qle_bool from_ts (ts r)) eqn:E1; [| contradiction].
    destruct (Qle_bool (ts r) to_ts) eqn:E2; [| contradiction].
    destruct (Z.eqb_spec (bucket_start interval (ts r)) b) as [Hb | Hb];
      [| contradiction].
    simpl in Hv. apply Qle_bool_iff in E1, E2.
    destruct (bucket_start_bounds (ts r) Hpos) as [Hlo Hhi]. rewrite Hb in *.
    split; [rewrite <- Hb; unfold bucket_start; now eexists |].
    exists r, v'. repeat split; assumption.
Qed.

Lemma bucket_contains_timestamp_witness :
  exists b,
    bucket_of 300 (1199 # 2) = Some b
    /\ (300 | b)%Z /\ inject_Z b <= 1199 # 2 /\ 1199 # 2 < inject_Z (b + 300).
Proof.
  destruct (proj1 (bucket_contains_timestamp "cost_total" 0 1000 (interval := 300)
                     sample_db ltac:(lia)) (1199 # 2))
    as [b [H1 [H2 [H3 [H4 _]]]]].
  exists b. repeat split; assumption.
Defined.

(** *** Interval 0 *)

Lemma group_by_null_keys (vs : list Q) :
  group_by (map (fun v => (@None Z, v)) vs)
  = match vs with
    | [] => []
    | _ => [(None, vs)]
    end.
Proof.
  induction vs as [| v vs IH]; simpl; [reflexivity |].
  rewrite IH. destruct vs; reflexivity.
Qed.

Lemma select_interval_zero (name : string) (from_ts to_ts : Q) (db : HistoryDB.t) :
  select_metric name from_ts to_ts 0 db
  = map (fun v => (@None Z, v)) (range_values name from_ts to_ts db).
Proof.
  unfold select_metric, range_values.
  induction (metrics db) as [| r rows IH]; simpl; [reflexivity |].
  rewrite map_app, IH. f_equal.
  destruct ((metric r =? name)%string && in_range from_ts to_ts (ts r));
    [| reflexivity].
  destruct (value r); reflexivity.
Qed.

(** X5. With interval 0 the bucket key is NULL for every row, so
    [query_metrics] returns at most one point: none when no row of that name
    in the range holds a number, else the single point [[None, mean]] over
    all these rows. *)
Theorem query_metrics_interval_zero (name : string) (from_ts to_ts : Q)
  (db : HistoryDB.t) :
  query_metrics name from_ts to_ts 0 db
  = VDict [("points",
            VList (match range_values name from_ts to_ts db with
                   | [] => []
                   | vs => [VList [VNone; VFloat (mean vs)]]
                   end))].
Proof.
  unfold query_metrics, points, metric_rows.
  rewrite select_interval_zero, group_by_null_keys.
  destruct (range_values name from_ts to_ts db); reflexivity.
Qed.

(** *** Every value falls in one bucket *)

Lemma group_insert_concat (k : option Z) (v : Q) (gs : list (option Z * list Q)) :
  Permutation (List.concat (map snd (group_insert k v gs))) (v :: List.concat (map snd gs)).
Proof.
  induction gs as [| [k' vs] rest IH]; simpl.
  - apply Permutation_refl.
  - destruct (key_compare k k'); simpl.
    + apply Permutation_refl.
    + apply Permutation_refl.
    + eapply perm_trans; [apply Permutation_app_head, IH |].
      apply Permutation_sym, Permutation_middle.
Qed.

Lemma group_by_concat (kvs : list (option Z * Q)) :
  Permutation (List.concat (map snd (group_by kvs))) (map snd kvs).
Proof.
  induction kvs as [| [k v] rest IH]; simpl.
  - constructor.
  - eapply perm_trans; [apply group_insert_concat | now apply perm_skip].
Qed.

(** X6. With a non-zero interval the buckets of [query_metrics] partition
    the numeric values of the rows of that name in the range: the values of
    all buckets together are these values, each once, so the bucket sizes
    add up to their number. *)
Theorem buckets_partition_values (name : string) (from_ts to_ts : Q)
  (interval : Z) (db : HistoryDB.t) :
  interval <> 0%Z ->
  exists ks : list Z,
    NoDup ks
    /\ points name from_ts to_ts interval db
       = map (fun k => (Some (inject_Z k),
                        mean (bucket_values name from_ts to_ts interval db k))) ks
    /\ Permutation
         (flat_map (bucket_values name from_ts to_ts interval db) ks)
         (range_values name from_ts to_ts db)
    /\ List.length (flat_map (bucket_values name from_ts to_ts interval db) ks)
       = List.length (range_values name from_ts to_ts db).
Proof.
  intros Hi.
  destruct (groups_of_select name from_ts to_ts db Hi) as [Hgs Hne].
  set (gs := group_by (select_metric name from_ts to_ts interval db)) in *.
  assert (Hperm : Permutation
                    (flat_map (bucket_values name from_ts to_ts interval db)
                       (int_keys gs))
                    (range_values name from_ts to_ts db)).
  { rewrite <- (select_values_all name from_ts to_ts interval db).
    eapply perm_trans; [| apply group_by_concat]. fold gs.
    rewrite Hgs at 2. rewrite map_map. simpl.
    rewrite flat_map_concat_map. apply Permutation_refl. }
  exists (int_keys gs). split; [| split; [| split]].
  - assert (Hs : StronglySorted Z.lt (int_keys gs))
      by (apply int_keys_sorted, group_by_sorted).
    clear -Hs. induction Hs as [| k ks _ IH Hall]; constructor; [| exact IH].
    intros Hin. rewrite Forall_forall in Hall. specialize (Hall _ Hin). lia.
  - unfold points, metric_rows. fold gs. rewrite (points_of_groups Hne).
    transitivity
      (map (fun g : option Z * list Q => (option_map inject_Z (fst g), mean (snd g)))
           (map (fun k => (Some k, bucket_values name from_ts to_ts interval db k))
                (int_keys gs))).
    + now rewrite <- Hgs.
    + now rewrite map_map.
  - exact Hperm.
  - now apply Permutation_length.
Qed.

Lemma buckets_partition_values_witness :
  exists ks : list Z,
    NoDup ks
    /\ Permutation (flat_map (bucket_values "cost_total" 0 1000 300 sample_db) ks)
                   (range_values "cost_total" 0 1000 sample_db).
Proof.
  destruct (buckets_partition_values "cost_total" 0 1000 (interval := 300) sample_db
              ltac:(lia)) as [ks [H1 [_ [H2 _]]]].
  now exists ks.
Defined.

End MetricsMore.

(* ------------------------------------------------------------------ *)
(** ** record_metrics: what is written, and what a query then sees *)
(* ------------------------------------------------------------------ *)

Module WriteMore.
Import HistoryDB SqlFacts MetricsSpec WriteFacts Spec Samples MoreSpec.

Section WithLib.
Context {lib : PyLib}.

(** X7. [record_metrics(ts, data)] with a dict whose numbers all fit a
    float writes one row per entry, in dict order, stamped [ts]: a number (a
    bool included) as its float in [value], a NaN as NULL, anything else as
    its [str] in [value_text]; a longer dict writes what its two halves
    write one after the other.  At the first int beyond the range of a
    float the call raises [OverflowError]: the rows of the entries before it
    are written, those after it are not.  Data that is not a dict raises
    [AttributeError] and writes nothing; a NaN timestamp is refused by the
    table with [IntegrityError].  In the other calling form,
    [record_metrics(name, x)] writes the one row of [x] stamped with the
    current time, or raises [OverflowError] and writes nothing.  No form
    touches the session or cron table. *)
Theorem record_metrics_appends (now : Q) (db : HistoryDB.t) :
  (forall (t0 : Q) items,
     Forall (fun kv => overflows (snd kv) = false) items ->
     record_metrics now (Timestamp t0) (VDict items) db
     = (Ok tt,
        DB (metrics db ++ map (fun kv => metric_row_for t0 (fst kv) (snd kv)) items)
           (sessions db) (crons db)))
  /\ (forall (t0 : Q) items1 items2,
        Forall (fun kv => overflows (snd kv) = false) items1 ->
        snd (record_metrics now (Timestamp t0) (VDict (items1 ++ items2)) db)
        = snd (record_metrics now (Timestamp t0) (VDict items2)
                 (snd (record_metrics now (Timestamp t0) (VDict items1) db))))
  /\ (forall (t0 : Q) before k v after,
        Forall (fun kv => overflows (snd kv) = false) before ->
        overflows v = true ->
        record_metrics now (Timestamp t0) (VDict (before ++ (k, v) :: after)) db
        = (Raise OverflowError,
           DB (metrics db
               ++ map (fun kv => metric_row_for t0 (fst kv) (snd kv)) before)
              (sessions db) (crons db)))
  /\ (forall ts0 data,
        is_dict data = false ->
        record_metrics now (Timestamp ts0) data db = (Raise AttributeError, db))
  /\ (forall k v items,
        overflows v = false ->
        record_metrics now (Timestamp NaN) (VDict ((k, v) :: items)) db
        = (Raise IntegrityError, db))
  /\ (forall name x,
        overflows x = false ->
        record_metrics now (MetricName name) x db
        = (Ok tt,
           DB (metrics db ++ [metric_row_for now name x]) (sessions db) (crons db)))
  /\ (forall name x,
        overflows x = true ->
        record_metrics now (MetricName name) x db = (Raise OverflowError, db))
  /\ (forall t0 name v,
        ts (metric_row_for t0 name v) = t0
        /\ metric (metric_row_for t0 name v) = name
        /\ (is_number v = true ->
            value (metric_row_for t0 name v) = number_value v
            /\ value_text (metric_row_for t0 name v) = None)
        /\ (is_number v = false ->
            value (metric_row_for t0 name v) = None
            /\ value_text (metric_row_for t0 name v) = Some (str v))
        /\ (is_nan v = true ->
            value (metric_row_for t0 name v) = None
            /\ value_text (metric_row_for t0 name v) = None))
  /\ (forall z, overflows (VInt z) = true <-> (2 ^ 1024 - 2 ^ 970 <= Z.abs z)%Z).
Proof.
  split; [| split; [| split; [| split; [| split; [| split; [| split; [| split]]]]]]].
  - intros t0 items H. unfold record_metrics. now apply record_items_run.
  - intros t0 items1 items2 H. unfold record_metrics.
    rewrite (record_items_run _ _ H). simpl.
    revert db. induction H as [| [k v] items1 Hv _ IH]; intros db; simpl.
    + now rewrite app_nil_r, db_eta.
    + unfold Py.bindM. rewrite insert_value_run by exact Hv. rewrite IH.
      simpl. now rewrite <- app_assoc.
  - intros t0 before k v after H Hv. unfold record_metrics.
    now apply record_items_overflow.
  - intros ts0 data H. destruct data; try reflexivity. discriminate.
  - intros k v items Hv. simpl. unfold Py.bindM, insert_value, insert_metric_row.
    simpl. destruct (is_number v) eqn:E; [| reflexivity].
    destruct (float_number _ E Hv) as [x [-> _]]. reflexivity.
  - intros name x H. unfold record_metrics. now rewrite insert_value_run.
  - intros name x H. unfold record_metrics. now apply insert_value_overflow.
  - intros t0 name v. unfold metric_row_for.
    destruct v; simpl; repeat split; intros; try reflexivity; discriminate.
  - intros z. unfold overflows, fits_float, float_limit.
    rewrite negb_true_iff, Z.ltb_ge. reflexivity.
Qed.

Lemma select_metric_app (name : string) (from_ts to_ts : Q) (interval : Z)
  (db : HistoryDB.t) (rows : list metric_row) :
  select_metric name from_ts to_ts interval
    (DB (metrics db ++ rows) (sessions db) (crons db))
  = select_metric name from_ts to_ts interval db
    ++ select_metric name from_ts to_ts interval (DB rows [] []).
Proof. unfold select_metric. simpl. apply flat_map_app. Qed.

Lemma select_metric_skip (name : string) (from_ts to_ts : Q) (interval : Z)
  (rows : list metric_row) :
  Forall (fun r => metric r <> name \/ value r = None) rows ->
  select_metric name from_ts to_ts interval (DB rows [] []) = [].
Proof.
  unfold select_metric. simpl. induction 1 as [| r rows Hr _ IH]; simpl.
  - reflexivity.
  - rewrite IH, app_nil_r. destruct Hr as [Hn | Hv].
    + destruct (String.eqb_spec (metric r) name); [contradiction | reflexivity].
    + rewrite Hv. now destruct ((metric r =? name)%string && in_range from_ts to_ts (ts r)).
Qed.

(** X8. Recording entries under other names, or entries that are not
    numbers, leaves the result of [query_metrics] for a name unchanged; so do
    [record_session] and [record_cron]. *)
Theorem other_writes_keep_query_metrics (name : string) (from_ts to_ts : Q)
  (interval : Z) (now t0 : Q) (items : list (string * Py.value)) (db : HistoryDB.t) :
  (forall kv, In kv items -> fst kv <> name \/ is_number (snd kv) = false) ->
  query_metrics name from_ts to_ts interval
    (snd (record_metrics now (Timestamp t0) (VDict items) db))
  = query_metrics name from_ts to_ts interval db
  /\ (forall key data,
        query_metrics name from_ts to_ts interval (snd (record_session t0 key data db))
        = query_metrics name from_ts to_ts interval db)
  /\ (forall id data,
        query_metrics name from_ts to_ts interval (snd (record_cron t0 id data db))
        = query_metrics name from_ts to_ts interval db).
Proof.
  intros H. split; [| split; reflexivity].
  destruct (record_metrics_rows now (Timestamp t0) (VDict items) db)
    as [rows [-> Hrows]].
  unfold query_metrics, points, metric_rows.
  rewrite select_metric_app, select_metric_skip; [now rewrite app_nil_r |].
  eapply Forall_impl; [| exact Hrows].
  intros r [t1 [k [v [-> [Hv | [items' [E Hin]]]]]]];
    [subst v; right; reflexivity |].
  inversion E; subst items'. unfold metric_row_for.
  destruct (H (k, v) Hin) as [Hn | Hv]; simpl in *.
  - left. now destruct (is_number v).
  - right. now rewrite Hv.
Qed.

End WithLib.

Lemma other_writes_keep_query_metrics_witness :
  query_metrics "cost_total" 0 1000 300
    (snd (record_metrics (lib := sample_lib) 0 (Timestamp 310)
            (VDict [("tokens_in_total", VInt 9); ("cost_total", VStr "n/a")]) sample_db))
  = query_metrics "cost_total" 0 1000 300 sample_db.
Proof.
  apply (@other_writes_keep_query_metrics sample_lib "cost_total" 0 1000 300 0 310
           [("tokens_in_total", VInt 9); ("cost_total", VStr "n/a")] sample_db).
  intros kv [<- | [<- | []]]; [left; discriminate | right; reflexivity].
Defined.

End WriteMore.

(* ------------------------------------------------------------------ *)
(** ** query_sessions and query_crons: failures, round trips, empty ranges *)
(* ------------------------------------------------------------------ *)

Module RangeMore.
Import HistoryDB SqlFacts RangeSpec Spec Samples MoreSpec.

Lemma mapM_raises (A B : Type) (f : A -> result B) (l : list A) :
  (forall x e, f x = Raise e -> e = TypeError) ->
  (forall e, mapM f l = Raise e -> e = TypeError)
  /\ (mapM f l = Raise TypeError <-> exists x, In x l /\ f x = Raise TypeError).
Proof.
  intros Hf. induction l as [| x xs [IH1 IH2]]; simpl.
  - split; [discriminate |]. split; [discriminate | intros [x [[] _]]].
  - destruct (f x) as [y | e0] eqn:Ex; simpl.
    + destruct (mapM f xs) as [ys | e1] eqn:Em; simpl.
      * split; [discriminate |]. split; [discriminate |].
        intros [z [[<- | Hz] Hr]]; [congruence |].
        exfalso. assert (Hx : exists x0, In x0 xs /\ f x0 = Raise TypeError) by eauto.
        apply IH2 in Hx. discriminate.
      * split; [intros e He; inversion He; subst; now apply IH1 |].
        split.
        -- intros He. inversion He; subst.
           destruct (proj1 IH2 eq_refl) as [z [Hz Hr]]. exists z. auto.
        -- intros _. f_equal. now apply IH1.
    + pose proof (Hf _ _ Ex) as ->.
      split; [intros e He; now inversion He |].
      split; [intros _; exists x; auto | reflexivity].
Qed.

Lemma filter_none (A : Type) (p : A -> bool) (l : list A) :
  (forall x, p x = false) -> filter p l = [].
Proof.
  intros H. induction l as [| x xs IH]; simpl; [reflexivity |]. now rewrite H.
Qed.

Section WithLib.
Context {lib : PyLib}.

Lemma session_record_cases (r : session_row) :
  (is_dict (load_payload (s_data r)) = true -> exists rec, session_record r = Ok rec)
  /\ (is_dict (load_payload (s_data r)) = false -> session_record r = Raise TypeError)
  /\ (forall e, session_record r = Raise e -> e = TypeError).
Proof.
  unfold session_record.
  destruct (load_payload (s_data r)); simpl; repeat split;
    try discriminate; try (intros; eexists; reflexivity);
    try (intros e He; now inversion He); reflexivity.
Qed.

Lemma cron_record_cases (r : cron_row) :
  (is_dict (load_payload (c_data r)) = true -> exists rec, cron_record r = Ok rec)
  /\ (is_dict (load_payload (c_data r)) = false -> cron_record r = Raise TypeError)
  /\ (forall e, cron_record r = Raise e -> e = TypeError).
Proof.
  unfold cron_record.
  destruct (load_payload (c_data r)); simpl; repeat split;
    try discriminate; try (intros; eexists; reflexivity);
    try (intros e He; now inversion He); reflexivity.
Qed.

Lemma load_payload_not_dict (text : string) :
  is_dict (load_payload text) = false
  <-> exists v, json_loads text = Some v /\ is_dict v = false.
Proof.
  unfold load_payload. destruct (json_loads text) as [v |]; simpl; split.
  - intros H. now exists v.
  - intros [v' [E H]]. now inversion E; subst.
  - discriminate.
  - intros [v' [E _]]. discriminate.
Qed.

Lemma order_by_length (A : Type) (key : A -> Q) (l : list A) :
  List.length (order_by key l) = List.length l.
Proof. apply Permutation_length, order_by_perm. Qed.

(** X9. [query_sessions] raises [TypeError] as soon as a row in the range
    that passes the key filter holds a text that loads as JSON but not as a
    document (a list, a number, a string, null): the scan is aborted and no
    record is returned.  When no such row is selected, the query returns
    one record per selected row.  The same holds for [query_crons]. *)
Theorem non_document_payload_raises (from_ts to_ts : Q) (key : option string)
  (db : HistoryDB.t) :
  ((exists r v, In r (sessions db)
                /\ in_range from_ts to_ts (s_ts r) = true
                /\ key_matches key (session_key r) = true
                /\ json_loads (s_data r) = Some v /\ is_dict v = false) ->
   query_sessions from_ts to_ts key db = Raise TypeError)
  /\ ((forall r v, In r (sessions db) ->
                   in_range from_ts to_ts (s_ts r) = true ->
                   key_matches key (session_key r) = true ->
                   json_loads (s_data r) = Some v -> is_dict v = true) ->
      exists recs,
        query_sessions from_ts to_ts key db = Ok (VDict [("sessions", VList recs)])
        /\ List.length recs
           = List.length
               (filter (fun r => in_range from_ts to_ts (s_ts r)
                                 && key_matches key (session_key r)) (sessions db)))
  /\ ((exists r v, In r (crons db)
                   /\ in_range from_ts to_ts (c_ts r) = true
                   /\ key_matches key (job_id r) = true
                   /\ json_loads (c_data r) = Some v /\ is_dict v = false) ->
      query_crons from_ts to_ts key db = Raise TypeError)
  /\ ((forall r v, In r (crons db) ->
                   in_range from_ts to_ts (c_ts r) = true ->
                   key_matches key (job_id r) = true ->
                   json_loads (c_data r) = Some v -> is_dict v = true) ->
      exists recs,
        query_crons from_ts to_ts key db = Ok (VDict [("crons", VList recs)])
        /\ List.length recs
           = List.length
               (filter (fun r => in_range from_ts to_ts (c_ts r)
                                 && key_matches key (job_id r)) (crons db))).
Proof.
  destruct (@mapM_raises _ _ session_record (select_sessions from_ts to_ts key db)
              (fun x => proj2 (proj2 (session_record_cases x)))) as [_ S2].
  destruct (@mapM_raises _ _ cron_record (select_crons from_ts to_ts key db)
              (fun x => proj2 (proj2 (cron_record_cases x)))) as [_ C2].
  split; [| split; [| split]].
  - intros [r [v [Hin [Hr [Hk [Hv Hd]]]]]].
    apply query_sessions_Raise, S2. exists r. split.
    + rewrite select_sessions_filter. apply order_by_In. apply filter_In.
      split; [exact Hin | now rewrite Hr, Hk].
    + apply session_record_cases. apply load_payload_not_dict. now exists v.
  - intros Hall.
    destruct (@mapM_each _ _ session_record (fun _ _ => True)
                (select_sessions from_ts to_ts key db)) as [recs [Hm Hf]].
    { intros r Hr. rewrite select_sessions_filter in Hr.
      apply order_by_In in Hr. apply filter_In in Hr. destruct Hr as [Hin Hp].
      apply andb_true_iff in Hp. destruct Hp as [Hr Hk].
      destruct (is_dict (load_payload (s_data r))) eqn:E.
      - destruct (proj1 (session_record_cases r) E) as [rec Hrec]. now exists rec.
      - apply load_payload_not_dict in E. destruct E as [v [Hv Hd]].
        rewrite (Hall r v Hin Hr Hk Hv) in Hd. discriminate. }
    exists recs. split; [now apply query_sessions_Ok |].
    apply Forall2_length in Hf. rewrite <- Hf, select_sessions_filter.
    apply order_by_length.
  - intros [r [v [Hin [Hr [Hk [Hv Hd]]]]]].
    apply query_crons_Raise, C2. exists r. split.
    + rewrite select_crons_filter. apply order_by_In. apply filter_In.
      split; [exact Hin | now rewrite Hr, Hk].
    + apply cron_record_cases. apply load_payload_not_dict. now exists v.
  - intros Hall.
    destruct (@mapM_each _ _ cron_record (fun _ _ => True)
                (select_crons from_ts to_ts key db)) as [recs [Hm Hf]].
    { intros r Hr. rewrite select_crons_filter in Hr.
      apply order_by_In in Hr. apply filter_In in Hr. destruct Hr as [Hin Hp].
      apply andb_true_iff in Hp. destruct Hp as [Hr Hk].
      destruct (is_dict (load_payload (c_data r))) eqn:E.
      - destruct (proj1 (cron_record_cases r) E) as [rec Hrec]. now exists rec.
      - apply load_payload_not_dict in E. destruct E as [v [Hv Hd]].
        rewrite (Hall r v Hin Hr Hk Hv) in Hd. discriminate. }
    exists recs. split; [now apply query_crons_Ok |].
    apply Forall2_length in Hf. rewrite <- Hf, select_crons_filter.
    apply order_by_length.
Qed.

(** X10. A document written by [record_session] comes back from a
    [query_sessions] whose range covers its timestamp and whose filter lets
    its key pass, as that document with [_ts] and [_session_key] set, beside
    the records returned before, whenever [json.loads] undoes [json.dumps]
    on it; and the same for [record_cron] and [query_crons] with [_job_id]. *)
Theorem record_then_query_range (from_ts to_ts t0 : Q) (key : option string)
  (k : string) (d : list (string * Py.value)) (db : HistoryDB.t) :
  json_loads (json_dumps (VDict d)) = Some (VDict d) ->
  in_range from_ts to_ts t0 = true ->
  key_matches key k = true ->
  (forall recs',
     query_sessions from_ts to_ts key db = Ok (VDict [("sessions", VList recs')]) ->
     exists recs,
       query_sessions from_ts to_ts key (snd (record_session t0 k (VDict d) db))
       = Ok (VDict [("sessions", VList recs)])
       /\ Permutation recs
            (VDict (Py.set "_session_key" (VStr k) (Py.set "_ts" (VFloat t0) d))
             :: recs'))
  /\ (forall recs',
        query_crons from_ts to_ts key db = Ok (VDict [("crons", VList recs')]) ->
        exists recs,
          query_crons from_ts to_ts key (snd (record_cron t0 k (VDict d) db))
          = Ok (VDict [("crons", VList recs)])
          /\ Permutation recs
               (VDict (Py.set "_job_id" (VStr k) (Py.set "_ts" (VFloat t0) d))
                :: recs')).
Proof.
  intros Hrt Hr Hk. split.
  - intros recs' H. apply query_sessions_Ok in H. rewrite select_sessions_filter in H.
    destruct (@scan_with_row _ s_ts
                (fun r => in_range from_ts to_ts (s_ts r)
                          && key_matches key (session_key r))
                session_record (sessions db) [] (SessionRow t0 k (json_dumps (VDict d)))
                (VDict (Py.set "_session_key" (VStr k) (Py.set "_ts" (VFloat t0) d))))
      as [Hok _].
    + simpl. now rewrite Hr, Hk.
    + unfold session_record, load_payload. simpl. rewrite Hrt. reflexivity.
    + rewrite app_nil_r in Hok. destruct (Hok recs' H) as [recs [H1 H2]].
      exists recs. split; [| exact H2].
      apply query_sessions_Ok. now rewrite select_sessions_filter.
  - intros recs' H. apply query_crons_Ok in H. rewrite select_crons_filter in H.
    destruct (@scan_with_row _ c_ts
                (fun r => in_range from_ts to_ts (c_ts r)
                          && key_matches key (job_id r))
                cron_record (crons db) [] (CronRow t0 k (json_dumps (VDict d)))
                (VDict (Py.set "_job_id" (VStr k) (Py.set "_ts" (VFloat t0) d))))
      as [Hok _].
    + simpl. now rewrite Hr, Hk.
    + unfold cron_record, load_payload. simpl. rewrite Hrt. reflexivity.
    + rewrite app_nil_r in Hok. destruct (Hok recs' H) as [recs [H1 H2]].
      exists recs. split; [| exact H2].
      apply query_crons_Ok. now rewrite select_crons_filter.
Qed.

(** X11. On an inverted range ([to_ts < from_ts]) [query_sessions] and
    [query_crons] return an empty list and do not raise, whatever the tables
    hold and whatever the filter. *)
Theorem inverted_range_is_empty (from_ts to_ts : Q) (key : option string)
  (db : HistoryDB.t) :
  to_ts < from_ts ->
  query_sessions from_ts to_ts key db = Ok (VDict [("sessions", VList [])])
  /\ query_crons from_ts to_ts key db = Ok (VDict [("crons", VList [])]).
Proof.
  intros H. split.
  - apply query_sessions_Ok. rewrite select_sessions_filter, filter_none; [reflexivity |].
    intros r. now rewrite (MetricsMore.in_range_inverted _ H).
  - apply query_crons_Ok. rewrite select_crons_filter, filter_none; [reflexivity |].
    intros r. now rewrite (MetricsMore.in_range_inverted _ H).
Qed.

End WithLib.

Lemma non_document_payload_raises_witness :
  query_sessions (lib := sample_lib) 0 100 (Some "b")
    (DB [] [SessionRow 10 "a" "{}"; SessionRow 15 "b" "null"] [])
  = Raise TypeError.
Proof.
  apply (proj1 (@non_document_payload_raises sample_lib 0 100 (Some "b")
                  (DB [] [SessionRow 10 "a" "{}"; SessionRow 15 "b" "null"] []))).
  exists (SessionRow 15 "b" "null"), VNone.
  split; [right; left; reflexivity |]. repeat split; reflexivity.
Defined.

Lemma record_then_query_range_witness :
  exists recs,
    query_sessions (lib := sample_lib) 0 15 (Some "b")
      (snd (record_session (lib := sample_lib) 12 "b" (VDict []) sample_store))
    = Ok (VDict [("sessions", VList recs)])
    /\ Permutation recs
         (VDict [("_ts", VFloat 12); ("_session_key", VStr "b")]
          :: [VDict [("raw", VStr "not json"); ("_ts", VFloat 5);
                     ("_session_key", VStr "b")]]).
Proof.
  apply (proj1 (@record_then_query_range sample_lib 0 15 12 (Some "b") "b" []
                  sample_store eq_refl eq_refl eq_refl)).
  reflexivity.
Defined.

Lemma inverted_range_is_empty_witness :
  query_sessions (lib := sample_lib) 15 0 None
    (DB [] [SessionRow 10 "a" "[]"] [])
  = Ok (VDict [("sessions", VList [])]).
Proof.
  apply (@inverted_range_is_empty sample_lib 15 0 None
           (DB [] [SessionRow 10 "a" "[]"] [])).
  reflexivity.
Defined.

End RangeMore.

(* ------------------------------------------------------------------ *)
(** ** HistoryCollector: what a cycle writes and what it leaves alone *)
(* ------------------------------------------------------------------ *)

Module CollectorMore.
Import HistoryDB HistoryCollector SqlFacts WriteFacts CollectFacts CollectorSpec.
Import CatalogFacts SnapshotSpec Spec Samples MoreSpec.

Lemma kept_sessions_Some (r : result Py.value) (v : Py.value) :
  kept_sessions r = Some v
  <-> r = Ok v /\ exists d, v = VDict d /\ is_list (Py.get d "sessions" (VList [])) = true.
Proof.
  destruct r as [[| | | | | | | d] | e]; simpl; split;
    try discriminate;
    try (intros [H1 [d0 [H2 _]]]; inversion H1; subst; discriminate).
  - destruct (Py.get d "sessions" (VList [])) eqn:E; try discriminate.
    intros H. inversion H. split; [reflexivity |]. exists d. now rewrite E.
  - intros [H1 [d0 [-> H3]]]. inversion H1; subst.
    destruct (Py.get d0 "sessions" (VList [])); try discriminate. reflexivity.
Qed.

Lemma lookup_put_opt (k k' : string) (o : option Py.value)
  (d : list (string * Py.value)) (v : Py.value) :
  Py.lookup k (put_opt k' o d) = Some v -> k' = k \/ Py.lookup k d = Some v.
Proof.
  destruct (String.eqb_spec k' k) as [-> | Hne]; [now left |].
  destruct o as [w |]; simpl; [| now right].
  rewrite (@RangeSpec.lookup_set_other k' k w d); [now right | congruence].
Qed.

Section WithLib.
Context {lib : PyLib}.

Lemma kept_status_Some (r : result Py.value) (v : Py.value) :
  kept_status r = Some v
  <-> r = Ok v
      /\ exists d, v = VDict d
                   /\ Forall (fun k => overflows (Py.get d k VNone) = false)
                             status_names.
Proof.
  destruct r as [[| | | | | | | d] | e]; simpl; split;
    try discriminate;
    try (intros [H1 [d0 [H2 _]]]; inversion H1; subst; discriminate).
  - destruct (status_names_dec d) as [Hok | Hbad].
    + destruct (status_items_Ok d Hok) as [o1 [o2 [o3 [_ [_ [_ ->]]]]]].
      intros H. inversion H. split; [reflexivity |]. now exists d.
    + rewrite (status_items_Raise d Hbad). discriminate.
  - intros [H1 [d0 [-> H3]]]. inversion H1; subst.
    destruct (status_items_Ok d0 H3) as [o1 [o2 [o3 [_ [_ [_ ->]]]]]]. reflexivity.
Qed.

Lemma jobs_pass_iff (now : Q) (jobs : list Py.value) :
  forallb (job_passes now) jobs = true
  <-> (forall j, In (VDict j) jobs -> truthy (last_run_of j) = true ->
                 overflows (last_run_of j) = false /\ float (last_run_of j) <> Ok NaN).
Proof.
  rewrite forallb_forall. split.
  - intros H j Hin. apply job_passes_dict with (now := now). now apply H.
  - intros H job Hin. destruct job; try reflexivity.
    apply job_passes_dict. now apply H.
Qed.

Lemma kept_cron_Some (now : Q) (r : result Py.value) (v : Py.value) :
  kept_cron now r = Some v
  <-> r = Ok v
      /\ exists d, v = VDict d
                   /\ forall j, In (VDict j) (job_list d) ->
                                truthy (last_run_of j) = true ->
                                overflows (last_run_of j) = false
                                /\ float (last_run_of j) <> Ok NaN.
Proof.
  destruct r as [[| | | | | | | d] | e]; simpl; split;
    try discriminate;
    try (intros [H1 [d0 [H2 _]]]; inversion H1; subst; discriminate).
  - destruct (forallb (job_passes now) (job_list d)) eqn:E; [| discriminate].
    intros H. inversion H. split; [reflexivity |]. exists d.
    split; [reflexivity |]. now apply jobs_pass_iff with (now := now).
  - intros [H1 [d0 [-> H3]]]. inversion H1; subst.
    apply (jobs_pass_iff now) in H3. now rewrite H3.
Qed.

Lemma lookup_snapshot_data (now : Q) (r1 r2 r3 : result Py.value) :
  Py.lookup "session_status" (snapshot_data now r1 r2 r3) = kept_status r1
  /\ Py.lookup "sessions_list" (snapshot_data now r1 r2 r3) = kept_sessions r2
  /\ Py.lookup "cron" (snapshot_data now r1 r2 r3) = kept_cron now r3
  /\ (forall k v, Py.lookup k (snapshot_data now r1 r2 r3) = Some v ->
                  In k ["session_status"; "sessions_list"; "cron"]).
Proof.
  unfold snapshot_data. repeat split.
  - destruct (kept_status r1), (kept_sessions r2), (kept_cron now r3); reflexivity.
  - destruct (kept_status r1), (kept_sessions r2), (kept_cron now r3); reflexivity.
  - destruct (kept_status r1), (kept_sessions r2), (kept_cron now r3); reflexivity.
  - intros k v H. simpl.
    apply lookup_put_opt in H. destruct H as [H | H]; [tauto |].
    apply lookup_put_opt in H. destruct H as [H | H]; [tauto |].
    apply lookup_put_opt in H. destruct H as [H | H]; [tauto | discriminate].
Qed.

(** The cron rows of a job list whose first entry to end the step is [j]. *)
Lemma jobs_rows_stop (now : Q) (before after : list Py.value) (job : Py.value) :
  forallb (job_passes now) before = true ->
  job_passes now job = false ->
  jobs_rows now (before ++ job :: after) = jobs_rows now before.
Proof.
  induction before as [| b before IH]; simpl; intros Hb Hj.
  - unfold job_passes in Hj. destruct (job_rows now job); [discriminate | reflexivity].
  - apply andb_true_iff in Hb. destruct Hb as [Hb1 Hb2]. unfold job_passes in Hb1.
    destruct (job_rows now b); [| discriminate]. now rewrite IH.
Qed.

Lemma jobs_rows_app (now : Q) (before after : list Py.value) :
  forallb (job_passes now) before = true ->
  jobs_rows now (before ++ after) = jobs_rows now before ++ jobs_rows now after.
Proof.
  induction before as [| b before IH]; simpl; intros Hb; [reflexivity |].
  apply andb_true_iff in Hb. destruct Hb as [Hb1 Hb2]. unfold job_passes in Hb1.
  destruct (job_rows now b); [| discriminate]. now rewrite IH, app_assoc.
Qed.

(** X12. The collector only appends: a cycle, and a run of any number of
    passes, leaves the session table as it was, keeps every metrics and cron
    row that was there, in place, and adds at least one metrics row per
    pass. *)
Theorem collector_appends_only
  (passes : list (Q * (string -> Py.value -> result Py.value)))
  (store : HistoryDB.t) :
  sessions (snd (_run passes store)) = sessions store
  /\ exists m c,
       metrics (snd (_run passes store)) = metrics store ++ m
       /\ crons (snd (_run passes store)) = crons store ++ c
       /\ (List.length passes <= List.length m)%nat.
Proof.
  revert store. induction passes as [| [now gw] rest IH]; intros store.
  - simpl. split; [reflexivity |]. exists [], [].
    rewrite !app_nil_r. repeat split; auto.
  - rewrite run_cons.
    destruct (IH (snd (_collect gw now store))) as [Hs [m [c [Hm [Hc Hlen]]]]].
    rewrite Hs, Hm, Hc, collect_exact. simpl.
    split; [reflexivity |]. eexists. eexists.
    rewrite <- !app_assoc. split; [reflexivity |]. split; [reflexivity |].
    rewrite !length_app. simpl. lia.
Qed.

(** X13. The snapshot document of a cycle holds the answer to a call
    exactly when the step of that call ran to its end: the answer to
    [session_status] when it is a dict none of whose three status fields is
    an int beyond the range of a float; the answer to [sessions_list] when
    it is a dict whose ["sessions"] entry (an empty list if absent) is a
    list; the answer to [cron] when it is a dict in whose job list no truthy
    last-run value is NaN or an int beyond the range of a float.  Each is
    stored as it came, under the name of its call, and the document has no
    other key.  An answer that raised or has another shape is left out. *)
Theorem snapshot_keeps_dict_answers
  (gw : string -> Py.value -> result Py.value) (now : Q) (store : HistoryDB.t) :
  exists pre all,
    metrics (snd (_collect gw now store))
    = pre ++ [snapshot_row now (json_dumps (VDict all))]
    /\ (forall v, Py.lookup "session_status" all = Some v
                  <-> gw "session_status" (VDict []) = Ok v
                      /\ exists d, v = VDict d
                                   /\ Forall (fun k => overflows (Py.get d k VNone)
                                                       = false) status_names)
    /\ (forall v, Py.lookup "sessions_list" all = Some v
                  <-> gw "sessions_list" sessions_params = Ok v
                      /\ exists d, v = VDict d
                                   /\ is_list (Py.get d "sessions" (VList [])) = true)
    /\ (forall v, Py.lookup "cron" all = Some v
                  <-> gw "cron" cron_params = Ok v
                      /\ exists d, v = VDict d
                                   /\ forall j, In (VDict j) (job_list d) ->
                                                truthy (last_run_of j) = true ->
                                                overflows (last_run_of j) = false
                                                /\ float (last_run_of j) <> Ok NaN)
    /\ (forall k v, Py.lookup k all = Some v ->
                    In k ["session_status"; "sessions_list"; "cron"]).
Proof.
  rewrite collect_exact. simpl.
  destruct (lookup_snapshot_data now (gw "session_status" (VDict []))
              (gw "sessions_list" sessions_params) (gw "cron" cron_params))
    as [L1 [L2 [L3 L4]]].
  eexists. eexists. split; [rewrite !app_assoc; reflexivity |].
  split; [intros v; rewrite L1; apply kept_status_Some |].
  split; [intros v; rewrite L2; apply kept_sessions_Some |].
  split; [intros v; rewrite L3; apply kept_cron_Some | exact L4].
Qed.

(** X14. When the answer to [sessions_list] is a dict, a cycle records
    [sessions_active] as the length of its ["sessions"] list, and as 0 when
    the dict has no ["sessions"] entry; when the entry is there but is not a
    list (null, a number, a dict), the cycle records no [sessions_active]
    row. *)
Theorem sessions_count_edge_cases
  (gw : string -> Py.value -> result Py.value) (now : Q) (store : HistoryDB.t)
  (d : list (string * Py.value)) :
  gw "sessions_list" sessions_params = Ok (VDict d) ->
  (Py.lookup "sessions" d = None ->
   In (float_row now ("sessions_active", 0)) (metrics (snd (_collect gw now store))))
  /\ (forall l, Py.lookup "sessions" d = Some (VList l) ->
        In (float_row now ("sessions_active", inject_Z (Z.of_nat (List.length l))))
           (metrics (snd (_collect gw now store))))
  /\ (forall v, Py.lookup "sessions" d = Some v -> is_list v = false ->
        forall r, In r (metrics (snd (_collect gw now store))) ->
                  metric r = "sessions_active" -> In r (metrics store)).
Proof.
  intros Hgw. rewrite collect_exact. simpl. rewrite Hgw.
  unfold sessions_rows, Py.get. split; [| split].
  - intros H. rewrite H. apply in_or_app. right. apply in_or_app. right.
    apply in_or_app. left. now left.
  - intros l H. rewrite H. apply in_or_app. right. apply in_or_app. right.
    apply in_or_app. left. now left.
  - intros v H Hl r Hin Hn. rewrite H in Hin.
    apply in_app_or in Hin. destruct Hin as [Hin | Hin]; [exact Hin |].
    apply in_app_or in Hin. destruct Hin as [Hin | Hin].
    + apply status_rows_names in Hin. destruct Hin as [Hin _]. rewrite Hn in Hin.
      unfold status_names in Hin. simpl in Hin.
      destruct Hin as [Hin | [Hin | [Hin | []]]]; discriminate.
    + destruct v; try discriminate; simpl in Hin;
        destruct Hin as [<- | []]; discriminate.
Qed.

(** X15. A job entry whose last-run value is truthy but does not convert to
    a float ([float()] raises [TypeError] or [ValueError]: a list, a dict, a
    string that is not a number) still gets a cron row, stamped with the
    collection time, provided no entry before it in the list ends the cron
    step (by a last-run value that is NaN or an int beyond the range of a
    float); and the last-run value is [lastRun] when that is truthy, else
    [last_run]. *)
Theorem unconvertible_last_run_uses_now
  (gw : string -> Py.value -> result Py.value) (now : Q) (store : HistoryDB.t)
  (d : list (string * Py.value)) (before after : list Py.value)
  (j : list (string * Py.value)) :
  gw "cron" cron_params = Ok (VDict d) ->
  Py.get d "jobs" (Py.get d "crons" (VList [])) = VList (before ++ VDict j :: after) ->
  (forall j', In (VDict j') before -> truthy (last_run_of j') = true ->
              overflows (last_run_of j') = false /\ float (last_run_of j') <> Ok NaN) ->
  truthy (last_run_of j) = true ->
  float (last_run_of j) = Raise TypeError \/ float (last_run_of j) = Raise ValueError ->
  In (CronRow now (job_key j) (json_dumps (VDict j)))
     (crons (snd (_collect gw now store)))
  /\ (forall j0, truthy (Py.get j0 "lastRun" VNone) = true ->
                 last_run_of j0 = Py.get j0 "lastRun" VNone)
  /\ (forall j0, truthy (Py.get j0 "lastRun" VNone) = false ->
                 last_run_of j0 = Py.get j0 "last_run" VNone).
Proof.
  intros Hgw Hjobs Hbefore Ht He. split; [| split].
  - rewrite collect_exact. simpl. rewrite Hgw. simpl. unfold job_list.
    rewrite Hjobs. apply in_or_app. right.
    apply (jobs_pass_iff now) in Hbefore.
    rewrite jobs_rows_app by exact Hbefore. apply in_or_app. right.
    simpl. rewrite Ht. unfold last_ts.
    destruct He as [-> | ->]; simpl; now left.
  - intros j0 H. unfold last_run_of, or_. now rewrite H.
  - intros j0 H. unfold last_run_of, or_. now rewrite H.
Qed.

(** X16. The job list of the [cron] answer is its ["jobs"] entry when the
    dict has one, and its ["crons"] entry only when it has no ["jobs"]
    entry.  A ["jobs"] entry that is not a list (null, say) yields no cron
    row, even when ["crons"] holds a list; so does a dict with neither
    entry.  The entries of the list are recorded in order up to the first
    one whose truthy last-run value is NaN or an int beyond the range of a
    float: that entry and those after it get no row. *)
Theorem cron_job_list_choice
  (gw : string -> Py.value -> result Py.value) (now : Q) (store : HistoryDB.t)
  (d : list (string * Py.value)) :
  gw "cron" cron_params = Ok (VDict d) ->
  (forall jobs, Py.lookup "jobs" d = Some (VList jobs) ->
     crons (snd (_collect gw now store)) = crons store ++ jobs_rows now jobs)
  /\ (forall jobs, Py.lookup "jobs" d = None ->
        Py.lookup "crons" d = Some (VList jobs) ->
        crons (snd (_collect gw now store)) = crons store ++ jobs_rows now jobs)
  /\ (forall v, Py.lookup "jobs" d = Some v -> is_list v = false ->
        crons (snd (_collect gw now store)) = crons store)
  /\ (Py.lookup "jobs" d = None -> Py.lookup "crons" d = None ->
      crons (snd (_collect gw now store)) = crons store)
  /\ (forall before j after,
        (forall j', In (VDict j') before -> truthy (last_run_of j') = true ->
                    overflows (last_run_of j') = false
                    /\ float (last_run_of j') <> Ok NaN) ->
        truthy (last_run_of j) = true ->
        overflows (last_run_of j) = true \/ float (last_run_of j) = Ok NaN ->
        jobs_rows now (before ++ VDict j :: after) = jobs_rows now before
        /\ List.length (jobs_rows now before)
           = List.length (filter with_last_run before)).
Proof.
  intros Hgw. rewrite collect_exact. simpl. rewrite Hgw.
  unfold cron_rows, job_list, Py.get.
  split; [| split; [| split; [| split]]].
  - intros jobs H. now rewrite H.
  - intros jobs H1 H2. now rewrite H1, H2.
  - intros v H Hl. rewrite H. destruct v; try discriminate; now rewrite app_nil_r.
  - intros H1 H2. rewrite H1, H2. simpl. now rewrite app_nil_r.
  - intros before j after Hbefore Ht Hbad.
    apply (jobs_pass_iff now) in Hbefore. split.
    + apply jobs_rows_stop; [exact Hbefore |].
      destruct (job_passes now (VDict j)) eqn:E; [| reflexivity].
      apply job_passes_dict in E; [| exact Ht]. destruct E as [E1 E2].
      destruct Hbad as [Hbad | Hbad]; congruence.
    + now apply jobs_rows_clean.
Qed.

(** X17. A cycle adds between one and five metrics rows, all stamped with
    the cycle's time: at most the three status metrics, at most one
    [sessions_active], and the snapshot; [get_stats] counts them all. *)
Theorem cycle_row_counts
  (gw : string -> Py.value -> result Py.value) (now : Q) (store : HistoryDB.t)
  (file_size : option Z) :
  exists new,
    metrics (snd (_collect gw now store)) = metrics store ++ new
    /\ (1 <= List.length new <= 5)%nat
    /\ Forall (fun r => ts r = now) new
    /\ exists oldest newest size,
         get_stats file_size (snd (_collect gw now store))
         = VDict [("total_points",
                   VInt (Z.of_nat (List.length (metrics store) + List.length new)));
                  ("oldest_ts", oldest); ("newest_ts", newest);
                  ("db_size_bytes", size)].
Proof.
  rewrite collect_exact. simpl. eexists. split; [reflexivity |].
  split; [| split].
  - rewrite !length_app. simpl.
    pose proof (status_rows_length now (gw "session_status" (VDict []))).
    pose proof (sessions_rows_length now (gw "sessions_list" sessions_params)).
    lia.
  - apply Forall_app. split; [| apply Forall_app; split].
    + apply Forall_forall. intros r Hr. now apply status_rows_names in Hr.
    + apply Forall_forall. intros r Hr. now apply sessions_rows_cases in Hr.
    + constructor; [reflexivity | constructor].
  - unfold get_stats. simpl. rewrite or_int_zero, length_app.
    eexists. eexists. eexists. reflexivity.
Qed.

Lemma Qabs_le_self (x y : Q) : Qabs (x - y) <= Qabs (y - y) -> x == y.
Proof.
  intros H.
  assert (Hz : Qabs (y - y) == 0).
  { assert (E : y - y == 0) by ring. rewrite E. reflexivity. }
  rewrite Hz in H. apply Qabs_Qle_condition in H. destruct H as [H1 H2].
  assert (E : x - y == 0) by (apply Qle_antisym; assumption).
  rewrite <- (Qplus_0_r y), <- E. ring.
Qed.

(** X18. After a cycle at time [now], [query_snapshot(now)] returns what
    [json.loads] reads from the text that this cycle stored (or the raw
    text when it does not load), provided no snapshot with a text was stored
    at that very timestamp before; that text is the [json.dumps] of a
    document with at most the keys [session_status], [sessions_list] and
    [cron], holding the answer to [sessions_list] whenever it is a dict
    with a list of sessions. *)
Theorem cycle_snapshot_is_nearest
  (gw : string -> Py.value -> result Py.value) (now : Q) (store : HistoryDB.t) :
  (forall r, In r (metrics store) -> is_text_snapshot r = true -> ~ ts r == now) ->
  exists all,
    In (snapshot_row now (json_dumps (VDict all)))
       (metrics (snd (_collect gw now store)))
    /\ query_snapshot now (snd (_collect gw now store))
       = VDict [("snapshot", load_payload (json_dumps (VDict all)))]
    /\ (forall k v, Py.lookup k all = Some v ->
                    In k ["session_status"; "sessions_list"; "cron"])
    /\ (forall d l, gw "sessions_list" sessions_params = Ok (VDict d) ->
                    Py.get d "sessions" (VList []) = VList l ->
                    Py.lookup "sessions_list" all = Some (VDict d)).
Proof.
  intros Hfresh. rewrite collect_exact. simpl.
  destruct (lookup_snapshot_data now (gw "session_status" (VDict []))
              (gw "sessions_list" sessions_params) (gw "cron" cron_params))
    as [_ [L2 [_ L4]]].
  set (all := snapshot_data now _ _ _) in *.
  set (text := json_dumps (VDict all)).
  set (store' := DB _ _ _).
  assert (Hnew : In (snapshot_row now text) (metrics store')).
  { simpl. apply in_or_app. right. apply in_or_app. right.
    apply in_or_app. right. now left. }
  exists all. split; [exact Hnew |]. split; [| split; [exact L4 |]].
  - destruct (nearest_snapshot_Some now store' (snapshot_row now text) Hnew eq_refl)
      as [r [t [Hn [Hr [Hname [Htext Hmin]]]]]].
    unfold query_snapshot. rewrite Hn, Htext.
    assert (Hts : ts r == now) by exact (Qabs_le_self (Hmin _ Hnew eq_refl)).
    simpl in Hr. apply in_app_or in Hr. destruct Hr as [Hr | Hr].
    + exfalso. apply (Hfresh r Hr); [| exact Hts].
      unfold is_text_snapshot. rewrite Hname, Htext. reflexivity.
    + apply in_app_or in Hr. destruct Hr as [Hr | Hr].
      * exfalso. apply status_rows_names in Hr. destruct Hr as [Hr _].
        rewrite Hname in Hr. unfold status_names in Hr. simpl in Hr.
        destruct Hr as [Hr | [Hr | [Hr | []]]]; discriminate.
      * apply in_app_or in Hr. destruct Hr as [Hr | Hr].
        -- exfalso. apply sessions_rows_cases in Hr. destruct Hr as [Hr _].
           congruence.
        -- destruct Hr as [<- | []]. simpl in Htext. now inversion Htext.
  - intros d l Hgw Hl. rewrite L2, Hgw. simpl. now rewrite Hl.
Qed.

End WithLib.

Lemma sessions_count_edge_cases_witness :
  In (float_row 1000 ("sessions_active", 0))
     (metrics (snd (_collect (lib := sample_lib)
                      (fun m _ => if (m =? "sessions_list")%string
                                  then Ok (VDict [("count", VInt 3)])
                                  else Raise (OtherError "down"))
                      1000 HistoryDB.empty))).
Proof.
  apply (proj1 (@sessions_count_edge_cases sample_lib
                  (fun m _ => if (m =? "sessions_list")%string
                              then Ok (VDict [("count", VInt 3)])
                              else Raise (OtherError "down"))
                  1000 HistoryDB.empty [("count", VInt 3)] eq_refl)).
  reflexivity.
Defined.

Lemma unconvertible_last_run_uses_now_witness :
  In (CronRow 1000 "a"
        (json_dumps (PyLib := sample_lib)
           (VDict [("id", VStr "a"); ("lastRun", VStr "yesterday")])))
     (crons (snd (_collect (lib := sample_lib)
                    (fun m _ => if (m =? "cron")%string
                                then Ok (VDict [("jobs",
                                           VList [VDict [("id", VStr "z");
                                                         ("lastRun", VInt 5)];
                                                  VDict [("id", VStr "a");
                                                         ("lastRun", VStr "yesterday")]])])
                                else Raise (OtherError "down"))
                    1000 HistoryDB.empty))).
Proof.
  apply (proj1 (@unconvertible_last_run_uses_now sample_lib
                  (fun m _ => if (m =? "cron")%string
                              then Ok (VDict [("jobs",
                                         VList [VDict [("id", VStr "z");
                                                       ("lastRun", VInt 5)];
                                                VDict [("id", VStr "a");
                                                       ("lastRun", VStr "yesterday")]])])
                              else Raise (OtherError "down"))
                  1000 HistoryDB.empty
                  [("jobs", VList [VDict [("id", VStr "z"); ("lastRun", VInt 5)];
                                   VDict [("id", VStr "a");
                                          ("lastRun", VStr "yesterday")]])]
                  [VDict [("id", VStr "z"); ("lastRun", VInt 5)]] []
                  [("id", VStr "a"); ("lastRun", VStr "yesterday")]
                  eq_refl eq_refl
                  ltac:(intros j' [Hj | []] _; inversion Hj; subst;
                        split; [reflexivity | discriminate])
                  eq_refl (or_intror eq_refl))).
Defined.

Lemma cron_job_list_choice_witness :
  crons (snd (_collect (lib := sample_lib)
                (fun m _ => if (m =? "cron")%string
                            then Ok (VDict [("jobs", VNone);
                                            ("crons", VList [VDict [("id", VStr "a");
                                                                    ("lastRun", VInt 5)]])])
                            else Raise (OtherError "down"))
                1000 HistoryDB.empty))
  = crons HistoryDB.empty.
Proof.
  apply (proj1 (proj2 (proj2
           (@cron_job_list_choice sample_lib
              (fun m _ => if (m =? "cron")%string
                          then Ok (VDict [("jobs", VNone);
                                          ("crons", VList [VDict [("id", VStr "a");
                                                                  ("lastRun", VInt 5)]])])
                          else Raise (OtherError "down"))
              1000 HistoryDB.empty
              [("jobs", VNone);
               ("crons", VList [VDict [("id", VStr "a"); ("lastRun", VInt 5)]])]
              eq_refl))) VNone).
  - reflexivity.
  - reflexivity.
Defined.

(** An entry whose last-run value is beyond the range of a float ends the
    cron step: the entry before it is recorded, the entry after it is not,
    and the snapshot lacks the answer to [cron]. *)
Example overflowing_job_ends_cron_step :
  _collect (lib := sample_lib)
    (fun m _ => if (m =? "cron")%string
                then Ok (VDict [("jobs",
                           VList [VDict [("id", VStr "a"); ("lastRun", VInt 5)];
                                  VDict [("id", VStr "b"); ("lastRun", VInt (10 ^ 400))];
                                  VDict [("id", VStr "c"); ("lastRun", VInt 7)]])])
                else Raise (OtherError "down"))
    1000 HistoryDB.empty
  = (Ok tt,
     DB [MetricRow 1000 "snapshot" None (Some "{}")] [] [CronRow 5 "a" "{...}"]).
Proof. vm_compute. reflexivity. Qed.

Lemma cycle_snapshot_is_nearest_witness :
  exists all,
    In (snapshot_row 1000 (json_dumps (PyLib := sample_lib) (VDict all)))
       (metrics (snd (_collect (lib := sample_lib) sample_gateway 1000 mixed_store)))
    /\ query_snapshot (lib := sample_lib) 1000
         (snd (_collect (lib := sample_lib) sample_gateway 1000 mixed_store))
       = VDict [("snapshot",
                 load_payload (lib := sample_lib)
                   (json_dumps (PyLib := sample_lib) (VDict all)))]
    /\ (forall k v, Py.lookup k all = Some v ->
                    In k ["session_status"; "sessions_list"; "cron"])
    /\ (forall d l, sample_gateway "sessions_list" sessions_params = Ok (VDict d) ->
                    Py.get d "sessions" (VList []) = VList l ->
                    Py.lookup "sessions_list" all = Some (VDict d)).
Proof.
  apply (@cycle_snapshot_is_nearest sample_lib sample_gateway 1000 mixed_store).
  intros r [<- | [<- | []]] _ H; vm_compute in H; discriminate.
Defined.

End CollectorMore.
(* ------------------------------------------------------------------ *)
(** ** HistoryCollector: status fields *)
(* ------------------------------------------------------------------ *)

Module StatusFields.
Import HistoryDB HistoryCollector WriteFacts CollectFacts CollectorSpec.
Import CollectorMore Spec Samples MoreSpec.

Section WithLib.
Context {lib : PyLib}.

(** X19. [_safe_float] gives the float where [float()] gives one (a bool
    counts as 1 or 0, a zero stays a number, NaN stays NaN), [None] where
    [float()] raises [TypeError] or [ValueError] or the value is [None], and
    raises [OverflowError] on an int beyond the range of a float, and
    nothing else.  So, when the answer to [session_status] is a dict: if
    none of its three status fields is such an int, a cycle records each
    field that converts, with its value (NULL for NaN) and the cycle's
    time, and records no row for a field that is absent, null or does not
    convert; if one of them is, step 1 ends before anything is written and
    the cycle records no status metric at all. *)
Theorem status_fields_recorded
  (gw : string -> Py.value -> result Py.value) (now : Q) (store : HistoryDB.t)
  (d : list (string * Py.value)) :
  gw "session_status" (VDict []) = Ok (VDict d) ->
  (forall v, _safe_float v
             = match float v with
               | Ok x => Ok (Some x)
               | Raise TypeError => Ok None
               | Raise ValueError => Ok None
               | Raise e => Raise e
               end)
  /\ (forall v e, _safe_float v = Raise e <-> overflows v = true /\ e = OverflowError)
  /\ (Forall (fun k => overflows (Py.get d k VNone) = false) status_names ->
      forall k, In k status_names ->
        (forall q, float (Py.get d k VNone) = Ok (Finite q) ->
           In (float_row now (k, q)) (metrics (snd (_collect gw now store))))
        /\ (float (Py.get d k VNone) = Ok NaN ->
            In (MetricRow now k None None) (metrics (snd (_collect gw now store))))
        /\ (forall e, float (Py.get d k VNone) = Raise e ->
              forall r, In r (metrics (snd (_collect gw now store))) ->
                        metric r = k -> In r (metrics store)))
  /\ (Exists (fun k => overflows (Py.get d k VNone) = true) status_names ->
      forall r, In r (metrics (snd (_collect gw now store))) ->
                In (metric r) status_names -> In r (metrics store)).
Proof.
  intros Hgw. split; [exact _safe_float_eq |]. split; [exact _safe_float_raises |].
  assert (Hother : forall r,
            In r (sessions_rows now (gw "sessions_list" sessions_params)
                  ++ [snapshot_row now
                        (json_dumps
                           (VDict (snapshot_data now (gw "session_status" (VDict []))
                                     (gw "sessions_list" sessions_params)
                                     (gw "cron" cron_params))))]) ->
            ~ In (metric r) status_names).
  { intros r Hin Hn. unfold status_names in Hn. simpl in Hn.
    apply in_app_or in Hin. destruct Hin as [Hin | [<- | []]].
    - apply sessions_rows_cases in Hin. destruct Hin as [Hm _]. rewrite Hm in Hn.
      destruct Hn as [Hn | [Hn | [Hn | []]]]; discriminate.
    - simpl in Hn. destruct Hn as [Hn | [Hn | [Hn | []]]]; discriminate. }
  split.
  - intros Hok k Hk. rewrite collect_exact. simpl. rewrite Hgw in *.
    split; [| split].
    + intros q Hq. apply in_or_app. right. apply in_or_app. left.
      change (float_row now (k, q)) with (status_row now (k, Finite q)).
      now apply status_rows_has.
    + intros Hq. apply in_or_app. right. apply in_or_app. left.
      change (MetricRow now k None None) with (status_row now (k, NaN)).
      now apply status_rows_has.
    + intros e He r Hin Hn.
      apply in_app_or in Hin. destruct Hin as [Hin | Hin]; [exact Hin |].
      exfalso. apply in_app_or in Hin. destruct Hin as [Hin | Hin].
      * apply status_rows_In in Hin.
        destruct Hin as [d' [k' [x [Hd' [_ [Hx [-> _]]]]]]].
        inversion Hd'; subst d'. simpl in Hn. subst k'. congruence.
      * apply (Hother r Hin). now rewrite Hn.
  - intros Hbad r Hin Hn. rewrite collect_exact in Hin. simpl in Hin.
    rewrite Hgw in Hin.
    apply in_app_or in Hin. destruct Hin as [Hin | Hin]; [exact Hin |].
    exfalso. apply in_app_or in Hin. destruct Hin as [Hin | Hin].
    + unfold status_rows in Hin. rewrite (status_items_Raise d Hbad) in Hin.
      contradiction.
    + rewrite <- Hgw in Hin. exact (Hother r Hin Hn).
Qed.

End WithLib.

Lemma status_fields_recorded_witness :
  In (float_row 1000 ("cost_total", 0))
     (metrics (snd (_collect (lib := sample_lib)
                      (fun m _ => if (m =? "session_status")%string
                                  then Ok (VDict [("cost_total", VInt 0);
                                                  ("tokens_in_total", VNone)])
                                  else Raise (OtherError "down"))
                      1000 HistoryDB.empty))).
Proof.
  apply (proj1 (proj1 (proj2 (proj2
           (@status_fields_recorded sample_lib
              (fun m _ => if (m =? "session_status")%string
                          then Ok (VDict [("cost_total", VInt 0);
                                          ("tokens_in_total", VNone)])
                          else Raise (OtherError "down"))
              1000 HistoryDB.empty
              [("cost_total", VInt 0); ("tokens_in_total", VNone)]
              eq_refl)))
           ltac:(repeat constructor)
           "cost_total" (or_introl eq_refl)) 0).
  reflexivity.
Defined.

End StatusFields.
(* ------------------------------------------------------------------ *)
(** ** HistoryCollector: stopping, restarting and the period of the loop *)
(* ------------------------------------------------------------------ *)

Module LifecycleMore.
Import Lifecycle LifecycleSpec MoreSpec.

Lemma ticks_S (n : nat) (c : collector) : ticks (S n) c = ticks n (step c Tick).
Proof. reflexivity. Qed.

Lemma ticks_add (n m : nat) (c : collector) :
  ticks (n + m) c = ticks m (ticks n c).
Proof.
  unfold ticks, run. now rewrite repeat_app, fold_left_app.
Qed.

Lemma step_stopped (c : collector) (e : event) :
  e <> Start -> _stop_event c = true ->
  _stop_event (step c e) = true /\ cycles (step c e) = cycles c.
Proof.
  intros He Hs. destruct e as [| | | i]; simpl.
  - congruence.
  - auto.
  - destruct (_thread c) as [w |]; simpl; [| auto].
    rewrite Hs. split; [reflexivity |]. destruct w; simpl; lia.
  - rewrite Hs. split; [reflexivity |]. unfold cycles_nth.
    destruct (nth_error (orphans c) i) as [w |]; [| lia].
    destruct w; simpl; lia.
Qed.

Lemma run_stopped (events : list event) (c : collector) :
  Forall (fun e => e <> Start) events -> _stop_event c = true ->
  _stop_event (run events c) = true /\ cycles (run events c) = cycles c.
Proof.
  unfold run. intros H. revert c.
  induction H as [| e rest He _ IH]; intros c Hs; simpl; [auto |].
  destruct (step_stopped c He Hs) as [H1 H2].
  destruct (IH _ H1) as [H3 H4]. split; [exact H3 | congruence].
Qed.

Lemma tick_exited (c : collector) :
  running c = false -> running (step c Tick) = false.
Proof.
  unfold running. simpl. destruct (_thread c) as [w |] eqn:Ht; simpl;
    [| now rewrite Ht].
  destruct w; simpl; try discriminate. reflexivity.
Qed.

Lemma ticks_exited (n : nat) (c : collector) :
  running c = false -> running (ticks n c) = false.
Proof.
  revert c. induction n as [| n IH]; intros c H; [exact H |].
  rewrite ticks_S. apply IH. now apply tick_exited.
Qed.

Lemma two_ticks_stopped (c : collector) :
  _stop_event c = true -> running (ticks 2 c) = false.
Proof.
  intros Hs. destruct c as [s [w |] o n]; simpl in Hs; subst s; [| reflexivity].
  destruct w as [| | [| k] |]; reflexivity.
Qed.

Lemma ticks_stopped (n : nat) (c : collector) :
  (2 <= n)%nat -> _stop_event c = true -> running (ticks n c) = false.
Proof.
  intros Hn Hs. replace n with (2 + (n - 2))%nat by lia.
  rewrite ticks_add. apply ticks_exited. now apply two_ticks_stopped.
Qed.

Lemma ticks_no_start (n : nat) : Forall (fun e => e <> Start) (repeat Tick n).
Proof.
  apply Forall_forall. intros e H. apply repeat_spec in H. subst. discriminate.
Qed.

(** X20. After [stop()], as long as [start()] is not called, no thread
    begins a collection cycle, whatever steps the current thread and the
    earlier ones take; and the current thread has exited after two of its
    steps (the one that ends the pass it was in, if any, and the test of the
    event that follows). *)
Theorem stop_halts_collection (c : collector) (events : list event) :
  Forall (fun e => e <> Start) events ->
  cycles (run events (stop c)) = cycles c
  /\ _stop_event (run events (stop c)) = true
  /\ forall n, (2 <= n)%nat -> running (ticks n (stop c)) = false.
Proof.
  intros H. destruct (@run_stopped events (stop c) H eq_refl) as [H1 H2].
  split; [exact H2 |]. split; [exact H1 |].
  intros n Hn. now apply ticks_stopped.
Qed.

Lemma stop_halts_collection_witness :
  cycles (run [Tick; Tick; TickOrphan 0; Tick] (stop (ticks 2 (start initial))))
  = cycles (ticks 2 (start initial)).
Proof.
  apply (proj1 (@stop_halts_collection (ticks 2 (start initial))
                  [Tick; Tick; TickOrphan 0; Tick]
                  ltac:(repeat constructor; discriminate))).
Defined.

(** X21. [start()] called after [stop()] while the worker is still alive
    (the join in [stop()] gives up after five seconds) does nothing: the
    stop event stays set, so the worker exits within two steps and no
    cycle is begun any more, until [start()] is called again; that later
    call clears the event and starts a new worker. *)
Theorem start_after_stop_is_lost (c : collector) :
  running c = true ->
  start (stop c) = stop c
  /\ forall n, (2 <= n)%nat ->
       running (ticks n (start (stop c))) = false
       /\ cycles (ticks n (start (stop c))) = cycles c
       /\ running (start (ticks n (start (stop c)))) = true
       /\ _stop_event (start (ticks n (start (stop c)))) = false
       /\ cycles (ticks 1 (start (ticks n (start (stop c))))) = (cycles c + 1)%nat.
Proof.
  intros Hr.
  assert (E : start (stop c) = stop c).
  { unfold start. unfold running in *. simpl. now rewrite Hr. }
  split; [exact E |]. intros n Hn. rewrite E.
  assert (Hx : running (ticks n (stop c)) = false) by now apply ticks_stopped.
  destruct (@run_stopped (repeat Tick n) (stop c) (ticks_no_start n) eq_refl)
    as [_ Hc].
  fold (ticks n (stop c)) in Hc. simpl in Hc.
  split; [exact Hx |]. split; [exact Hc |].
  split; [apply start_running |].
  unfold start. rewrite Hx. split; [reflexivity |].
  change (cycles (ticks 1 (spawn (ticks n (stop c)))))
    with (cycles (ticks n (stop c)) + 1)%nat.
  now rewrite Hc.
Qed.

Lemma start_after_stop_is_lost_witness :
  start (stop (ticks 1 (start initial))) = stop (ticks 1 (start initial)).
Proof.
  apply (proj1 (@start_after_stop_is_lost (ticks 1 (start initial)) eq_refl)).
Defined.

Lemma sleep_through (k : nat) (o : list worker) (n : nat) :
  ticks (S k) (Collector false (Some (Sleeping k)) o n)
  = Collector false (Some AtLoopHead) o n.
Proof.
  revert n. induction k as [| k IH]; intros n.
  - unfold ticks, run. simpl. now rewrite Nat.add_0_r.
  - rewrite ticks_S. simpl. rewrite Nat.add_0_r. apply IH.
Qed.

Lemma sleep_cycles (k : nat) (o : list worker) (n m : nat) :
  (m <= S k)%nat ->
  cycles (ticks m (Collector false (Some (Sleeping k)) o n)) = n.
Proof.
  revert k n. induction m as [| m IH]; intros k n Hm; [reflexivity |].
  rewrite ticks_S. destruct k as [| k]; simpl.
  - assert (m = 0)%nat by lia. subst m. simpl. lia.
  - rewrite Nat.add_0_r. apply IH. lia.
Qed.

Lemma one_period (o : list worker) (n : nat) :
  ticks period (Collector false (Some AtLoopHead) o n)
  = Collector false (Some AtLoopHead) o (n + 1).
Proof.
  unfold period. replace (HistoryCollector.INTERVAL * 10 + 3)%nat
    with (S (S (S (HistoryCollector.INTERVAL * 10)))) by lia.
  do 2 rewrite ticks_S.
  cbn [step _thread _stop_event worker_step begins_cycle orphans cycles].
  rewrite Nat.add_0_r. apply sleep_through.
Qed.

Lemma within_period (o : list worker) (n m : nat) :
  (1 <= m <= period)%nat ->
  cycles (ticks m (Collector false (Some AtLoopHead) o n)) = (n + 1)%nat.
Proof.
  unfold period. intros Hm. destruct m as [| m]; [lia |].
  rewrite ticks_S. cbn [step _thread _stop_event worker_step begins_cycle orphans cycles].
  destruct m as [| m]; [reflexivity |].
  rewrite ticks_S. cbn [step _thread _stop_event worker_step begins_cycle orphans cycles].
  rewrite Nat.add_0_r. apply sleep_cycles. lia.
Qed.

Lemma periods (q : nat) (o : list worker) (n : nat) :
  ticks (q * period) (Collector false (Some AtLoopHead) o n)
  = Collector false (Some AtLoopHead) o (n + q).
Proof.
  revert n. induction q as [| q IH]; intros n.
  - simpl. now rewrite Nat.add_0_r.
  - replace (S q * period)%nat with (period + q * period)%nat by lia.
    rewrite ticks_add, one_period, IH. f_equal. lia.
Qed.

(** X22. A worker collects at once and then once per turn of the loop: on
    a collector that is not running, [start()] begins a worker whose first
    step begins a cycle, and, while nobody calls [stop()], after [q] full
    turns and [r] more steps, [0 < r] and at most one turn, it has begun
    [q + 1] cycles.  A turn is the test of the event, the cycle, [INTERVAL *
    10] slices of sleep and the end of the sleep loop. *)
Theorem collects_every_period (c : collector) (q r : nat) :
  running c = false ->
  (1 <= r <= period)%nat ->
  cycles (ticks 1 (start c)) = (cycles c + 1)%nat
  /\ cycles (ticks (q * period) (start c)) = (cycles c + q)%nat
  /\ cycles (ticks (q * period + r) (start c)) = (cycles c + q + 1)%nat
  /\ period = 603%nat.
Proof.
  intros Hr Hrange. unfold start. rewrite Hr. unfold spawn.
  split; [| split; [| split]].
  - reflexivity.
  - now rewrite periods.
  - rewrite ticks_add, periods. now apply within_period.
  - reflexivity.
Qed.

Lemma collects_every_period_witness :
  cycles (ticks (2 * period + 5) (start initial)) = 3%nat.
Proof.
  apply (proj1 (proj2 (proj2
           (@collects_every_period initial 2 5 eq_refl
              ltac:(unfold period, HistoryCollector.INTERVAL; lia))))).
Defined.

End LifecycleMore.

